(** * Counter maintenance of the 3D model sharing application

    A shallow embedding of the code that records like, comment, download
    and view facts and keeps the cached counters of the [models] table:

    - [database/schema.sql]: the tables [models], [likes], [comments],
      [downloads], [model_views], the unique constraint of [likes], the
      foreign keys with their cascade, the trigger function
      [update_model_counts] and the four [CREATE TRIGGER] bindings;
    - [backend/src/routes/models.js]: [GET /:id], [POST /:id/like],
      [POST /:id/comments], and the pagination arithmetic of [GET /];
    - [backend/src/routes/downloads.js]: [POST /:modelId];
    - [frontend/src/pages/ModelDetail.jsx]: [fetchModelDetails] and
      [handleDownload];
    - the upload routes (bundled at the end of [database_updates.sql]):
      [DELETE /:id];
    - [backend/src/routes/dashboard.js]: [PATCH /uploads/:id/status];
    - [backend/src/routes/users.js]: [POST] and [DELETE /:userId/follow],
      over the [follows] table;
    - [database/downloads-setup.sql]: the function it puts in place of
      [update_model_counts];
    - [FIREBASE_SETUP.md]: the schema revision of the frontend (the columns
      [file_path] and [downloads_count] of [models]) and its trigger
      function [update_model_download_count].

    Modelling choices.
    - The relational store is a record of tables.  [models] is a finite map
      from the primary key to the row; the fact tables are lists of rows in
      insertion order.  Columns that no counter, guard or response of the
      modelled routes reads (titles, timestamps, addresses) are left out.
    - Counters are [Z]: the columns are signed [INTEGER]s without a [CHECK]
      constraint, so negative values are representable.  The ends of the
      32-bit range are not values of the model: PostgreSQL raises on an
      update that would leave the range and undoes the statement, which is
      a failing call (below).
    - A SQL statement together with the row triggers it fires is one atomic
      store transition.
    - The routes access the store with a role that passes every row level
      security policy; so does the page in [handleDownload], which is what
      the policies grant the owner of the entity.  For any other user of
      the page they grant less: [handleDownload_as_client] runs the page
      under the policies of [models] and of [downloads], with the trigger
      running with the rights of the inserting user
      ([client_insert_download]).
    - Every external call of a request (a Prisma call, a Supabase call, a
      storage call) can fail; [faults k] tells whether the [k]-th call of
      the request fails for a reason the model of the store does not decide
      itself: the service is not reached, or PostgreSQL rejects a value (a
      counter that would leave the [INTEGER] range, an address that is not
      an [INET]).  A failing call leaves the store as it was. *)

From stdpp Require Import gmap list strings.
From Stdlib Require Import ZArith Lia.

Local Open Scope Z_scope.

(** ** Rows and tables *)

(** A row of [models].  The sources hold two revisions of the table:
    [schema.sql], against which the backend routes are written, with the
    flags and the four counters, its trigger-maintained download counter
    named [download_count]; and [FIREBASE_SETUP.md], against which the page
    [ModelDetail.jsx] is written, with [file_path TEXT] and
    [downloads_count INT DEFAULT 0], both nullable.  The record carries the
    columns of both, so that the routes and the page run on one store. *)
Record model_row := Model {
  m_user_id : Z;
  is_public : bool;
  is_free : bool;
  file_path : option string;
  download_count : Z;
  view_count : Z;
  like_count : Z;
  comment_count : Z;
  downloads_count : option Z
}.

Record like_row := Like {
  like_id : Z;
  like_model_id : Z;
  like_user_id : Z
}.

Record comment_row := Comment {
  comment_id : Z;
  comment_model_id : Z;
  comment_user_id : Z
}.

(** [user_id] of a download or a view is nullable ([ON DELETE SET NULL]). *)
Record download_row := Download {
  download_id : Z;
  download_model_id : Z;
  download_user_id : option Z
}.

Record view_row := View {
  view_id : Z;
  view_model_id : Z;
  view_user_id : option Z
}.

(** The store.  [next_id] is the generator of primary keys for new rows. *)
Record db := Db {
  models : gmap Z model_row;
  likes : list like_row;
  comments : list comment_row;
  downloads : list download_row;
  model_views : list view_row;
  next_id : Z
}.

(** Column updates of a [models] row: [SET col = f col]. *)
Definition set_download_count (f : Z → Z) (m : model_row) : model_row :=
  Model (m_user_id m) (is_public m) (is_free m) (file_path m)
        (f (download_count m)) (view_count m) (like_count m)
        (comment_count m) (downloads_count m).

Definition set_view_count (f : Z → Z) (m : model_row) : model_row :=
  Model (m_user_id m) (is_public m) (is_free m) (file_path m)
        (download_count m) (f (view_count m)) (like_count m)
        (comment_count m) (downloads_count m).

Definition set_like_count (f : Z → Z) (m : model_row) : model_row :=
  Model (m_user_id m) (is_public m) (is_free m) (file_path m)
        (download_count m) (view_count m) (f (like_count m))
        (comment_count m) (downloads_count m).

Definition set_comment_count (f : Z → Z) (m : model_row) : model_row :=
  Model (m_user_id m) (is_public m) (is_free m) (file_path m)
        (download_count m) (view_count m) (like_count m)
        (f (comment_count m)) (downloads_count m).

Definition set_downloads_count (v : option Z) (m : model_row) : model_row :=
  Model (m_user_id m) (is_public m) (is_free m) (file_path m)
        (download_count m) (view_count m) (like_count m)
        (comment_count m) v.

Definition with_models (ms : gmap Z model_row) (s : db) : db :=
  Db ms (likes s) (comments s) (downloads s) (model_views s) (next_id s).

(** ** The trigger function [update_model_counts] *)

Inductive tg_op := INSERT | DELETE | UPDATE.

Inductive tg_table := T_likes | T_comments | T_downloads | T_model_views.

(** [update_model_counts] with [TG_OP = op], [TG_TABLE_NAME = tbl] and
    [NEW.model_id] (for [INSERT]) or [OLD.model_id] (for [DELETE]) equal to
    [model_id].  Each branch is one [UPDATE public.models SET c = c ± 1
    WHERE id = model_id]; a missing row makes it update nothing. *)
Definition update_model_counts (op : tg_op) (tbl : tg_table) (model_id : Z)
    (ms : gmap Z model_row) : gmap Z model_row :=
  match op with
  | INSERT =>
      match tbl with
      | T_likes => alter (set_like_count (λ c, c + 1)) model_id ms
      | T_comments => alter (set_comment_count (λ c, c + 1)) model_id ms
      | T_downloads => alter (set_download_count (λ c, c + 1)) model_id ms
      | T_model_views => alter (set_view_count (λ c, c + 1)) model_id ms
      end
  | DELETE =>
      match tbl with
      | T_likes => alter (set_like_count (λ c, c - 1)) model_id ms
      | T_comments => alter (set_comment_count (λ c, c - 1)) model_id ms
      | _ => ms
      end
  | UPDATE => ms
  end.

(** The [CREATE TRIGGER] bindings: likes and comments fire [AFTER INSERT OR
    DELETE], downloads and model_views [AFTER INSERT] only. *)
Definition trigger_bound (tbl : tg_table) (op : tg_op) : bool :=
  match tbl, op with
  | T_likes, (INSERT | DELETE) => true
  | T_comments, (INSERT | DELETE) => true
  | T_downloads, INSERT => true
  | T_model_views, INSERT => true
  | _, _ => false
  end.

(** The row trigger fired by a statement [op] on one row of [tbl]. *)
Definition fire (tbl : tg_table) (op : tg_op) (model_id : Z)
    (ms : gmap Z model_row) : gmap Z model_row :=
  if trigger_bound tbl op then update_model_counts op tbl model_id ms else ms.

(** ** Statements of the store *)

Inductive call_error :=
| Foreign_key_violation
| Unique_violation
| Record_not_found
| Call_failed.

(** The row triggers of a statement that touches [rows] of [tbl], one firing
    per row ([FOR EACH ROW]). *)
Definition fire_each {A : Type} (tbl : tg_table) (op : tg_op) (key : A → Z)
    (rows : list A) (ms : gmap Z model_row) : gmap Z model_row :=
  foldr (λ r acc, fire tbl op (key r) acc) ms rows.

(** [INSERT INTO likes (model_id, user_id)]: the foreign key to [models],
    then [UNIQUE(model_id, user_id)], then the row and its trigger. *)
Definition insert_like (model_id user_id : Z) (s : db) : call_error + db :=
  match models s !! model_id with
  | None => inl Foreign_key_violation
  | Some _ =>
      if decide (Exists (λ r, like_model_id r = model_id ∧ like_user_id r = user_id)
                        (likes s))
      then inl Unique_violation
      else inr (Db (fire T_likes INSERT model_id (models s))
                   (likes s ++ [Like (next_id s) model_id user_id])
                   (comments s) (downloads s) (model_views s) (next_id s + 1))
  end.

(** [DELETE FROM likes WHERE id = id]. *)
Definition delete_like (id : Z) (s : db) : db :=
  Db (fire_each T_likes DELETE like_model_id
        (filter (λ r, like_id r = id) (likes s)) (models s))
     (filter (λ r, like_id r ≠ id) (likes s))
     (comments s) (downloads s) (model_views s) (next_id s).

(** [INSERT INTO comments (content, model_id, user_id)]. *)
Definition insert_comment (model_id user_id : Z) (s : db)
    : call_error + (comment_row * db) :=
  match models s !! model_id with
  | None => inl Foreign_key_violation
  | Some _ =>
      let c := Comment (next_id s) model_id user_id in
      inr (c, Db (fire T_comments INSERT model_id (models s)) (likes s)
                 (comments s ++ [c]) (downloads s) (model_views s)
                 (next_id s + 1))
  end.

(** [DELETE FROM comments WHERE id = id]. *)
Definition delete_comment (id : Z) (s : db) : db :=
  Db (fire_each T_comments DELETE comment_model_id
        (filter (λ r, comment_id r = id) (comments s)) (models s))
     (likes s)
     (filter (λ r, comment_id r ≠ id) (comments s))
     (downloads s) (model_views s) (next_id s).

(** [INSERT INTO downloads (model_id, user_id, ...)]. *)
Definition insert_download (model_id : Z) (user_id : option Z) (s : db)
    : call_error + db :=
  match models s !! model_id with
  | None => inl Foreign_key_violation
  | Some _ =>
      inr (Db (fire T_downloads INSERT model_id (models s)) (likes s)
              (comments s)
              (downloads s ++ [Download (next_id s) model_id user_id])
              (model_views s) (next_id s + 1))
  end.

(** [INSERT INTO model_views (model_id, user_id, ...)]. *)
Definition insert_model_view (model_id : Z) (user_id : option Z) (s : db)
    : call_error + db :=
  match models s !! model_id with
  | None => inl Foreign_key_violation
  | Some _ =>
      inr (Db (fire T_model_views INSERT model_id (models s)) (likes s)
              (comments s) (downloads s)
              (model_views s ++ [View (next_id s) model_id user_id])
              (next_id s + 1))
  end.

(** [DELETE FROM models WHERE id = id]: the row goes, then every fact row
    that references it ([ON DELETE CASCADE]); the cascaded deletes of likes
    and comments fire their [DELETE] triggers. *)
Definition delete_model (id : Z) (s : db) : db :=
  Db (fire_each T_comments DELETE comment_model_id
        (filter (λ r, comment_model_id r = id) (comments s))
        (fire_each T_likes DELETE like_model_id
           (filter (λ r, like_model_id r = id) (likes s))
           (delete id (models s))))
     (filter (λ r, like_model_id r ≠ id) (likes s))
     (filter (λ r, comment_model_id r ≠ id) (comments s))
     (filter (λ r, download_model_id r ≠ id) (downloads s))
     (filter (λ r, view_model_id r ≠ id) (model_views s))
     (next_id s).

(** [UPDATE models SET view_count = view_count + 1 WHERE id = id], the
    statement Prisma issues for [data: { viewCount: { increment: 1 } }]. *)
Definition increment_view_count (id : Z) (s : db) : db :=
  with_models (alter (set_view_count (λ c, c + 1)) id (models s)) s.

(** [UPDATE models SET downloads_count = v WHERE id = id]: the value is
    computed by the caller. *)
Definition write_downloads_count (v : Z) (id : Z) (s : db) : db :=
  with_models (alter (set_downloads_count (Some v)) id (models s)) s.

(** The live number of fact rows that reference an entity. *)
Definition count_likes (s : db) (id : Z) : Z :=
  Z.of_nat (length (filter (λ r, like_model_id r = id) (likes s))).
Definition count_comments (s : db) (id : Z) : Z :=
  Z.of_nat (length (filter (λ r, comment_model_id r = id) (comments s))).
Definition count_downloads (s : db) (id : Z) : Z :=
  Z.of_nat (length (filter (λ r, download_model_id r = id) (downloads s))).
Definition count_views (s : db) (id : Z) : Z :=
  Z.of_nat (length (filter (λ r, view_model_id r = id) (model_views s))).

(** ** Queries *)

(** [findFirst({ where: { id, isPublic: true } })] and
    [.eq('id', id).eq('is_public', true)]. *)
Definition find_public_model (id : Z) (s : db) : option model_row :=
  match models s !! id with
  | Some m => if is_public m then Some m else None
  | None => None
  end.

(** [findFirst({ where: { id, creatorId } })]. *)
Definition find_owned_model (id user : Z) (s : db) : option model_row :=
  match models s !! id with
  | Some m => if decide (m_user_id m = user) then Some m else None
  | None => None
  end.

(** [like.findFirst({ where: { modelId, userId } })]. *)
Definition find_like (model_id user_id : Z) (s : db) : option like_row :=
  head (filter (λ r, like_model_id r = model_id ∧ like_user_id r = user_id)
               (likes s)).

(** [findUnique({ where: { id }, include: { _count: ... } })]: the row and
    the live counts of its relations. *)
Record relation_counts := Counts {
  _likes : Z;
  _comments : Z;
  _downloads : Z;
  _views : Z
}.

Definition find_unique_model (id : Z) (s : db)
    : option (model_row * relation_counts) :=
  match models s !! id with
  | Some m => Some (m, Counts (count_likes s id) (count_comments s id)
                              (count_downloads s id) (count_views s id))
  | None => None
  end.

(** Prisma's [delete] and [update] address one record by its key and raise
    when there is none. *)
Definition prisma_like_delete (id : Z) (s : db) : call_error + db :=
  if decide (Exists (λ r, like_id r = id) (likes s))
  then inr (delete_like id s) else inl Record_not_found.

Definition prisma_model_delete (id : Z) (s : db) : call_error + db :=
  match models s !! id with
  | Some _ => inr (delete_model id s)
  | None => inl Record_not_found
  end.

Definition prisma_view_increment (id : Z) (s : db) : call_error + db :=
  match models s !! id with
  | Some _ => inr (increment_view_count id s)
  | None => inl Record_not_found
  end.

(** ** Request handlers *)

(** What a handler has done so far: it goes on with a value, it has sent
    its result (an early [return]), or an exception is in flight. *)
Inductive outcome (R A : Type) :=
| Next (a : A)
| Sent (r : R)
| Thrown (e : call_error).
Arguments Next {R A} a.
Arguments Sent {R A} r.
Arguments Thrown {R A} e.

Definition handler (R A : Type) : Type := db → outcome R A * db.

#[global] Instance handler_ret {R} : MRet (handler R) :=
  λ A a s, (Next a, s).

#[global] Instance handler_bind {R} : MBind (handler R) :=
  λ A B f h s,
    match h s with
    | (Next a, s') => f a s'
    | (Sent r, s') => (Sent r, s')
    | (Thrown e, s') => (Thrown e, s')
    end.

Definition send {R A} (r : R) : handler R A := λ s, (Sent r, s).

Definition throw {R A} (e : call_error) : handler R A := λ s, (Thrown e, s).

(** [try { h } catch (error) { on_error }]. *)
Definition try_catch {R} (h : handler R R) (on_error : R) : db → R * db :=
  λ s, match h s with
       | (Next r, s') => (r, s')
       | (Sent r, s') => (r, s')
       | (Thrown _, s') => (on_error, s')
       end.

(** A Prisma call: the awaited promise rejects on failure. *)
Definition prisma_query {R A} (fault : bool) (q : db → A) : handler R A :=
  λ s, if fault then (Thrown Call_failed, s) else (Next (q s), s).

Definition prisma_exec {R A} (fault : bool) (m : db → call_error + (A * db))
    : handler R A :=
  λ s, if fault then (Thrown Call_failed, s)
       else match m s with
            | inl e => (Thrown e, s)
            | inr (a, s') => (Next a, s')
            end.

Definition unit_result (r : call_error + db) : call_error + (unit * db) :=
  match r with inl e => inl e | inr s => inr (tt, s) end.

(** A Supabase call resolves to [{ data, error }] and never rejects.
    [.single()] reports an error when no row matches. *)
Definition supabase_single {R A} (fault : bool) (q : db → option A)
    : handler R (call_error + A) :=
  λ s, if fault then (Next (inl Call_failed), s)
       else match q s with
            | Some a => (Next (inr a), s)
            | None => (Next (inl Record_not_found), s)
            end.

Definition supabase_exec {R} (fault : bool) (m : db → call_error + db)
    : handler R (option call_error) :=
  λ s, if fault then (Next (Some Call_failed), s)
       else match m s with
            | inl e => (Next (Some e), s)
            | inr s' => (Next None, s')
            end.

(** A call to the object storage; the store is not involved. *)
Definition storage_call {R} (fault : bool) : handler R (option call_error) :=
  λ s, (Next (if fault then Some Call_failed else None), s).

(** *** Responses of the backend *)

Inductive body :=
| B_error (error : string)
| B_errors
| B_message (message : string)
| B_like (message : string) (liked : bool)
| B_comment (message : string) (comment : comment_row)
| B_model (model : model_row) (counts : relation_counts)
          (view_count download_count like_count comment_count : Z)
| B_file (model : model_row).

Record response := Response { status : Z; payload : body }.

Definition internal_server_error : response :=
  Response 500 (B_error "Internal server error").

(** *** [GET /:id] *)
Definition get_model_route (faults : nat → bool) (id : Z)
    : db → response * db :=
  try_catch
    (found ← prisma_query (faults 0%nat) (find_unique_model id);
     match found with
     | None => send (Response 404 (B_error "Model not found"))
     | Some (model, counts) =>
         _ ← prisma_exec (faults 1%nat)
               (λ s, unit_result (prisma_view_increment id s));
         send (Response 200
                 (B_model model counts (view_count model)
                    (download_count model) (like_count model)
                    (_comments counts)))
     end)
    internal_server_error.

(** *** [POST /:id/like]; [modelId] is [parseInt(id)], [None] for [NaN] *)
Definition like_route (faults : nat → bool) (modelId : option Z) (user : Z)
    : db → response * db :=
  try_catch
    (match modelId with
     | None => send (Response 400 (B_error "Invalid model ID"))
     | Some modelId =>
         model ← prisma_query (faults 0%nat) (find_public_model modelId);
         match model with
         | None => send (Response 404 (B_error "Model not found"))
         | Some _ =>
             existingLike ← prisma_query (faults 1%nat)
                              (find_like modelId user);
             match existingLike with
             | Some l =>
                 _ ← prisma_exec (faults 2%nat)
                       (λ s, unit_result (prisma_like_delete (like_id l) s));
                 send (Response 200 (B_like "Model unliked" false))
             | None =>
                 _ ← prisma_exec (faults 2%nat)
                       (λ s, unit_result (insert_like modelId user s));
                 send (Response 200 (B_like "Model liked" true))
             end
         end
     end)
    internal_server_error.

(** *** [POST /:id/comments] *)

(** [body('content').isLength({ min: 1, max: 1000 })].  The content is a
    string of bytes and its length is counted in bytes, which is the number
    of characters [isLength] counts when the content is ASCII; for any other
    content this check is the stricter of the two. *)
Definition valid_content (content : string) : bool :=
  (1 <=? String.length content)%nat && (String.length content <=? 1000)%nat.

Definition comment_route (faults : nat → bool) (modelId : option Z)
    (content : string) (user : Z) : db → response * db :=
  try_catch
    (if negb (valid_content content) then send (Response 400 B_errors)
     else
       match modelId with
       | None => send (Response 400 (B_error "Invalid model ID"))
       | Some modelId =>
           model ← prisma_query (faults 0%nat) (find_public_model modelId);
           match model with
           | None => send (Response 404 (B_error "Model not found"))
           | Some _ =>
               comment ← prisma_exec (faults 1%nat)
                           (insert_comment modelId user);
               send (Response 201
                       (B_comment "Comment added successfully" comment))
           end
       end)
    internal_server_error.

(** *** [POST /:modelId] of the download routes *)
Definition download_route (faults : nat → bool) (modelId userId : Z)
    : db → response * db :=
  try_catch
    (found ← supabase_single (faults 0%nat) (find_public_model modelId);
     match found with
     | inl _ => send (Response 404 (B_error "Model not found or not public"))
     | inr model =>
         if negb (is_free model) && negb (bool_decide (m_user_id model = userId))
         then send (Response 403 (B_error "This model requires payment"))
         else
           downloadError ← supabase_exec (faults 1%nat)
                             (insert_download modelId (Some userId));
           fileError ← storage_call (faults 2%nat);
           match fileError with
           | Some _ => send (Response 500 (B_error "Failed to download file"))
           | None => send (Response 200 (B_file model))
           end
     end)
    internal_server_error.

(** *** [DELETE /:id] of the upload routes (behind [authenticateToken] and
    [requireRole], which let the request through) *)
Definition delete_model_route (faults : nat → bool) (modelId : option Z)
    (user : Z) : db → response * db :=
  try_catch
    (match modelId with
     | None => send (Response 400 (B_error "Invalid model ID"))
     | Some modelId =>
         model ← prisma_query (faults 0%nat) (find_owned_model modelId user);
         match model with
         | None => send (Response 404 (B_error "Model not found"))
         | Some _ =>
             _ ← prisma_exec (faults 1%nat)
                   (λ s, unit_result (prisma_model_delete modelId s));
             send (Response 200 (B_message "Model deleted successfully"))
         end
     end)
    internal_server_error.

(** *** The model detail page of the frontend *)

(** The React state [model]: the row as [fetchModelDetails] last saw it. *)
Record client_model := ClientModel {
  cm_id : Z;
  cm_file_path : option string;
  cm_downloads_count : option Z
}.

Inductive toast :=
| toast_error (message : string)
| toast_success (message : string).

(** [select(...).eq('id', modelId).single()]. *)
Definition fetchModelDetails (id : Z) (s : db) : option client_model :=
  match models s !! id with
  | Some m => Some (ClientModel id (file_path m) (downloads_count m))
  | None => None
  end.

(** JavaScript's [!model.file_path]: null, undefined and the empty string
    are falsy. *)
Definition falsy_path (p : option string) : bool :=
  match p with
  | None => true
  | Some p => bool_decide (p = ""%string)
  end.

(** JavaScript's [n || 0] on a nullable number. *)
Definition or_zero (n : option Z) : Z :=
  match n with
  | Some n => n
  | None => 0
  end.

(** [handleDownload], with the page state [isAuthenticated], [model] and
    [user.id].  The two store calls run with full rights: what the policies
    grant when [user] owns the entity (see [client_insert_download] for the
    insert of any other user). *)
Definition handleDownload (faults : nat → bool) (isAuthenticated : bool)
    (model : client_model) (user : Z) : db → toast * db :=
  if negb isAuthenticated
  then λ s, (toast_error "Please log in to download models", s)
  else if falsy_path (cm_file_path model)
  then λ s, (toast_error "No file available for download", s)
  else
    try_catch
      (error ← storage_call (faults 0%nat);
       match error with
       | Some e => throw e
       | None =>
           downloadError ← supabase_exec (faults 1%nat)
                             (insert_download (cm_id model) (Some user));
           updateError ← supabase_exec (faults 2%nat)
               (λ s, inr (write_downloads_count
                            (or_zero (cm_downloads_count model) + 1)
                            (cm_id model) s));
           send (toast_success "Download started!")
       end)
      (toast_error "Failed to download model").

Definition no_faults : nat → bool := λ _, false.

(** ** Sequences of requests *)

Inductive request :=
| Get_model (faults : nat → bool) (id : Z)
| Post_like (faults : nat → bool) (modelId : option Z) (user : Z)
| Post_comment (faults : nat → bool) (modelId : option Z) (content : string)
               (user : Z)
| Post_download (faults : nat → bool) (modelId userId : Z)
| Delete_model (faults : nat → bool) (modelId : option Z) (user : Z)
| Handle_download (faults : nat → bool) (isAuthenticated : bool)
                  (model : client_model) (user : Z).

(** The store after one request. *)
Definition serve (r : request) (s : db) : db :=
  match r with
  | Get_model f id => (get_model_route f id s).2
  | Post_like f id u => (like_route f id u s).2
  | Post_comment f id c u => (comment_route f id c u s).2
  | Post_download f id u => (download_route f id u s).2
  | Delete_model f id u => (delete_model_route f id u s).2
  | Handle_download f a m u => (handleDownload f a m u s).2
  end.

Definition serve_all (rs : list request) (s : db) : db :=
  foldl (λ acc r, serve r acc) s rs.

(** The requests that record or remove facts and leave the entities alone. *)
Definition records_facts (r : request) : bool :=
  match r with
  | Delete_model _ _ _ => false
  | _ => true
  end.

(** The statements the requests issue, and the two that only the policies
    of [schema.sql] let a client issue (deleting a comment, recording a
    view).  A statement that fails leaves the store as it was. *)
Inductive statement :=
| S_insert_like (model_id user_id : Z)
| S_delete_like (id : Z)
| S_insert_comment (model_id user_id : Z)
| S_delete_comment (id : Z)
| S_insert_download (model_id : Z) (user_id : option Z)
| S_insert_model_view (model_id : Z) (user_id : option Z)
| S_delete_model (id : Z)
| S_increment_view_count (id : Z)
| S_write_downloads_count (v : Z) (id : Z).

Definition or_unchanged (s : db) (r : call_error + db) : db :=
  match r with
  | inl _ => s
  | inr s' => s'
  end.

Definition execute (st : statement) (s : db) : db :=
  match st with
  | S_insert_like id u => or_unchanged s (insert_like id u s)
  | S_delete_like x => delete_like x s
  | S_insert_comment id u =>
      match insert_comment id u s with
      | inl _ => s
      | inr (_, s') => s'
      end
  | S_delete_comment x => delete_comment x s
  | S_insert_download id u => or_unchanged s (insert_download id u s)
  | S_insert_model_view id u => or_unchanged s (insert_model_view id u s)
  | S_delete_model id => delete_model id s
  | S_increment_view_count id => increment_view_count id s
  | S_write_downloads_count v id => write_downloads_count v id s
  end.

Definition execute_all (sts : list statement) (s : db) : db :=
  foldl (λ acc st, execute st acc) s sts.

Definition deletes_model (st : statement) : Prop :=
  match st with
  | S_delete_model _ => True
  | _ => False
  end.

(** The counter a fact table feeds. *)
Definition counter (tbl : tg_table) (m : model_row) : Z :=
  match tbl with
  | T_likes => like_count m
  | T_comments => comment_count m
  | T_downloads => download_count m
  | T_model_views => view_count m
  end.

Definition set_counter (tbl : tg_table) (f : Z → Z) : model_row → model_row :=
  match tbl with
  | T_likes => set_like_count f
  | T_comments => set_comment_count f
  | T_downloads => set_download_count f
  | T_model_views => set_view_count f
  end.

(** ** Consistency predicates *)

(** [UNIQUE(model_id, user_id)] on [likes]. *)
Definition likes_unique (s : db) : Prop :=
  NoDup ((λ r, (like_model_id r, like_user_id r)) <$> likes s).

Definition liked_by (s : db) (model_id user_id : Z) : Prop :=
  Exists (λ r, like_model_id r = model_id ∧ like_user_id r = user_id) (likes s).

(** The key generator is ahead of every like row. *)
Definition keys_fresh (s : db) : Prop :=
  Forall (λ k, like_id k < next_id s) (likes s).

(** The download rows and the view rows of an entity in [s'] are those of
    [s], possibly followed by new ones. *)
Definition rows_extend (s s' : db) (id : Z) : Prop :=
  filter (λ d, download_model_id d = id) (downloads s)
    `prefix_of` filter (λ d, download_model_id d = id) (downloads s') ∧
  filter (λ v, view_model_id v = id) (model_views s)
    `prefix_of` filter (λ v, view_model_id v = id) (model_views s').

(** The three counters that only the triggers write equal the live counts. *)
Definition trigger_counters_consistent (s : db) (id : Z) : Prop :=
  ∀ m, models s !! id = Some m →
    like_count m = count_likes s id ∧
    comment_count m = count_comments s id ∧
    download_count m = count_downloads s id.

Definition view_counter_consistent (s : db) (id : Z) : Prop :=
  ∀ m, models s !! id = Some m → view_count m = count_views s id.

(** ** Concurrent like requests

    A like request awaits the store three times; between two awaits other
    requests run.  A thread is a like request cut at its awaits, and a
    schedule picks the thread that performs its next store call. *)

Inductive like_pc :=
| At_find_model
| At_find_like
| At_mutation (existingLike : option like_row)
| Finished (r : response).

Record like_thread := Thread {
  th_user : Z;
  th_faults : nat → bool;
  th_pc : like_pc
}.

Definition liked_response : response :=
  Response 200 (B_like "Model liked" true).

Definition unliked_response : response :=
  Response 200 (B_like "Model unliked" false).

(** One store call of [POST /:id/like] for the parsed id [modelId]. *)
Definition like_step (modelId : Z) (t : like_thread) (s : db)
    : like_pc * db :=
  match th_pc t with
  | At_find_model =>
      if th_faults t 0%nat then (Finished internal_server_error, s)
      else match find_public_model modelId s with
           | None => (Finished (Response 404 (B_error "Model not found")), s)
           | Some _ => (At_find_like, s)
           end
  | At_find_like =>
      if th_faults t 1%nat then (Finished internal_server_error, s)
      else (At_mutation (find_like modelId (th_user t) s), s)
  | At_mutation (Some l) =>
      if th_faults t 2%nat then (Finished internal_server_error, s)
      else match prisma_like_delete (like_id l) s with
           | inl _ => (Finished internal_server_error, s)
           | inr s' => (Finished unliked_response, s')
           end
  | At_mutation None =>
      if th_faults t 2%nat then (Finished internal_server_error, s)
      else match insert_like modelId (th_user t) s with
           | inl _ => (Finished internal_server_error, s)
           | inr s' => (Finished liked_response, s')
           end
  | Finished r => (Finished r, s)
  end.

Definition set_pc (pc : like_pc) (t : like_thread) : like_thread :=
  Thread (th_user t) (th_faults t) pc.

(** The threads and the store after the schedule [sched]: each entry names
    the thread that moves; an index outside the pool is skipped. *)
Fixpoint run (modelId : Z) (sched : list nat) (ts : list like_thread)
    (s : db) : list like_thread * db :=
  match sched with
  | [] => (ts, s)
  | i :: sched =>
      match ts !! i with
      | None => run modelId sched ts s
      | Some t =>
          let '(pc, s') := like_step modelId t s in
          run modelId sched (<[i := set_pc pc t]> ts) s'
      end
  end.

Definition spawn (faults : Z → nat → bool) (users : list Z) : list like_thread :=
  (λ u, Thread u (faults u) At_find_model) <$> users.

Definition finished (t : like_thread) : Prop :=
  match th_pc t with
  | Finished _ => True
  | _ => False
  end.

(** The likes a pool of threads has created. *)
Definition credit (t : like_thread) : Z :=
  match th_pc t with
  | Finished (Response 200 (B_like _ true)) => 1
  | _ => 0
  end.

Definition credits (ts : list like_thread) : Z :=
  foldr (λ t acc, credit t + acc) 0 ts.

Definition count_rows (tbl : tg_table) (s : db) (id : Z) : Z :=
  match tbl with
  | T_likes => count_likes s id
  | T_comments => count_comments s id
  | T_downloads => count_downloads s id
  | T_model_views => count_views s id
  end.

(** What one firing of the trigger adds to the counter of its table. *)
Definition delta (tbl : tg_table) (op : tg_op) : Z :=
  match op, tbl with
  | INSERT, _ => 1
  | DELETE, (T_likes | T_comments) => -1
  | _, _ => 0
  end.

(** ** Sample stores *)

(** A public, free entity of user 7 with a file, all counters at zero. *)
Definition fresh_entity : model_row :=
  Model 7 true true (Some "models/chair.glb"%string) 0 0 0 0 (Some 0).

(** The store that holds [fresh_entity] under key 1 and no fact row. *)
Definition fresh_db : db := Db {[1 := fresh_entity]} [] [] [] [] 1.

(** A store whose entity 1 has [downloads_count = 5], and the page state of
    a client that fetched the entity when the column still held 3. *)
Definition busy_db : db :=
  Db {[1 := set_downloads_count (Some 5) fresh_entity]} [] [] [] [] 1.

Definition stale_model : client_model :=
  ClientModel 1 (Some "models/chair.glb"%string) (Some 3).

(** A store in which user 5 likes entity 1 while the cached [like_count]
    of the entity is 0. *)
Definition drifted_db : db :=
  Db {[1 := fresh_entity]} [Like 1 1 5] [] [] [] 2.

(** The second call of the request fails, every other call succeeds. *)
Definition second_call_fails : nat → bool := λ k, bool_decide (k = 1%nat).

(** Entity 1 of user 7 with one download by user 5, counted. *)
Definition downloaded_db : db :=
  Db {[1 := set_download_count (λ _, 1) fresh_entity]} [] []
     [Download 1 1 (Some 5)] [] 2.

(** A private entity of user 7 that is not free. *)
Definition private_paid_entity : model_row :=
  Model 7 false false (Some "models/chair.glb"%string) 0 0 0 0 (Some 0).

Definition private_paid_db : db :=
  Db {[1 := private_paid_entity]} [] [] [] [] 1.

(** A public entity of user 7 that is not free. *)
Definition paid_entity : model_row :=
  Model 7 true false (Some "models/chair.glb"%string) 0 0 0 0 (Some 0).

Definition paid_db : db := Db {[1 := paid_entity]} [] [] [] [] 1.

(** The third call of the request fails, every other call succeeds. *)
Definition third_call_fails : nat → bool := λ k, bool_decide (k = 2%nat).

(** The statements a request can issue. *)
Definition issues (r : request) (st : statement) : Prop :=
  match r with
  | Get_model _ id => st = S_increment_view_count id
  | Post_like _ modelId u =>
      ∃ id, modelId = Some id ∧
            (st = S_insert_like id u ∨ ∃ x, st = S_delete_like x)
  | Post_comment _ modelId _ u =>
      ∃ id, modelId = Some id ∧ st = S_insert_comment id u
  | Post_download _ id u => st = S_insert_download id (Some u)
  | Delete_model _ modelId _ =>
      ∃ id, modelId = Some id ∧ st = S_delete_model id
  | Handle_download _ _ model u =>
      st = S_insert_download (cm_id model) (Some u) ∨
      st = S_write_downloads_count (or_zero (cm_downloads_count model) + 1)
             (cm_id model)
  end.

(** How far a cached counter is from the live count of its fact rows. *)
Definition drift (tbl : tg_table) (s : db) (id : Z) (m : model_row) : Z :=
  counter tbl m - count_rows tbl s id.

(** The schedule that lets each of [n] threads run to its end in turn. *)
Definition one_by_one (n : nat) : list nat :=
  flat_map (λ i, [i; i; i]) (seq 0 n).

(** What the pool of concurrent like requests on entity [E] maintains: a
    thread that has not yet created its like is the only one that could
    (users are distinct), a thread none of whose calls fails ends with
    "liked", and the counter and the rows of [E] have grown by the likes
    created so far. *)
Definition thread_ok (s : db) (E : Z) (t : like_thread) : Prop :=
  match th_pc t with
  | At_find_model | At_find_like | At_mutation None =>
      ¬ liked_by s E (th_user t)
  | At_mutation (Some _) => False
  | Finished r => (∀ k, th_faults t k = false) → r = liked_response
  end.

Definition pool_inv (E : Z) (likes0 rows0 : Z) (ts : list like_thread)
    (s : db) : Prop :=
  (∃ m, models s !! E = Some m ∧ is_public m = true ∧
        like_count m = likes0 + credits ts) ∧
  count_likes s E = rows0 + credits ts ∧
  Forall (thread_ok s E) ts ∧
  NoDup (th_user <$> ts).

(** ** The pagination of [GET /] ([models.js])

    [const { page = 1, limit = 20 } = req.query], then [parseInt],
    [Math.min], the offset and the page count of the answer, all computed
    in JavaScript numbers. *)

(** The numbers the route can produce from [parseInt] with [Math.min], [-]
    and [*]: [NaN], the two infinities, and the doubles whose value is an
    integer, [Int z] for the double of value [z].  The two zeros are not
    told apart (the answer is sent as JSON, where both read [0]). *)
Inductive number :=
| NaN
| Infinity (negative : bool)
| Int (z : Z).

(** Round to nearest, ties to even: the quotient [q] of a division by [den]
    that left the remainder [r]. *)
Definition round_half_even (q r den : Z) : Z :=
  if decide (den < 2 * r) then q + 1
  else if decide (2 * r = den) then (if Z.even q then q else q + 1)
  else q.

(** The double an integer result is rounded to: 53 significant bits, and
    an infinity from [2^1024 - 2^970] on. *)
Definition round_double (z : Z) : number :=
  let a := Z.abs z in
  let e := Z.log2 a - 52 in
  if decide (e ≤ 0) then Int z
  else
    let q := round_half_even (a / 2 ^ e) (a mod 2 ^ e) (2 ^ e) in
    if decide (2 ^ 1024 ≤ q * 2 ^ e) then Infinity (bool_decide (z < 0))
    else Int (Z.sgn z * (q * 2 ^ e)).

(** [x - 1]. *)
Definition minus_one (x : number) : number :=
  match x with
  | Int z => round_double (z - 1)
  | _ => x
  end.

(** [x * y]. *)
Definition times (x y : number) : number :=
  match x, y with
  | NaN, _ | _, NaN => NaN
  | Int a, Int b => round_double (a * b)
  | Infinity n, Int b | Int b, Infinity n =>
      if decide (b = 0) then NaN else Infinity (xorb n (bool_decide (b < 0)))
  | Infinity n, Infinity n' => Infinity (xorb n n')
  end.

(** [Math.min(x, 100)]. *)
Definition min_100 (x : number) : number :=
  match x with
  | NaN => NaN
  | Infinity true => Infinity true
  | Infinity false => Int 100
  | Int z => Int (Z.min z 100)
  end.

(** The double nearest to [a / b] for positive integers [a] and [b], as a
    significand and a binary exponent: [q * 2^e].  The exponent is the one
    that leaves 53 significant bits, and not less than that of the
    subnormal numbers. *)
Definition quotient_double (a b : Z) : Z * Z :=
  let k := Z.log2 a - Z.log2 b in
  let e := Z.max (k - 53) (-1074) in
  let num := if decide (0 < e) then a else a * 2 ^ (- e) in
  let den := if decide (0 < e) then b * 2 ^ e else b in
  if decide (2 ^ 53 ≤ num / den) then
    let e := Z.max (k - 52) (-1074) in
    let num := if decide (0 < e) then a else a * 2 ^ (- e) in
    let den := if decide (0 < e) then b * 2 ^ e else b in
    (round_half_even (num / den) (num mod den) den, e)
  else (round_half_even (num / den) (num mod den) den, e).

(** [Math.ceil] and [Math.floor] of [q * 2^e]. *)
Definition ceil_scaled (q e : Z) : Z :=
  if decide (0 < e) then q * 2 ^ e else - ((- q) / 2 ^ (- e)).

Definition floor_scaled (q e : Z) : Z :=
  if decide (0 < e) then q * 2 ^ e else q / 2 ^ (- e).

(** [Math.ceil(a / b)] for a row count [a] (not negative) and [b] other
    than zero. *)
Definition ceil_quotient (a b : Z) : Z :=
  if decide (a = 0) then 0
  else let '(q, e) := quotient_double a (Z.abs b) in
       if decide (0 < b) then ceil_scaled q e else - floor_scaled q e.

(** A query parameter: absent, or present with what [parseInt] makes of
    it. *)
Inductive query_param :=
| Absent
| Present (parsed : number).

(** [parseInt(page)] with the default [page = 1]. *)
Definition pageNum (page : query_param) : number :=
  match page with
  | Absent => Int 1
  | Present parsed => parsed
  end.

(** [Math.min(parseInt(limit), 100)] with the default [limit = 20]. *)
Definition limitNum (limit : query_param) : number :=
  match limit with
  | Absent => min_100 (Int 20)
  | Present parsed => min_100 parsed
  end.

(** [(pageNum - 1) * limitNum]. *)
Definition skip (page limit : query_param) : number :=
  times (minus_one (pageNum page)) (limitNum limit).

(** [pages: Math.ceil(total / limitNum)] as [res.json] sends it, for the
    row count [total]: a number, or [null] ([None]) for [NaN] and for the
    infinite quotient by zero. *)
Definition pages (total : Z) (limit : query_param) : option Z :=
  match limitNum limit with
  | NaN => None
  | Infinity _ => Some 0
  | Int l => if decide (l = 0) then None else Some (ceil_quotient total l)
  end.

(** The rows [OFFSET skip LIMIT take] selects from an ordered result, for a
    non-negative offset and limit. *)
Definition offset_limit {A : Type} (skip take : Z) (rows : list A) : list A :=
  List.firstn (Z.to_nat take) (List.skipn (Z.to_nat skip) rows).

(** ** Follows ([users.js] on the table [follows])

    The users and the follow rows; a follow row carries its key and the pair
    ([followerId], [followingId]), unique as a pair. *)

Record follow_row := Follow {
  follow_id : Z;
  follower_id : Z;
  following_id : Z
}.

Record social_db := Social {
  profiles : gset Z;
  follows : list follow_row;
  next_follow_id : Z
}.

(** [follow.findUnique({ where: { followerId_followingId } })]. *)
Definition find_follow (followerId followingId : Z) (s : social_db)
    : option follow_row :=
  head (filter (λ r, follower_id r = followerId ∧ following_id r = followingId)
               (follows s)).

(** [follow.create]: both foreign keys, the unique pair, then the row. *)
Definition insert_follow (followerId followingId : Z) (s : social_db)
    : call_error + social_db :=
  if decide (followerId ∈ profiles s ∧ followingId ∈ profiles s)
  then
    if decide (Exists (λ r, follower_id r = followerId
                            ∧ following_id r = followingId) (follows s))
    then inl Unique_violation
    else inr (Social (profiles s)
                (follows s ++ [Follow (next_follow_id s) followerId followingId])
                (next_follow_id s + 1))
  else inl Foreign_key_violation.

(** [follow.delete({ where: { followerId_followingId } })] raises when no
    row has the pair. *)
Definition delete_follow (followerId followingId : Z) (s : social_db)
    : call_error + social_db :=
  match find_follow followerId followingId s with
  | None => inl Record_not_found
  | Some _ =>
      inr (Social (profiles s)
             (filter (λ r, ¬ (follower_id r = followerId
                              ∧ following_id r = followingId)) (follows s))
             (next_follow_id s))
  end.

Record follow_response := FollowResponse {
  f_status : Z;
  f_error : option string;
  f_message : string
}.

(** [POST /:userId/follow] by the authenticated user [followerId]. *)
Definition follow_route (faults : nat → bool) (userId followerId : Z)
    (s : social_db) : follow_response * social_db :=
  let failed :=
    FollowResponse 500 (Some "Internal Server Error"%string)
      "Failed to follow user" in
  if decide (followerId = userId)
  then (FollowResponse 400 (Some "Bad Request"%string)
          "Cannot follow yourself", s)
  else if faults 0%nat then (failed, s)
  else if decide (userId ∈ profiles s)
  then
    if faults 1%nat then (failed, s)
    else
      match find_follow followerId userId s with
      | Some _ =>
          (FollowResponse 409 (Some "Already Following"%string)
             "You are already following this user", s)
      | None =>
          if faults 2%nat then (failed, s)
          else
            match insert_follow followerId userId s with
            | inl _ => (failed, s)
            | inr s' =>
                (FollowResponse 200 None "User followed successfully", s')
            end
      end
  else (FollowResponse 404 (Some "Not Found"%string) "User not found", s).

(** [DELETE /:userId/follow] by the authenticated user [followerId]. *)
Definition unfollow_route (faults : nat → bool) (userId followerId : Z)
    (s : social_db) : follow_response * social_db :=
  let failed :=
    FollowResponse 500 (Some "Internal Server Error"%string)
      "Failed to unfollow user" in
  if faults 0%nat then (failed, s)
  else
    match delete_follow followerId userId s with
    | inl _ => (failed, s)
    | inr s' => (FollowResponse 200 None "User unfollowed successfully", s')
    end.

Inductive follow_request :=
| Post_follow (faults : nat → bool) (userId followerId : Z)
| Delete_follow (faults : nat → bool) (userId followerId : Z).

Definition serve_follow (r : follow_request) (s : social_db) : social_db :=
  match r with
  | Post_follow f u me => (follow_route f u me s).2
  | Delete_follow f u me => (unfollow_route f u me s).2
  end.

Definition serve_follows (rs : list follow_request) (s : social_db)
    : social_db :=
  foldl (λ acc r, serve_follow r acc) s rs.

(** No user follows themselves, and a pair occurs once. *)
Definition follows_ok (s : social_db) : Prop :=
  Forall (λ r, follower_id r ≠ following_id r) (follows s) ∧
  NoDup ((λ r, (follower_id r, following_id r)) <$> follows s).

Definition following (s : social_db) (followerId followingId : Z) : Prop :=
  Exists (λ r, follower_id r = followerId ∧ following_id r = followingId)
         (follows s).

(** Users 1, 2 and 3; user 1 follows user 2. *)
Definition small_circle : social_db :=
  Social {[1; 2; 3]} [Follow 1 1 2] 2.

(** ** The trigger function as [downloads-setup.sql] re-declares it

    [CREATE OR REPLACE FUNCTION update_model_counts()] with the downloads
    branch only; the triggers that [schema.sql] bound to the function keep
    calling it. *)
Definition update_model_counts_setup (op : tg_op) (tbl : tg_table)
    (model_id : Z) (ms : gmap Z model_row) : gmap Z model_row :=
  match op with
  | INSERT =>
      match tbl with
      | T_downloads => alter (set_download_count (λ c, c + 1)) model_id ms
      | _ => ms
      end
  | _ => ms
  end.

(** ** The trigger function of [FIREBASE_SETUP.md]

    [update_model_download_count], bound [AFTER INSERT OR DELETE ON
    downloads], maintains [downloads_count]; its deletion branch is
    [GREATEST(downloads_count - 1, 0)].  [NULL + 1] is [NULL], and
    [GREATEST] passes over a [NULL] argument. *)
Definition update_model_download_count (op : tg_op) (model_id : Z)
    (ms : gmap Z model_row) : gmap Z model_row :=
  match op with
  | INSERT =>
      alter (λ m, set_downloads_count ((λ c, c + 1) <$> downloads_count m) m)
            model_id ms
  | DELETE =>
      alter (λ m, set_downloads_count
                    (Some (match downloads_count m with
                           | Some c => Z.max (c - 1) 0
                           | None => 0
                           end)) m)
            model_id ms
  | UPDATE => ms
  end.

(** ** Row level security of [schema.sql]

    [uid] is [auth.uid()], [None] without a session. *)

(** "Public models are viewable by everyone", "Users can view own models". *)
Definition models_select_policy (uid : option Z) (m : model_row) : bool :=
  is_public m || bool_decide (uid = Some (m_user_id m)).

(** "Users can update own models". *)
Definition models_update_policy (uid : option Z) (m : model_row) : bool :=
  bool_decide (uid = Some (m_user_id m)).

(** [update_model_counts] as it runs for a client: the function is not
    [SECURITY DEFINER], so its [UPDATE public.models] reaches the row only
    when the policies let the client see and update it, and updates nothing
    otherwise. *)
Definition update_model_counts_as (uid : option Z) (op : tg_op)
    (tbl : tg_table) (model_id : Z) (ms : gmap Z model_row)
    : gmap Z model_row :=
  match ms !! model_id with
  | Some m =>
      if models_select_policy uid m && models_update_policy uid m
      then update_model_counts op tbl model_id ms
      else ms
  | None => ms
  end.

(** [INSERT INTO downloads] by a client: "Anyone can create downloads"
    ([WITH CHECK (true)]), the foreign key, the row, and the trigger run for
    the client. *)
Definition client_insert_download (uid : option Z) (model_id : Z)
    (user_id : option Z) (s : db) : call_error + db :=
  match models s !! model_id with
  | None => inl Foreign_key_violation
  | Some _ =>
      inr (Db (update_model_counts_as uid INSERT T_downloads model_id
                 (models s))
              (likes s) (comments s)
              (downloads s ++ [Download (next_id s) model_id user_id])
              (model_views s) (next_id s + 1))
  end.

(** [UPDATE models SET downloads_count = v WHERE id = id] by a client: the
    row is written when the policies let the client see and update it; no
    row is written, and no error raised, otherwise. *)
Definition client_write_downloads_count (uid : option Z) (v id : Z) (s : db)
    : db :=
  match models s !! id with
  | Some m =>
      if models_select_policy uid m && models_update_policy uid m
      then write_downloads_count v id s
      else s
  | None => s
  end.

(** [handleDownload] as the browser runs it: the client of
    [frontend/src/lib/supabase.js] is created with the anon key, so the two
    store calls are made with the session of [user] and under the
    policies. *)
Definition handleDownload_as_client (faults : nat → bool)
    (isAuthenticated : bool) (model : client_model) (user : Z)
    : db → toast * db :=
  if negb isAuthenticated
  then λ s, (toast_error "Please log in to download models", s)
  else if falsy_path (cm_file_path model)
  then λ s, (toast_error "No file available for download", s)
  else
    try_catch
      (error ← storage_call (faults 0%nat);
       match error with
       | Some e => throw e
       | None =>
           downloadError ← supabase_exec (faults 1%nat)
                             (client_insert_download (Some user)
                                (cm_id model) (Some user));
           updateError ← supabase_exec (faults 2%nat)
               (λ s, inr (client_write_downloads_count (Some user)
                            (or_zero (cm_downloads_count model) + 1)
                            (cm_id model) s));
           send (toast_success "Download started!")
       end)
      (toast_error "Failed to download model").

(** ** [PATCH /uploads/:id/status] ([dashboard.js], behind [requireRole]) *)

(** [req.body.isPublic], which the route does not validate: absent or a
    boolean.  What Prisma does with any other JSON value depends on the
    Prisma schema, which is not among these sources. *)
Inductive body_value :=
| V_undefined
| V_bool (b : bool).

Definition truthy (v : body_value) : bool :=
  match v with
  | V_undefined => false
  | V_bool b => b
  end.

Definition set_is_public (b : bool) (m : model_row) : model_row :=
  Model (m_user_id m) b (is_free m) (file_path m)
        (download_count m) (view_count m) (like_count m)
        (comment_count m) (downloads_count m).

(** [model.update({ where: { id }, data: { isPublic } })]: Prisma leaves a
    field alone whose value is [undefined], and raises when no record has
    the key. *)
Definition prisma_status_update (id : Z) (isPublic : body_value) (s : db)
    : call_error + (model_row * db) :=
  match models s !! id with
  | None => inl Record_not_found
  | Some m =>
      match isPublic with
      | V_undefined => inr (m, s)
      | V_bool b =>
          inr (set_is_public b m,
               with_models (alter (set_is_public b) id (models s)) s)
      end
  end.

Record status_answer := StatusAnswer {
  sa_status : Z;
  sa_error : option string;
  sa_message : string;
  sa_isPublic : option bool
}.

Definition status_route (faults : nat → bool) (id : Z) (isPublic : body_value)
    (userId : Z) : db → status_answer * db :=
  try_catch
    (model ← prisma_query (faults 0%nat) (find_owned_model id userId);
     match model with
     | None =>
         send (StatusAnswer 404 (Some "Not Found"%string) "Model not found"
                 None)
     | Some _ =>
         updatedModel ← prisma_exec (faults 1%nat)
                          (prisma_status_update id isPublic);
         send (StatusAnswer 200 None
                 (if truthy isPublic then "Model published successfully"
                  else "Model made private successfully")
                 (Some (is_public updatedModel)))
     end)
    (StatusAnswer 500 (Some "Internal Server Error"%string)
       "Failed to update model status" None).

(** ** Further consistency predicates *)

(** The requests served by the backend routes: all but the download button
    of the page, which writes [models] from the browser. *)
Definition backend_request (r : request) : Prop :=
  match r with
  | Handle_download _ _ _ _ => False
  | _ => True
  end.


(** The foreign keys: every fact row refers to an entity of [models]. *)
Definition references_ok (s : db) : Prop :=
  Forall (λ k, is_Some (models s !! like_model_id k)) (likes s) ∧
  Forall (λ k, is_Some (models s !! comment_model_id k)) (comments s) ∧
  Forall (λ k, is_Some (models s !! download_model_id k)) (downloads s) ∧
  Forall (λ k, is_Some (models s !! view_model_id k)) (model_views s).

(** The primary key of a table: pairwise distinct and below the generator. *)
Definition table_keys_ok {A : Type} (key : A → Z) (n : Z) (rows : list A)
    : Prop :=
  NoDup (key <$> rows) ∧ Forall (λ k, key k < n) rows.

Definition keys_ok (s : db) : Prop :=
  table_keys_ok like_id (next_id s) (likes s) ∧
  table_keys_ok comment_id (next_id s) (comments s) ∧
  table_keys_ok download_id (next_id s) (downloads s) ∧
  table_keys_ok view_id (next_id s) (model_views s).

(** The entity a request addresses. *)
Definition target (r : request) : option Z :=
  match r with
  | Get_model _ id => Some id
  | Post_like _ modelId _ => modelId
  | Post_comment _ modelId _ _ => modelId
  | Post_download _ id _ => Some id
  | Delete_model _ modelId _ => modelId
  | Handle_download _ _ model _ => Some (cm_id model)
  end.

(** The fact rows of an entity, table by table. *)
Definition same_facts (s s' : db) (id : Z) : Prop :=
  filter (λ k, like_model_id k = id) (likes s')
  = filter (λ k, like_model_id k = id) (likes s) ∧
  filter (λ k, comment_model_id k = id) (comments s')
  = filter (λ k, comment_model_id k = id) (comments s) ∧
  filter (λ k, download_model_id k = id) (downloads s')
  = filter (λ k, download_model_id k = id) (downloads s) ∧
  filter (λ k, view_model_id k = id) (model_views s')
  = filter (λ k, view_model_id k = id) (model_views s).

(** An entity whose row and fact rows are the same in [s'] as in [s]. *)
Definition untouched (s s' : db) (id : Z) : Prop :=
  models s' !! id = models s !! id ∧ same_facts s s' id.

(** The entities whose rows a statement can change. *)
Definition touched (st : statement) (s : db) : list Z :=
  match st with
  | S_insert_like mid _ | S_insert_comment mid _
  | S_insert_download mid _ | S_insert_model_view mid _ => [mid]
  | S_delete_like x =>
      like_model_id <$> filter (λ k, like_id k = x) (likes s)
  | S_delete_comment x =>
      comment_model_id <$> filter (λ k, comment_id k = x) (comments s)
  | S_delete_model d => [d]
  | S_increment_view_count v => [v]
  | S_write_downloads_count _ d => [d]
  end.

(** * Properties *)

(** ** The trigger *)

Section trigger.
Implicit Types (ms : gmap Z model_row) (m : model_row) (tbl : tg_table).

Lemma set_counter_zero tbl m : set_counter tbl (λ c, c + 0) m = m.
Proof. destruct tbl, m; simpl; unfold set_like_count, set_comment_count,
  set_download_count, set_view_count; simpl; by rewrite Z.add_0_r. Qed.

Lemma set_counter_compose tbl f g m :
  set_counter tbl f (set_counter tbl g m) = set_counter tbl (λ c, f (g c)) m.
Proof. by destruct tbl. Qed.

Lemma set_counter_ext tbl f g m :
  f (counter tbl m) = g (counter tbl m) →
  set_counter tbl f m = set_counter tbl g m.
Proof.
  destruct tbl; simpl; intros E; unfold set_like_count, set_comment_count,
    set_download_count, set_view_count; by rewrite E.
Qed.

(** Every firing is a relative update of one counter of one row. *)
Lemma fire_relative tbl op id ms :
  trigger_bound tbl op = true →
  fire tbl op id ms = alter (set_counter tbl (λ c, c + delta tbl op)) id ms.
Proof. unfold fire. by destruct tbl, op. Qed.

Lemma fire_unbound tbl op id ms :
  trigger_bound tbl op = false → fire tbl op id ms = ms.
Proof. unfold fire. by intros ->. Qed.

Lemma fire_lookup_ne tbl op id id' ms :
  id ≠ id' → fire tbl op id ms !! id' = ms !! id'.
Proof.
  intros Hne. destruct (trigger_bound tbl op) eqn:E.
  - rewrite fire_relative by done. by rewrite lookup_alter_ne.
  - by rewrite fire_unbound.
Qed.

Lemma fire_lookup_eq tbl op id ms :
  trigger_bound tbl op = true →
  fire tbl op id ms !! id
  = set_counter tbl (λ c, c + delta tbl op) <$> ms !! id.
Proof. intros E. rewrite fire_relative by done. by rewrite lookup_alter_eq. Qed.

Lemma fire_each_lookup {A} tbl op (key : A → Z) rows ms id :
  trigger_bound tbl op = true →
  fire_each tbl op key rows ms !! id
  = set_counter tbl
      (λ c, c + delta tbl op
                * Z.of_nat (length (filter (λ r, key r = id) rows)))
    <$> ms !! id.
Proof.
  intros E. induction rows as [|r rows IH]; simpl.
  - destruct (ms !! id) as [m|]; simpl; [|done].
    f_equal. rewrite <- (set_counter_zero tbl m) at 1.
    apply set_counter_ext. simpl. lia.
  - destruct (decide (key r = id)) as [Heq|Hne].
    + rewrite Heq at 1. rewrite fire_lookup_eq, IH by done.
      rewrite filter_cons_True by done.
      destruct (ms !! id) as [m|]; simpl; [|done].
      f_equal. rewrite set_counter_compose. apply set_counter_ext.
      rewrite Nat2Z.inj_succ. lia.
    + rewrite fire_lookup_ne, IH by done.
      by rewrite filter_cons_False by done.
Qed.

Lemma fire_each_unbound {A} tbl op (key : A → Z) rows ms :
  trigger_bound tbl op = false → fire_each tbl op key rows ms = ms.
Proof.
  intros E. induction rows as [|r rows IH]; simpl; [done|].
  by rewrite fire_unbound.
Qed.
End trigger.

(** ** Counting rows *)

Section counting.
Context {A : Type} (P Q : A → Prop) `{!∀ x, Decision (P x)}
        `{!∀ x, Decision (Q x)}.

Lemma count_snoc (l : list A) (x : A) :
  Z.of_nat (length (filter P (l ++ [x])))
  = Z.of_nat (length (filter P l)) + (if decide (P x) then 1 else 0).
Proof.
  rewrite filter_app, length_app. simpl.
  destruct (decide (P x)).
  - rewrite filter_cons_True by done. simpl. lia.
  - rewrite filter_cons_False by done. simpl. lia.
Qed.

Lemma count_split (l : list A) :
  Z.of_nat (length (filter P l))
  = Z.of_nat (length (filter P (filter Q l)))
    + Z.of_nat (length (filter P (filter (λ x, ¬ Q x) l))).
Proof.
  induction l as [|x l IH]; [done|].
  destruct (decide (Q x)).
  - rewrite (filter_cons_True Q), (filter_cons_False (λ x, ¬ Q x)) by tauto.
    destruct (decide (P x)).
    + rewrite !(filter_cons_True P) by done. simpl length. lia.
    + rewrite !(filter_cons_False P) by done. lia.
  - rewrite (filter_cons_False Q), (filter_cons_True (λ x, ¬ Q x)) by tauto.
    destruct (decide (P x)).
    + rewrite !(filter_cons_True P) by done. simpl length. lia.
    + rewrite !(filter_cons_False P) by done. lia.
Qed.

Lemma filter_subsumed (l : list A) :
  (∀ x, P x → Q x) → filter P (filter Q l) = filter P l.
Proof.
  intros HPQ. induction l as [|x l IH]; [done|].
  destruct (decide (Q x)).
  - rewrite (filter_cons_True Q) by done.
    destruct (decide (P x)).
    + rewrite !(filter_cons_True P) by done. by rewrite IH.
    + by rewrite !(filter_cons_False P) by done.
  - rewrite (filter_cons_False Q), (filter_cons_False P) by naive_solver.
    done.
Qed.

Lemma Forall_filter_keep (R : A → Prop) (l : list A) :
  Forall R l → Forall R (filter P l).
Proof.
  rewrite !Forall_forall. intros Hl x [_ Hx]%list_elem_of_filter. auto.
Qed.

Lemma filter_none (l : list A) : ¬ Exists P l → filter P l = [].
Proof.
  induction l as [|x l IH]; intros Hn; [done|].
  rewrite filter_cons_False; [apply IH|]; intros ?; apply Hn; by constructor.
Qed.

Lemma filter_empty_not_Exists (l : list A) : filter P l = [] → ¬ Exists P l.
Proof.
  intros E [x [Hx HP]]%Exists_exists.
  by apply (filter_nil_not_elem_of P l x).
Qed.
End counting.

(** ** Statements keep the drift of the trigger-maintained counters *)

Section statements.
Implicit Types (s : db) (m : model_row) (tbl : tg_table) (st : statement).

Lemma fire_lookup_Some tbl op mid ms id m' :
  fire tbl op mid ms !! id = Some m' →
  ∃ m, ms !! id = Some m ∧
       m' = set_counter tbl
              (λ c, c + if decide (mid = id)
                        then if trigger_bound tbl op then delta tbl op else 0
                        else 0) m.
Proof.
  destruct (decide (mid = id)) as [->|Hne].
  - destruct (trigger_bound tbl op) eqn:E.
    + rewrite fire_lookup_eq by done.
      destruct (ms !! id) as [m|]; [|done]. intros [= <-]. by exists m.
    + rewrite fire_unbound by done. intros ->. exists m'.
      by rewrite set_counter_zero.
  - rewrite fire_lookup_ne by done. intros ->. exists m'.
    by rewrite set_counter_zero.
Qed.

Lemma fire_each_lookup_Some {A} tbl op (key : A → Z) rows ms id m' :
  fire_each tbl op key rows ms !! id = Some m' →
  ∃ m, ms !! id = Some m ∧
       m' = set_counter tbl
              (λ c, c + if trigger_bound tbl op
                        then delta tbl op
                             * Z.of_nat (length (filter (λ r, key r = id) rows))
                        else 0) m.
Proof.
  destruct (trigger_bound tbl op) eqn:E.
  - rewrite fire_each_lookup by done.
    destruct (ms !! id) as [m|]; [|done]. intros [= <-]. by exists m.
  - rewrite fire_each_unbound by done. intros ->. exists m'.
    by rewrite set_counter_zero.
Qed.

Lemma filter_disjoint {A} (key : A → Z) (a b : Z) (l : list A) :
  a ≠ b → filter (λ r, key r = a) (filter (λ r, key r = b) l) = [].
Proof.
  intros Hne. induction l as [|x l IH]; [done|].
  destruct (decide (key x = b)) as [Hb|Hb].
  - rewrite (filter_cons_True (λ r, key r = b)) by done.
    rewrite filter_cons_False by congruence. done.
  - by rewrite (filter_cons_False (λ r, key r = b)) by done.
Qed.

Lemma filter_other {A} (key : A → Z) (a b : Z) (l : list A) :
  a ≠ b →
  filter (λ r, key r = a) (filter (λ r, key r ≠ b) l)
  = filter (λ r, key r = a) l.
Proof. intros Hne. apply filter_subsumed. congruence. Qed.

Local Ltac unfold_counts :=
  unfold drift, count_rows, count_likes, count_comments, count_downloads,
    count_views; simpl.

Local Ltac close_drift :=
  repeat case_decide; simpl; split_and?; try done; try lia.

Lemma execute_drift st s id m' tbl :
  models (execute st s) !! id = Some m' →
  (tbl = T_model_views → ∀ x, st ≠ S_increment_view_count x) →
  ∃ m, models s !! id = Some m ∧
       drift tbl (execute st s) id m' = drift tbl s id m ∧
       m_user_id m' = m_user_id m ∧ is_public m' = is_public m ∧
       is_free m' = is_free m.
Proof.
  destruct st as [mid u|x|mid u|x|mid u|mid u|d|v|v d]; simpl; intros Hm' Hv.
  - (* INSERT INTO likes *)
    unfold insert_like in *. destruct (models s !! mid) as [m0|] eqn:E0;
      simpl in *; [|by exists m'].
    case_decide; simpl in *; [by exists m'|].
    apply fire_lookup_Some in Hm' as (m & Hm & ->). exists m. split; [done|].
    destruct tbl; unfold_counts; rewrite ?count_snoc; close_drift.
  - (* DELETE FROM likes *)
    apply fire_each_lookup_Some in Hm' as (m & Hm & ->).
    exists m. split; [done|].
    destruct tbl; unfold_counts; try done.
    rewrite (count_split (λ r, like_model_id r = id) (λ r, like_id r = x)
               (likes s)).
    split_and?; try done; lia.
  - (* INSERT INTO comments *)
    unfold insert_comment in *. destruct (models s !! mid) as [m0|] eqn:E0;
      simpl in *; [|by exists m'].
    apply fire_lookup_Some in Hm' as (m & Hm & ->). exists m. split; [done|].
    destruct tbl; unfold_counts; rewrite ?count_snoc; close_drift.
  - (* DELETE FROM comments *)
    apply fire_each_lookup_Some in Hm' as (m & Hm & ->).
    exists m. split; [done|].
    destruct tbl; unfold_counts; try done.
    rewrite (count_split (λ r, comment_model_id r = id)
               (λ r, comment_id r = x) (comments s)).
    split_and?; try done; lia.
  - (* INSERT INTO downloads *)
    unfold insert_download in *. destruct (models s !! mid) as [m0|] eqn:E0;
      simpl in *; [|by exists m'].
    apply fire_lookup_Some in Hm' as (m & Hm & ->). exists m. split; [done|].
    destruct tbl; unfold_counts; rewrite ?count_snoc; close_drift.
  - (* INSERT INTO model_views *)
    unfold insert_model_view in *. destruct (models s !! mid) as [m0|] eqn:E0;
      simpl in *; [|by exists m'].
    apply fire_lookup_Some in Hm' as (m & Hm & ->). exists m. split; [done|].
    destruct tbl; unfold_counts; rewrite ?count_snoc; close_drift.
  - (* DELETE FROM models *)
    apply fire_each_lookup_Some in Hm' as (m1 & Hm1 & ->).
    apply fire_each_lookup_Some in Hm1 as (m & Hm & ->).
    apply lookup_delete_Some in Hm as [Hne Hm].
    exists m. split; [done|].
    rewrite !filter_disjoint by done.
    destruct tbl; unfold_counts; rewrite !filter_other by done;
      split_and?; try done; lia.
  - (* UPDATE models SET view_count = view_count + 1 *)
    unfold increment_view_count in Hm'. simpl in Hm'.
    destruct (decide (v = id)) as [->|Hne].
    + rewrite lookup_alter_eq in Hm'.
      destruct (models s !! id) as [m|]; [|done].
      injection Hm' as <-. exists m. split; [done|].
      destruct tbl; unfold_counts; split_and?; try done.
      by destruct (Hv eq_refl id).
    + rewrite lookup_alter_ne in Hm' by done. exists m'.
      destruct tbl; unfold_counts; done.
  - (* UPDATE models SET downloads_count = v *)
    unfold write_downloads_count in Hm'. simpl in Hm'.
    destruct (decide (d = id)) as [->|Hne].
    + rewrite lookup_alter_eq in Hm'.
      destruct (models s !! id) as [m|]; [|done].
      injection Hm' as <-. exists m. split; [done|].
      destruct tbl; unfold_counts; done.
    + rewrite lookup_alter_ne in Hm' by done. exists m'.
      destruct tbl; unfold_counts; done.
Qed.
End statements.

(** ** Requests as sequences of statements *)

Ltac unfold_handler :=
  unfold try_catch, mbind, handler_bind, send, throw, prisma_query,
    prisma_exec, supabase_single, supabase_exec, storage_call, unit_result
    in *.

Section requests.
Implicit Types (s : db) (r : request) (st : statement).

Lemma serve_statements r s :
  ∃ sts, serve r s = execute_all sts s ∧ Forall (issues r) sts.
Proof.
  destruct r as [f id|f [id|] u|f [id|] c u|f id u|f [id|] u|f a m u]; simpl.
  - unfold get_model_route. unfold_handler.
    repeat case_match; simplify_eq/=; try by (exists []).
    exists [S_increment_view_count id]. split; [|by repeat constructor].
    simpl. unfold prisma_view_increment in *. by case_match; simplify_eq.
  - unfold like_route. unfold_handler.
    repeat case_match; simplify_eq/=; try by (exists []).
    + exists [S_delete_like (like_id l)].
      split; [|repeat constructor; naive_solver].
      simpl. unfold prisma_like_delete in *. by case_match; simplify_eq.
    + exists [S_insert_like id u].
      split; [|repeat constructor; naive_solver].
      simpl.
      by match goal with H : insert_like _ _ _ = _ |- _ => rewrite H end.
  - by exists [].
  - unfold comment_route. unfold_handler.
    repeat case_match; simplify_eq/=; try by (exists []).
    exists [S_insert_comment id u].
    split; [|repeat constructor; naive_solver].
    simpl.
    by match goal with H : insert_comment _ _ _ = _ |- _ => rewrite H end.
  - unfold comment_route. unfold_handler.
    repeat case_match; simplify_eq/=; by (exists []).
  - unfold download_route. unfold_handler.
    repeat case_match; simplify_eq/=; try by (exists []).
    all: exists [S_insert_download id (Some u)];
      (split; [|by repeat constructor]); simpl.
    all: by match goal with H : insert_download _ _ _ = _ |- _ => rewrite H end.
  - unfold delete_model_route. unfold_handler.
    repeat case_match; simplify_eq/=; try by (exists []).
    exists [S_delete_model id]. split; [|repeat constructor; naive_solver].
    simpl. unfold prisma_model_delete in *. by case_match; simplify_eq.
  - by exists [].
  - unfold handleDownload. unfold_handler.
    repeat case_match; simplify_eq/=; try by (exists []).
    all: first
      [ by exists [S_write_downloads_count
                     (or_zero (cm_downloads_count m) + 1) (cm_id m)];
           split; [|repeat constructor; naive_solver]
      | exists [S_insert_download (cm_id m) (Some u)];
        (split; [|by repeat constructor; naive_solver]); simpl;
        by match goal with
           | H : insert_download _ _ _ = _ |- _ => rewrite H
           end
      | exists [S_insert_download (cm_id m) (Some u);
                S_write_downloads_count
                  (or_zero (cm_downloads_count m) + 1) (cm_id m)];
        (split; [|by repeat constructor; naive_solver]); simpl;
        by match goal with
           | H : insert_download _ _ _ = _ |- _ => rewrite H
           end ].
Qed.
End requests.

(** ** Invariants of the store *)

Section invariants.
Implicit Types (s : db) (r : request) (st : statement) (tbl : tg_table).

Lemma execute_all_cons st sts s :
  execute_all (st :: sts) s = execute_all sts (execute st s).
Proof. done. Qed.

Lemma execute_all_drift sts s id m' tbl :
  models (execute_all sts s) !! id = Some m' →
  (tbl = T_model_views → Forall (λ st, ∀ x, st ≠ S_increment_view_count x) sts) →
  ∃ m, models s !! id = Some m ∧
       drift tbl (execute_all sts s) id m' = drift tbl s id m ∧
       m_user_id m' = m_user_id m ∧ is_public m' = is_public m ∧
       is_free m' = is_free m.
Proof.
  revert s. induction sts as [|st sts IH]; intros s Hm' Hv.
  - by exists m'.
  - rewrite execute_all_cons in *.
    destruct (IH (execute st s) Hm') as (m1 & Hm1 & Hd1 & Hu1 & Hp1 & Hf1).
    { intros E. specialize (Hv E). by inversion Hv. }
    destruct (execute_drift st s id m1 tbl Hm1) as (m & Hm & Hd & Hu & Hp & Hf).
    { intros E. specialize (Hv E). by inversion Hv. }
    exists m. split_and?; congruence.
Qed.

(** No request changes the drift of the like, comment and download
    counters; none but [GET /:id] changes the drift of the view counter.
    (For the download button this is so for the owner of the entity, whose
    rights [handleDownload] has.) *)
Lemma serve_drift r s id m' tbl :
  models (serve r s) !! id = Some m' →
  (tbl = T_model_views → ∀ f x, r ≠ Get_model f x) →
  ∃ m, models s !! id = Some m ∧
       drift tbl (serve r s) id m' = drift tbl s id m ∧
       m_user_id m' = m_user_id m ∧ is_public m' = is_public m ∧
       is_free m' = is_free m.
Proof.
  intros Hm' Hv. destruct (serve_statements r s) as (sts & E & Hsts).
  rewrite E in *. apply execute_all_drift; [done|].
  intros ->. specialize (Hv eq_refl).
  eapply Forall_impl; [exact Hsts|]. intros st Hst x ->.
  destruct r; simpl in Hst; [by eapply Hv|..]; firstorder congruence.
Qed.

Lemma serve_trigger_counters_consistent r s id :
  backend_request r →
  trigger_counters_consistent s id →
  trigger_counters_consistent (serve r s) id.
Proof.
  intros _ Hs m' Hm'.
  destruct (serve_drift r s id m' T_likes Hm') as (m & Hm & Hl & _); [done|].
  destruct (serve_drift r s id m' T_comments Hm') as (? & ? & Hc & _); [done|].
  destruct (serve_drift r s id m' T_downloads Hm') as (? & ? & Hd & _); [done|].
  simplify_eq. destruct (Hs m Hm) as (El & Ec & Ed).
  unfold drift in *. simpl in *. split_and?; lia.
Qed.

(** X13: the like, comment and download counters of an entity equal the
    live numbers of its like, comment and download rows after every sequence
    of requests to the backend routes ([GET /:id], like, comment, download,
    model deletion), whatever calls fail, when they did before.  The
    download button of the page is left out: it writes a counter of
    [models] from the browser. *)
Theorem backend_requests_keep_trigger_counters_consistent rs s id :
  Forall backend_request rs →
  trigger_counters_consistent s id →
  trigger_counters_consistent (serve_all rs s) id.
Proof.
  revert s. induction rs as [|r rs IH]; intros s Hrs Hs; [done|].
  inversion Hrs as [|? ? Hr Hrs']; subst.
  apply IH; [done|]. by apply serve_trigger_counters_consistent.
Qed.

(** The view counter keeps its distance to the view rows under every
    request but [GET /:id]. *)
Lemma serve_view_counter_consistent r s id :
  (∀ f x, r ≠ Get_model f x) →
  view_counter_consistent s id → view_counter_consistent (serve r s) id.
Proof.
  intros Hr Hs m' Hm'.
  destruct (serve_drift r s id m' T_model_views Hm') as (m & Hm & Hv & _);
    [done|].
  specialize (Hs m Hm). unfold drift in *. simpl in *. lia.
Qed.
End invariants.

(** ** The model detail route and the view counter *)

(** C1 (the code departs from the claim): a successful [GET /:id] adds one
    to [view_count] and inserts no row into [model_views], so the cached view
    counter moves away from the number of view rows: if the two agreed
    before the request they differ after it. *)
Theorem get_model_counts_a_view_without_a_view_row faults id s m :
  models s !! id = Some m →
  faults 0%nat = false → faults 1%nat = false →
  status (get_model_route faults id s).1 = 200 ∧
  view_count <$> models (get_model_route faults id s).2 !! id
    = Some (view_count m + 1) ∧
  model_views (get_model_route faults id s).2 = model_views s ∧
  (view_counter_consistent s id →
   ¬ view_counter_consistent (get_model_route faults id s).2 id).
Proof.
  intros Hm F0 F1. unfold get_model_route. unfold_handler.
  unfold find_unique_model, prisma_view_increment. rewrite F0, F1, Hm. simpl.
  rewrite Hm. simpl.
  rewrite lookup_alter_eq, Hm. simpl. split_and?; try done.
  intros Hs Hs'. specialize (Hs m Hm).
  specialize (Hs' (set_view_count (λ c, c + 1) m)).
  unfold increment_view_count, count_views in *. simpl in *.
  rewrite lookup_alter_eq, Hm in Hs'. specialize (Hs' eq_refl). simpl in *. lia.
Qed.

Lemma get_model_counts_a_view_without_a_view_row_witness :
  status (get_model_route no_faults 1 fresh_db).1 = 200 ∧
  view_count <$> models (get_model_route no_faults 1 fresh_db).2 !! 1
    = Some (0 + 1) ∧
  model_views (get_model_route no_faults 1 fresh_db).2 = [] ∧
  (view_counter_consistent fresh_db 1 →
   ¬ view_counter_consistent (get_model_route no_faults 1 fresh_db).2 1).
Proof.
  apply (get_model_counts_a_view_without_a_view_row no_faults 1 fresh_db
           fresh_entity); reflexivity.
Defined.

(** ** The download button of the frontend *)

(** C2 (the code departs from the claim): [handleDownload] stores the
    value the page fetched earlier plus one, [(model.downloads_count || 0)
    + 1], whatever the column holds when the update runs; it is an absolute
    write, not a relative update of the stored value. *)
Theorem handleDownload_writes_fetched_value_plus_one faults model user s m :
  falsy_path (cm_file_path model) = false →
  faults 0%nat = false → faults 2%nat = false →
  models s !! cm_id model = Some m →
  downloads_count
    <$> models (handleDownload faults true model user s).2 !! cm_id model
  = Some (Some (or_zero (cm_downloads_count model) + 1)).
Proof.
  intros Hp F0 F2 Hm. unfold handleDownload. simpl. rewrite Hp.
  unfold_handler. rewrite F0, F2. unfold insert_download. rewrite Hm.
  destruct (faults 1%nat); simpl.
  - by rewrite lookup_alter_eq, Hm.
  - rewrite lookup_alter_eq, fire_lookup_eq, Hm by done. done.
Qed.

Lemma handleDownload_writes_fetched_value_plus_one_witness :
  downloads_count
    <$> models (handleDownload no_faults true stale_model 7 busy_db).2 !! 1
  = Some (Some (3 + 1)).
Proof.
  apply (handleDownload_writes_fetched_value_plus_one no_faults stale_model 7
           busy_db (set_downloads_count (Some 5) fresh_entity));
    reflexivity.
Defined.

(** The stored value was 5, the request leaves 4 where a relative update
    leaves 6. *)
Example handleDownload_stale_write :
  downloads_count <$> models busy_db !! 1 = Some (Some 5) ∧
  downloads_count
    <$> models (handleDownload no_faults true stale_model 7 busy_db).2 !! 1
  = Some (Some 4).
Proof. split; reflexivity. Qed.

(** Two downloads from pages that both fetched the fresh entity: two
    download rows, a counter of one. *)
Example handleDownload_lost_update :
  let page := ClientModel 1 (Some "models/chair.glb"%string) (Some 0) in
  let s1 := (handleDownload no_faults true page 7 fresh_db).2 in
  let s2 := (handleDownload no_faults true page 8 s1).2 in
  fetchModelDetails 1 fresh_db = Some page ∧
  count_downloads s2 1 = 2 ∧
  downloads_count <$> models s2 !! 1 = Some (Some 1) ∧
  download_count <$> models s2 !! 1 = Some 2.
Proof. vm_compute. auto. Qed.

(** The two sibling updates are relative: the trigger and the Prisma
    increment add one to whatever the column holds. *)
Lemma trigger_insert_is_relative tbl id ms m :
  ms !! id = Some m →
  counter tbl <$> update_model_counts INSERT tbl id ms !! id
  = Some (counter tbl m + 1).
Proof.
  intros Hm. destruct tbl; simpl; by rewrite lookup_alter_eq, Hm.
Qed.

Lemma increment_view_count_is_relative id s m :
  models s !! id = Some m →
  view_count <$> models (increment_view_count id s) !! id
  = Some (view_count m + 1).
Proof. intros Hm. simpl. by rewrite lookup_alter_eq, Hm. Qed.

(** ** The deletion branch of the trigger *)

(** One like is created on the fresh entity, then the [DELETE] branch of
    the trigger runs twice for it; the like counter ends at -1. *)
Lemma delete_trigger_has_no_floor :
  let created := execute (S_insert_like 1 5) fresh_db in
  let ms := update_model_counts DELETE T_likes 1
              (update_model_counts DELETE T_likes 1 (models created)) in
  like_count <$> models created !! 1 = Some 1 ∧
  ∃ m, ms !! 1 = Some m ∧ like_count m < 0.
Proof.
  split; [reflexivity|].
  eexists. split; [reflexivity|]. reflexivity.
Qed.

(** The same through the like route: an unlike on a store whose cached
    counter is 0 although the like row exists. *)
Example unlike_below_zero :
  (like_route no_faults (Some 1) 5 drifted_db).1 = unliked_response ∧
  like_count <$> models (like_route no_faults (Some 1) 5 drifted_db).2 !! 1
  = Some (-1).
Proof. split; reflexivity. Qed.

(** What keeps the counters from falling below zero is the pairing of the
    firings with the rows, not the function: the [DELETE] branch subtracts
    exactly one from the like or comment counter of the entity, and deleting
    like or comment rows from a store whose counters equal the live counts
    leaves both counters non-negative. *)
Theorem delete_trigger_decrements_by_one tbl id s m :
  tbl = T_likes ∨ tbl = T_comments →
  models s !! id = Some m →
  counter tbl <$> update_model_counts DELETE tbl id (models s) !! id
    = Some (counter tbl m - 1) ∧
  (trigger_counters_consistent s id →
   ∀ x m',
     (models (delete_like x s) !! id = Some m' → 0 ≤ like_count m') ∧
     (models (delete_comment x s) !! id = Some m' → 0 ≤ comment_count m')).
Proof.
  intros Htbl Hm. split.
  - destruct Htbl as [-> | ->]; simpl; by rewrite lookup_alter_eq, Hm.
  - intros Hs x m'. destruct (Hs m Hm) as (El & Ec & _).
    split; intros Hm'.
    + destruct (execute_drift (S_delete_like x) s id m' T_likes Hm')
        as (m0 & Hm0 & Hd & _); [done|].
      rewrite Hm in Hm0. injection Hm0 as <-.
      unfold drift, count_rows, count_likes in *. simpl in *. lia.
    + destruct (execute_drift (S_delete_comment x) s id m' T_comments Hm')
        as (m0 & Hm0 & Hd & _); [done|].
      rewrite Hm in Hm0. injection Hm0 as <-.
      unfold drift, count_rows, count_comments in *. simpl in *. lia.
Qed.

Lemma delete_trigger_decrements_by_one_witness :
  counter T_likes
    <$> update_model_counts DELETE T_likes 1 (models drifted_db) !! 1
  = Some (0 - 1).
Proof.
  apply (delete_trigger_decrements_by_one T_likes 1 drifted_db fresh_entity).
  - left. reflexivity.
  - reflexivity.
Defined.

Lemma like_route_unliked faults id user s :
  (like_route faults (Some id) user s).1 = unliked_response →
  ∃ k, find_like id user s = Some k ∧
       (like_route faults (Some id) user s).2 = delete_like (like_id k) s.
Proof.
  unfold like_route. unfold_handler. unfold prisma_like_delete.
  repeat case_match; simplify_eq/=; try done. intros _. by eexists.
Qed.

(** The trigger function of [FIREBASE_SETUP.md] has the floor: after its
    deletion branch the counter it maintains is a number, and not negative,
    whatever it held. *)
Lemma update_model_download_count_is_floored id ms m :
  ms !! id = Some m →
  ∃ c, downloads_count <$> update_model_download_count DELETE id ms !! id
       = Some (Some c) ∧ 0 ≤ c.
Proof.
  intros Hm. simpl. rewrite lookup_alter_eq, Hm. simpl.
  destruct (downloads_count m) as [c|]; eexists; split; try done; lia.
Qed.

(** C3 (the code departs from the claim): the [DELETE] branch of
    [update_model_counts] has no floor.  Fired for an entity whose like or
    comment counter is zero (or less) it leaves the counter negative; the
    like route reaches it, when it removes the like of a user from an
    entity whose cached [like_count] is zero. *)
Theorem delete_trigger_goes_below_zero tbl id s m :
  tbl = T_likes ∨ tbl = T_comments →
  models s !! id = Some m → counter tbl m ≤ 0 →
  (∃ m', update_model_counts DELETE tbl id (models s) !! id = Some m' ∧
         counter tbl m' = counter tbl m - 1 ∧ counter tbl m' < 0) ∧
  (tbl = T_likes → ∀ faults user,
     (like_route faults (Some id) user s).1 = unliked_response →
     ∃ m', models (like_route faults (Some id) user s).2 !! id = Some m' ∧
           like_count m' < 0).
Proof.
  intros Htbl Hm Hc. split.
  - destruct Htbl as [-> | ->]; simpl in *; rewrite lookup_alter_eq, Hm;
      simpl; eexists; (split; [done|]); simpl; lia.
  - intros -> faults user (k & Hfind & ->)%like_route_unliked. simpl in *.
    rewrite fire_each_lookup, Hm by done. simpl.
    eexists. split; [done|]. simpl.
    unfold find_like in Hfind.
    apply head_Some_elem_of, list_elem_of_filter in Hfind as [[Em Eu] Hk].
    assert (k ∈ filter (λ r, like_model_id r = id)
                  (filter (λ r, like_id r = like_id k) (likes s))) as Hin.
    { rewrite !list_elem_of_filter. done. }
    destruct (filter (λ r, like_model_id r = id) _) as [|x l];
      [by apply elem_of_nil in Hin|].
    simpl length. lia.
Qed.

Lemma delete_trigger_goes_below_zero_witness :
  (∃ m', update_model_counts DELETE T_likes 1 (models drifted_db) !! 1
         = Some m' ∧
         counter T_likes m' = 0 - 1 ∧ counter T_likes m' < 0) ∧
  (∃ m', models (like_route no_faults (Some 1) 5 drifted_db).2 !! 1 = Some m' ∧
         like_count m' < 0).
Proof.
  destruct (delete_trigger_goes_below_zero T_likes 1 drifted_db fresh_entity)
    as [Hbranch Hroute].
  - left. reflexivity.
  - reflexivity.
  - simpl. lia.
  - split; [exact Hbranch|]. apply (Hroute eq_refl no_faults 5). reflexivity.
Defined.

(** ** Failures of the auxiliary updates *)

(** C4: for a public entity whose lookup succeeds, whatever happens to the
    second call of the request (the tracking insert of a download, the
    counter write of the page),
    - the download route answers 200 as soon as the storage delivers the
      file, and the download button reports success;
    - a like or comment request that has committed its fact row answers
      with success (the counter is updated by the trigger inside the same
      statement, no later call can fail);
    while the model detail route answers 500 when its view-count update
    fails. *)
Theorem tracking_failure_is_not_fatal faults id user s m :
  models s !! id = Some m → is_public m = true → faults 0%nat = false →
  ((is_free m = true ∨ m_user_id m = user) → faults 2%nat = false →
   status (download_route faults id user s).1 = 200) ∧
  (∀ page, falsy_path (cm_file_path page) = false →
     (handleDownload faults true page user s).1
     = toast_success "Download started!") ∧
  (likes (like_route faults (Some id) user s).2 ≠ likes s →
   status (like_route faults (Some id) user s).1 = 200) ∧
  (∀ content,
     comments (comment_route faults (Some id) content user s).2 ≠ comments s →
     status (comment_route faults (Some id) content user s).1 = 201) ∧
  (faults 1%nat = true →
   (get_model_route faults id s).1 = internal_server_error).
Proof.
  intros Hm Hpub F0. split_and?.
  - intros Hperm F2. unfold download_route. unfold_handler.
    rewrite F0, F2. unfold find_public_model. simpl. rewrite Hm, Hpub.
    assert (negb (is_free m) && negb (bool_decide (m_user_id m = user)) = false)
      as ->.
    { destruct Hperm as [-> | ->]; [done|].
      rewrite bool_decide_eq_true_2 by done. by rewrite andb_false_r. }
    destruct (faults 1%nat); [done|].
    by destruct (insert_download id (Some user) s).
  - intros page Hp. unfold handleDownload. simpl. rewrite Hp.
    unfold_handler. rewrite F0.
    destruct (faults 1%nat), (faults 2%nat); try done;
      by destruct (insert_download (cm_id page) (Some user) s).
  - unfold like_route. unfold_handler.
    rewrite F0. unfold find_public_model. simpl. rewrite Hm, Hpub.
    repeat case_match; simplify_eq/=; done.
  - intros content. unfold comment_route.
    destruct (valid_content content); simpl; [|by unfold_handler].
    unfold_handler.
    rewrite F0. unfold find_public_model. simpl. rewrite Hm, Hpub.
    repeat case_match; simplify_eq/=; done.
  - intros F1. unfold get_model_route. unfold_handler.
    rewrite F0, F1. unfold find_unique_model. simpl. by rewrite Hm.
Qed.

Lemma tracking_failure_is_not_fatal_witness :
  status (download_route second_call_fails 1 5 fresh_db).1 = 200 ∧
  (handleDownload second_call_fails true stale_model 5 fresh_db).1
  = toast_success "Download started!" ∧
  (get_model_route second_call_fails 1 fresh_db).1 = internal_server_error.
Proof.
  destruct (tracking_failure_is_not_fatal second_call_fails 1 5 fresh_db
              fresh_entity eq_refl eq_refl eq_refl) as (Hd & Hh & _ & _ & Hg).
  split_and?.
  - apply Hd; [left|]; reflexivity.
  - apply Hh. reflexivity.
  - apply Hg. reflexivity.
Defined.

(** ** Uniqueness of likes *)

Section uniqueness.
Implicit Types (s : db) (r : request) (st : statement).

Lemma likes_unique_execute st s :
  likes_unique s → likes_unique (execute st s).
Proof.
  unfold likes_unique.
  destruct st as [mid u|x|mid u|x|mid u|mid u|d|v|v d]; simpl; intros Hs;
    try done.
  - unfold insert_like. destruct (models s !! mid); [|done].
    case_decide as Hex; [done|]. simpl.
    rewrite fmap_app. apply NoDup_app. split_and?; [done| |].
    + intros p Hp Hp'. apply list_elem_of_singleton in Hp'. subst p.
      apply list_elem_of_fmap in Hp as (r & [= E1 E2] & Hr).
      apply Hex, Exists_exists. by exists r.
    + apply NoDup_singleton.
  - eapply sublist_NoDup; [exact Hs|]. apply fmap_sublist, sublist_filter.
  - unfold insert_comment. by destruct (models s !! mid).
  - unfold insert_download. by destruct (models s !! mid).
  - unfold insert_model_view. by destruct (models s !! mid).
  - eapply sublist_NoDup; [exact Hs|]. apply fmap_sublist, sublist_filter.
Qed.

Lemma likes_unique_serve r s : likes_unique s → likes_unique (serve r s).
Proof.
  intros Hs. destruct (serve_statements r s) as (sts & -> & _).
  revert s Hs. induction sts as [|st sts IH]; intros s Hs; [done|].
  rewrite execute_all_cons. by apply IH, likes_unique_execute.
Qed.

Lemma likes_unique_serve_all rs s :
  likes_unique s → likes_unique (serve_all rs s).
Proof.
  revert s. induction rs as [|r rs IH]; intros s Hs; [done|].
  by apply IH, likes_unique_serve.
Qed.

Lemma likes_unique_count s id u :
  likes_unique s →
  (length (filter (λ k, like_model_id k = id ∧ like_user_id k = u) (likes s))
   ≤ 1)%nat.
Proof.
  unfold likes_unique. induction (likes s) as [|k l IH]; intros Hl.
  - simpl. lia.
  - rewrite fmap_cons in Hl. apply NoDup_cons in Hl as [Hk Hl].
    destruct (decide (like_model_id k = id ∧ like_user_id k = u))
      as [[E1 E2]|Hn].
    + rewrite filter_cons_True by done. rewrite filter_none; [simpl; lia|].
      intros [k' [Hk' [E1' E2']]]%Exists_exists. apply Hk.
      apply list_elem_of_fmap. exists k'. split; [congruence|done].
    + rewrite filter_cons_False by done. by apply IH.
Qed.

Lemma find_like_None s id u : find_like id u s = None ↔ ¬ liked_by s id u.
Proof.
  unfold find_like, liked_by. split.
  - intros E. apply (filter_empty_not_Exists _).
    by destruct (filter _ (likes s)).
  - intros Hn. by rewrite filter_none.
Qed.

Lemma find_like_Some s id u k :
  find_like id u s = Some k →
  k ∈ likes s ∧ like_model_id k = id ∧ like_user_id k = u.
Proof.
  unfold find_like. intros Hk%head_Some_elem_of.
  by apply list_elem_of_filter in Hk as [[? ?] ?].
Qed.
End uniqueness.

(** C5: in every store the requests can reach from a store that satisfies
    [UNIQUE(model_id, user_id)], a pair of entity and user has at most one
    like row; inserting a like for a pair that has one is rejected and leaves
    the store, and so the like counter, as it was; the like route whose
    lookup missed the existing like answers 500 with the store unchanged. *)
Theorem second_like_is_rejected rs s id user :
  likes_unique s →
  (length (filter (λ k, like_model_id k = id ∧ like_user_id k = user)
             (likes (serve_all rs s))) ≤ 1)%nat ∧
  (liked_by s id user →
   (∃ e, insert_like id user s = inl e) ∧
   execute (S_insert_like id user) s = s ∧
   ∀ faults,
     like_step id (Thread user faults (At_mutation None)) s
     = (Finished internal_server_error, s)).
Proof.
  intros Hs. split.
  - by apply likes_unique_count, likes_unique_serve_all.
  - intros Hl.
    assert (∃ e, insert_like id user s = inl e) as [e He].
    { unfold insert_like. destruct (models s !! id); [|by eexists].
      rewrite decide_True by done. by eexists. }
    split_and?; [by eexists|by simpl; rewrite He|].
    intros faults. unfold like_step. simpl. rewrite He.
    by destruct (faults 2%nat).
Qed.

Lemma second_like_is_rejected_witness :
  (length (filter (λ k, like_model_id k = 1%Z ∧ like_user_id k = 5%Z)
             (likes (serve_all [Post_like no_faults (Some 1%Z) 6%Z;
                                Post_like no_faults (Some 1%Z) 5%Z;
                                Post_like no_faults (Some 1%Z) 5%Z]
                       drifted_db))) ≤ 1)%nat ∧
  execute (S_insert_like 1 5) drifted_db = drifted_db.
Proof.
  destruct (second_like_is_rejected
              [Post_like no_faults (Some 1) 6; Post_like no_faults (Some 1) 5;
               Post_like no_faults (Some 1) 5] drifted_db 1 5) as [H1 H2].
  - unfold likes_unique. simpl. apply NoDup_singleton.
  - split; [exact H1|]. apply H2. unfold liked_by. simpl.
    apply Exists_cons_hd. split; reflexivity.
Defined.

(** ** The like route *)

Section like_route.
Implicit Types (s : db) (m : model_row).

Lemma keys_fresh_execute st s : keys_fresh s → keys_fresh (execute st s).
Proof.
  unfold keys_fresh.
  destruct st as [mid u|x|mid u|x|mid u|mid u|d|v|v d]; simpl; intros Hs;
    try done.
  - unfold insert_like. destruct (models s !! mid); [|done].
    case_decide; [done|]. simpl. apply Forall_app. split.
    + eapply Forall_impl; [exact Hs|]. simpl. intros. lia.
    + constructor; [simpl; lia|constructor].
  - by apply Forall_filter_keep.
  - unfold insert_comment. destruct (models s !! mid); [|done]. simpl.
    eapply Forall_impl; [exact Hs|]. simpl. intros. lia.
  - unfold insert_download. destruct (models s !! mid); [|done]. simpl.
    eapply Forall_impl; [exact Hs|]. simpl. intros. lia.
  - unfold insert_model_view. destruct (models s !! mid); [|done]. simpl.
    eapply Forall_impl; [exact Hs|]. simpl. intros. lia.
  - by apply Forall_filter_keep.
Qed.

Lemma keys_fresh_serve_all rs s : keys_fresh s → keys_fresh (serve_all rs s).
Proof.
  revert s. induction rs as [|r rs IH]; intros s Hs; [done|].
  apply IH. destruct (serve_statements r s) as (sts & -> & _).
  clear IH. revert s Hs. induction sts as [|st sts IH]; intros s Hs; [done|].
  rewrite execute_all_cons. by apply IH, keys_fresh_execute.
Qed.

(** What the route did when it answers "liked". *)
Lemma like_route_liked faults id user s :
  (like_route faults (Some id) user s).1 = liked_response →
  find_like id user s = None ∧
  insert_like id user s = inr (like_route faults (Some id) user s).2.
Proof.
  unfold like_route. unfold_handler.
  repeat case_match; simplify_eq/=; try done.
Qed.

(** The route with no failing call. *)
Lemma like_route_no_fault faults id user s m :
  faults 0%nat = false → faults 1%nat = false → faults 2%nat = false →
  models s !! id = Some m → is_public m = true →
  like_route faults (Some id) user s
  = match find_like id user s with
    | Some k =>
        match prisma_like_delete (like_id k) s with
        | inr s' => (unliked_response, s')
        | inl _ => (internal_server_error, s)
        end
    | None =>
        match insert_like id user s with
        | inr s' => (liked_response, s')
        | inl _ => (internal_server_error, s)
        end
    end.
Proof.
  intros F0 F1 F2 Hm Hpub. unfold like_route. unfold_handler.
  rewrite F0, F1. unfold find_public_model. simpl. rewrite Hm, Hpub.
  destruct (find_like id user s) as [k|]; rewrite F2.
  - by destruct (prisma_like_delete (like_id k) s).
  - by destruct (insert_like id user s).
Qed.

Lemma insert_like_inr id user s s' :
  insert_like id user s = inr s' →
  is_Some (models s !! id) ∧ ¬ liked_by s id user ∧
  s' = Db (fire T_likes INSERT id (models s))
          (likes s ++ [Like (next_id s) id user])
          (comments s) (downloads s) (model_views s) (next_id s + 1).
Proof.
  unfold insert_like. destruct (models s !! id); [|done].
  case_decide; [done|]. intros [= <-]. by split_and?.
Qed.
End like_route.

Section toggle.
Implicit Types (s : db) (m : model_row).

Lemma NoDup_fmap_eq {A B} (f : A → B) (l : list A) (x y : A) :
  NoDup (f <$> l) → x ∈ l → y ∈ l → f x = f y → x = y.
Proof.
  induction l as [|a l IH]; intros Hl Hx Hy E; [by apply not_elem_of_nil in Hx|].
  rewrite fmap_cons in Hl. apply NoDup_cons in Hl as [Ha Hl].
  apply elem_of_cons in Hx as [->|Hx], Hy as [->|Hy]; [done| | |by apply IH].
  - destruct Ha. rewrite E. by apply list_elem_of_fmap_2.
  - destruct Ha. rewrite <- E. by apply list_elem_of_fmap_2.
Qed.

Lemma unlike_removes_the_like s id user k :
  likes_unique s → find_like id user s = Some k →
  ¬ liked_by (delete_like (like_id k) s) id user.
Proof.
  intros Hs (Hk & E1 & E2)%find_like_Some.
  intros (k' & Hk' & E1' & E2')%Exists_exists. simpl in Hk'.
  apply list_elem_of_filter in Hk' as [Hne Hk'].
  apply Hne. f_equal.
  apply (NoDup_fmap_eq (λ r, (like_model_id r, like_user_id r)) (likes s));
    [done..|]. simpl. congruence.
Qed.
End toggle.

(** C9: on an existing public entity, with no failing call and a store that
    satisfies the unique constraint of [likes], the like route toggles: with
    no like of the user it creates one and answers [liked = true], with a
    like it deletes it and answers [liked = false]; the flag of the answer
    tells whether the user likes the entity after the request. *)
Theorem like_route_toggles faults id user s m :
  faults 0%nat = false → faults 1%nat = false → faults 2%nat = false →
  models s !! id = Some m → is_public m = true → likes_unique s →
  (¬ liked_by s id user →
   (like_route faults (Some id) user s).1 = liked_response ∧
   liked_by (like_route faults (Some id) user s).2 id user) ∧
  (liked_by s id user →
   (like_route faults (Some id) user s).1 = unliked_response ∧
   ¬ liked_by (like_route faults (Some id) user s).2 id user) ∧
  ∃ message liked,
    (like_route faults (Some id) user s).1
    = Response 200 (B_like message liked) ∧
    (liked = true ↔ liked_by (like_route faults (Some id) user s).2 id user).
Proof.
  intros F0 F1 F2 Hm Hpub Hs.
  rewrite (like_route_no_fault faults id user s m) by done.
  destruct (find_like id user s) as [k|] eqn:Hk.
  - assert (liked_by s id user) as Hl.
    { intros. destruct (decide (liked_by s id user)) as [|Hn]; [done|].
      apply find_like_None in Hn. congruence. }
    pose proof (unlike_removes_the_like s id user k Hs Hk) as Hgone.
    unfold prisma_like_delete. rewrite decide_True.
    2:{ apply Exists_exists. exists k. by apply find_like_Some in Hk as [? _]. }
    simpl. split_and?; [done|done|].
    exists "Model unliked"%string, false. split; [done|]. split; [done|].
    intros Hc. by destruct Hgone.
  - apply find_like_None in Hk. unfold insert_like. rewrite Hm.
    rewrite decide_False by done. simpl.
    assert (liked_by
              (Db (fire T_likes INSERT id (models s))
                  (likes s ++ [Like (next_id s) id user])
                  (comments s) (downloads s) (model_views s) (next_id s + 1))
              id user) as Hl.
    { unfold liked_by. simpl. apply Exists_app. right. by constructor. }
    split_and?; [done|done|].
    exists "Model liked"%string, true. done.
Qed.

Lemma like_route_toggles_witness :
  (¬ liked_by fresh_db 1 5 →
   (like_route no_faults (Some 1) 5 fresh_db).1 = liked_response ∧
   liked_by (like_route no_faults (Some 1) 5 fresh_db).2 1 5) ∧
  (liked_by fresh_db 1 5 →
   (like_route no_faults (Some 1) 5 fresh_db).1 = unliked_response ∧
   ¬ liked_by (like_route no_faults (Some 1) 5 fresh_db).2 1 5).
Proof.
  destruct (like_route_toggles no_faults 1 5 fresh_db fresh_entity)
    as (H1 & H2 & _); try reflexivity.
  - unfold likes_unique. simpl. apply NoDup_nil_2.
  - split; [exact H1|exact H2].
Defined.

(** C6: an entity whose like counter is 0 is liked by a user (the route
    answers "liked"): the counter is 1; the same user then sends the request
    again with no failing call: the route answers "unliked" and the counter
    is back at 0.  The store has its key generator ahead of the keys of the
    like rows. *)
Theorem like_then_unlike_round_trip faults faults' id user s m :
  models s !! id = Some m → like_count m = 0 → keys_fresh s →
  (like_route faults (Some id) user s).1 = liked_response →
  faults' 0%nat = false → faults' 1%nat = false → faults' 2%nat = false →
  let s1 := (like_route faults (Some id) user s).2 in
  let s2 := (like_route faults' (Some id) user s1).2 in
  like_count <$> models s1 !! id = Some 1 ∧
  (like_route faults' (Some id) user s1).1 = unliked_response ∧
  like_count <$> models s2 !! id = Some 0.
Proof.
  intros Hm H0 Hfresh Hliked F0 F1 F2 s1 s2.
  destruct (like_route_liked faults id user s Hliked) as [Hnone Hins].
  fold s1 in Hins. apply insert_like_inr in Hins as (_ & Hnot & Hs1).
  assert (models s1 !! id = Some (set_like_count (λ c, c + 1) m)) as Hm1.
  { rewrite Hs1. simpl. by rewrite (fire_lookup_eq T_likes INSERT), Hm. }
  assert (is_public m = true) as Hpub.
  { revert Hliked. unfold like_route. unfold_handler.
    unfold find_public_model. simpl. rewrite Hm.
    destruct (faults 0%nat); [done|]. by destruct (is_public m). }
  assert (find_like id user s1 = Some (Like (next_id s) id user)) as Hfind.
  { unfold find_like. rewrite Hs1. simpl. rewrite filter_app.
    rewrite (filter_none _ (likes s)) by done.
    by rewrite filter_cons_True. }
  assert (filter (λ k, like_id k = next_id s) (likes s1)
          = [Like (next_id s) id user]) as Hvictims.
  { rewrite Hs1. simpl. rewrite filter_app, filter_none.
    - by rewrite filter_cons_True.
    - intros (k & Hk & Ek)%Exists_exists.
      unfold keys_fresh in Hfresh. rewrite Forall_forall in Hfresh.
      specialize (Hfresh k Hk). lia. }
  subst s2.
  rewrite (like_route_no_fault faults' id user s1 (set_like_count (λ c, c + 1) m))
    by done.
  rewrite Hfind. unfold prisma_like_delete. simpl.
  rewrite decide_True.
  2:{ apply Exists_exists. exists (Like (next_id s) id user). split; [|done].
      rewrite Hs1. simpl. apply elem_of_app. right. by constructor. }
  simpl. rewrite Hvictims. simpl.
  rewrite (fire_lookup_eq T_likes DELETE) by done. rewrite Hm1. simpl.
  split_and?; [by rewrite H0|done|]. f_equal. lia.
Qed.

Lemma like_then_unlike_round_trip_witness :
  let s1 := (like_route no_faults (Some 1) 5 fresh_db).2 in
  let s2 := (like_route no_faults (Some 1) 5 s1).2 in
  like_count <$> models s1 !! 1 = Some 1 ∧
  (like_route no_faults (Some 1) 5 s1).1 = unliked_response ∧
  like_count <$> models s2 !! 1 = Some 0.
Proof.
  apply (like_then_unlike_round_trip no_faults no_faults 1 5 fresh_db
           fresh_entity); try reflexivity.
  unfold keys_fresh. simpl. constructor.
Defined.

(** ** Download and view rows *)

Section append_only.
Implicit Types (s : db) (st : statement).

Lemma rows_extend_refl s id : rows_extend s s id.
Proof. by split. Qed.

Lemma rows_extend_trans s1 s2 s3 id :
  rows_extend s1 s2 id → rows_extend s2 s3 id → rows_extend s1 s3 id.
Proof. intros [? ?] [? ?]. split; by etrans. Qed.

Lemma execute_rows_extend st s id :
  is_Some (models (execute st s) !! id) ∨ ¬ deletes_model st →
  rows_extend s (execute st s) id.
Proof.
  destruct st as [mid u|x|mid u|x|mid u|mid u|d|v|v d]; simpl; intros Hst;
    try (by split).
  - unfold insert_like. destruct (models s !! mid); [|apply rows_extend_refl].
    case_decide; by split.
  - unfold insert_comment.
    destruct (models s !! mid); by split.
  - unfold insert_download.
    destruct (models s !! mid); [|apply rows_extend_refl].
    split; simpl; [|done]. rewrite filter_app. by apply prefix_app_r.
  - unfold insert_model_view.
    destruct (models s !! mid); [|apply rows_extend_refl].
    split; simpl; [done|]. rewrite filter_app. by apply prefix_app_r.
  - destruct Hst as [[m' Hm'] | Hn]; [|by destruct Hn].
    apply fire_each_lookup_Some in Hm' as (m1 & Hm1 & _).
    apply fire_each_lookup_Some in Hm1 as (m & Hm & _).
    apply lookup_delete_Some in Hm as [Hne _].
    split; simpl; by rewrite filter_other.
Qed.

Lemma execute_all_rows_extend sts s id :
  is_Some (models (execute_all sts s) !! id)
  ∨ Forall (λ st, ¬ deletes_model st) sts →
  rows_extend s (execute_all sts s) id.
Proof.
  revert s. induction sts as [|st sts IH]; intros s Hsts;
    [apply rows_extend_refl|].
  rewrite execute_all_cons in *.
  apply (rows_extend_trans _ (execute st s)).
  - apply execute_rows_extend. destruct Hsts as [[m' Hm'] | Hall].
    + left. destruct (execute_all_drift sts (execute st s) id m' T_likes Hm')
        as (m & Hm & _); [done|]. by exists m.
    + right. by inversion Hall.
  - apply IH. destruct Hsts as [? | Hall]; [by left|].
    right. by inversion Hall.
Qed.

Lemma serve_rows_extend r s id :
  is_Some (models (serve r s) !! id) ∨ records_facts r = true →
  rows_extend s (serve r s) id.
Proof.
  intros Hr. destruct (serve_statements r s) as (sts & E & Hsts).
  rewrite E in *. apply execute_all_rows_extend.
  destruct Hr as [? | Hr]; [by left|]. right.
  eapply Forall_impl; [exact Hsts|]. intros st Hst Hdel.
  destruct st; try done. destruct r; simpl in *; try done;
    firstorder congruence.
Qed.
End append_only.

(** C7, counterexample: the owner deletes entity 1; its download row goes
    with it. *)
Lemma model_deletion_removes_download_rows :
  downloads downloaded_db = [Download 1 1 (Some 5)] ∧
  (delete_model_route no_faults (Some 1) 7 downloaded_db).1
  = Response 200 (B_message "Model deleted successfully") ∧
  downloads (delete_model_route no_faults (Some 1) 7 downloaded_db).2 = [] ∧
  ¬ rows_extend downloaded_db
      (serve (Delete_model no_faults (Some 1) 7) downloaded_db) 1.
Proof.
  split_and?; try reflexivity.
  intros [[k Hk] _]. vm_compute in Hk. discriminate Hk.
Qed.

(** C7, amended: over any sequence of requests, the download rows and the
    view rows of an entity that exists at the end extend those at the start;
    for sequences without a model deletion this holds for every entity.
    Download and view rows are removed only with their entity, by the
    cascade of the model deletion. *)
Theorem download_and_view_rows_are_kept rs s id :
  is_Some (models (serve_all rs s) !! id)
  ∨ Forall (λ r, records_facts r = true) rs →
  rows_extend s (serve_all rs s) id ∧
  count_downloads s id ≤ count_downloads (serve_all rs s) id ∧
  count_views s id ≤ count_views (serve_all rs s) id.
Proof.
  intros Hrs.
  assert (rows_extend s (serve_all rs s) id) as Hext.
  { revert s Hrs. induction rs as [|r rs IH]; intros s Hrs;
      [apply rows_extend_refl|].
    change (serve_all (r :: rs) s) with (serve_all rs (serve r s)) in *.
    assert (is_Some (models (serve_all rs (serve r s)) !! id) →
            is_Some (models (serve r s) !! id)) as Hback.
    { clear. generalize (serve r s). induction rs as [|r' rs IH];
        intros s' Hs'; [done|].
      change (serve_all (r' :: rs) s') with (serve_all rs (serve r' s')) in Hs'.
      apply IH in Hs' as [m' Hm'].
      destruct (serve_drift r' s' id m' T_likes Hm') as (m & Hm & _); [done|].
      by exists m. }
    apply (rows_extend_trans _ (serve r s)).
    - apply serve_rows_extend. destruct Hrs as [? | Hall]; [left; auto|].
      right. by inversion Hall.
    - apply IH. destruct Hrs as [? | Hall]; [by left|]. right.
      by inversion Hall. }
  split; [done|]. destruct Hext as [[k1 E1] [k2 E2]].
  unfold count_downloads, count_views. rewrite E1, E2, !length_app. lia.
Qed.

Lemma download_and_view_rows_are_kept_witness :
  rows_extend downloaded_db
    (serve_all [Post_download no_faults 1 6; Get_model no_faults 1;
                Post_like no_faults (Some 1) 6] downloaded_db) 1.
Proof.
  apply (download_and_view_rows_are_kept
           [Post_download no_faults 1 6; Get_model no_faults 1;
            Post_like no_faults (Some 1) 6] downloaded_db 1).
  right. repeat constructor.
Defined.

(** ** Downloads of entities that are not free *)

(** C10, counterexample: a private entity that is not free, requested by a
    user who is not its owner: the route answers 404, not 403. *)
Lemma private_paid_download_is_not_found :
  is_free private_paid_entity = false ∧ m_user_id private_paid_entity ≠ 5 ∧
  (download_route no_faults 1 5 private_paid_db).1
  = Response 404 (B_error "Model not found or not public") ∧
  status (download_route no_faults 1 5 private_paid_db).1 ≠ 403.
Proof. split_and?; done. Qed.

(** C10, amended: for an entity that is not free and a user who is not its
    owner, the download route leaves the store as it was (no download row,
    no counter touched); it answers 403 when the entity is public and its
    lookup succeeds, and 404 otherwise. *)
Theorem paid_download_is_rejected_before_insert faults id user s m :
  models s !! id = Some m → is_free m = false → m_user_id m ≠ user →
  (download_route faults id user s).2 = s ∧
  (download_route faults id user s).1
  = if is_public m && negb (faults 0%nat)
    then Response 403 (B_error "This model requires payment")
    else Response 404 (B_error "Model not found or not public").
Proof.
  intros Hm Hfree Howner. unfold download_route. unfold_handler.
  unfold find_public_model. simpl. rewrite Hm.
  destruct (faults 0%nat); simpl; [by rewrite andb_false_r|].
  destruct (is_public m); simpl; [|done].
  rewrite Hfree, bool_decide_eq_false_2 by done. done.
Qed.

Lemma paid_download_is_rejected_before_insert_witness :
  (download_route no_faults 1 5 paid_db).2 = paid_db ∧
  (download_route no_faults 1 5 paid_db).1
  = Response 403 (B_error "This model requires payment").
Proof.
  apply (paid_download_is_rejected_before_insert no_faults 1 5 paid_db
           paid_entity); [reflexivity|reflexivity|simpl; lia].
Defined.

(** ** Concurrent like requests *)

Section interleaving.
Implicit Types (s : db) (t : like_thread) (ts : list like_thread).

(** A thread that runs alone performs the like route. *)
Lemma like_route_as_steps faults id user s :
  run id [0; 0; 0]%nat [Thread user faults At_find_model] s
  = ([Thread user faults
        (Finished (like_route faults (Some id) user s).1)],
     (like_route faults (Some id) user s).2).
Proof.
  unfold like_route. unfold_handler. simpl. unfold like_step. simpl.
  destruct (faults 0%nat); [done|].
  destruct (find_public_model id s); simpl; [|done].
  destruct (faults 1%nat); [done|]. simpl.
  destruct (find_like id user s) as [k|]; simpl.
  - destruct (faults 2%nat); [done|].
    by destruct (prisma_like_delete (like_id k) s).
  - destruct (faults 2%nat); [done|].
    by destruct (insert_like id user s).
Qed.

Lemma credits_insert ts i t t' :
  ts !! i = Some t →
  credits (<[i := t']> ts) = credits ts - credit t + credit t'.
Proof.
  revert i. induction ts as [|a ts IH]; intros [|i] Hi; simplify_eq/=.
  - lia.
  - rewrite (IH i) by done. lia.
Qed.

Lemma credits_all_liked ts :
  Forall (λ t, th_pc t = Finished liked_response) ts →
  credits ts = Z.of_nat (length ts).
Proof.
  induction 1 as [|t ts Ht _ IH]; [done|].
  simpl. unfold credit at 1. rewrite Ht, IH. simpl. lia.
Qed.

Lemma credits_spawn faults users : credits (spawn faults users) = 0.
Proof. induction users as [|u users IH]; [done|]. simpl. by rewrite IH. Qed.

Lemma users_insert ts i t pc :
  ts !! i = Some t → th_user <$> <[i := set_pc pc t]> ts = th_user <$> ts.
Proof.
  intros Hi. rewrite list_fmap_insert. simpl. apply list_insert_id.
  by rewrite list_lookup_fmap, Hi.
Qed.

(** A step that leaves the store alone and creates no like. *)
Lemma pool_inv_local E likes0 rows0 ts s i t pc :
  pool_inv E likes0 rows0 ts s → ts !! i = Some t →
  credit (set_pc pc t) = credit t → thread_ok s E (set_pc pc t) →
  pool_inv E likes0 rows0 (<[i := set_pc pc t]> ts) s.
Proof.
  intros (Hm & Hrows & Hok & Hnd) Hi Hc Ht.
  unfold pool_inv. rewrite (credits_insert ts i t) by done. rewrite Hc.
  replace (credits ts - credit t + credit t) with (credits ts) by lia.
  split_and?; [done|done| |].
  - by apply Forall_insert.
  - by rewrite users_insert.
Qed.

Lemma like_step_inv E likes0 rows0 ts s i t :
  pool_inv E likes0 rows0 ts s → ts !! i = Some t →
  pool_inv E likes0 rows0 (<[i := set_pc (like_step E t s).1 t]> ts)
    (like_step E t s).2.
Proof.
  intros Hinv Hi. pose proof Hinv as (Hm & Hrows & Hok & Hnd).
  destruct Hm as (m & Hm & Hpub & Hcount).
  pose proof (Forall_lookup_1 _ _ _ _ Hok Hi) as Ht.
  unfold like_step. unfold thread_ok in Ht.
  destruct (th_pc t) as [| |[k|]|r] eqn:Hpc; [| |done| |].
  - (* the lookup of the entity *)
    unfold find_public_model. rewrite Hm, Hpub.
    destruct (th_faults t 0%nat) eqn:F; simpl;
      apply pool_inv_local; try done;
      unfold credit, thread_ok; simpl; rewrite ?Hpc; try done.
    intros Hnf. by rewrite Hnf in F.
  - (* the lookup of the like *)
    destruct (th_faults t 1%nat) eqn:F; simpl.
    + apply pool_inv_local; try done;
        unfold credit, thread_ok; simpl; rewrite ?Hpc; try done.
      intros Hnf. by rewrite Hnf in F.
    + apply find_like_None in Ht. rewrite Ht.
      apply pool_inv_local; try done;
        unfold credit, thread_ok; simpl; rewrite ?Hpc; try done.
      by apply find_like_None.
  - (* the insertion of the like *)
    destruct (th_faults t 2%nat) eqn:F; simpl.
    { apply pool_inv_local; try done;
        unfold credit, thread_ok; simpl; rewrite ?Hpc; try done.
      intros Hnf. by rewrite Hnf in F. }
    unfold insert_like. rewrite Hm, decide_False by done. simpl.
    unfold pool_inv. rewrite (credits_insert ts i t) by done.
    replace (credit t) with 0 by (unfold credit; by rewrite Hpc).
    replace (credit (set_pc (Finished liked_response) t)) with 1 by done.
    split_and?.
    + exists (set_like_count (λ c, c + 1) m). simpl.
      rewrite (fire_lookup_eq T_likes INSERT), Hm by done.
      split_and?; [done|done|simpl; lia].
    + unfold count_likes in *. simpl. rewrite count_snoc.
      rewrite decide_True by done. lia.
    + apply Forall_lookup_2. intros j t' Hj.
      destruct (decide (i = j)) as [<-|Hne].
      * rewrite list_lookup_insert_eq in Hj by (by eapply lookup_lt_Some).
        injection Hj as <-. by unfold thread_ok.
      * rewrite list_lookup_insert_ne in Hj by done.
        pose proof (Forall_lookup_1 _ _ _ _ Hok Hj) as Ht'.
        assert (th_user t' ≠ th_user t) as Hu.
        { intros E'. apply Hne.
          apply (NoDup_lookup (th_user <$> ts) i j (th_user t)); [done|..];
            rewrite list_lookup_fmap; [by rewrite Hi|].
          rewrite Hj. simpl. by rewrite E'. }
        assert (¬ liked_by s E (th_user t') →
                ¬ liked_by
                    (Db (fire T_likes INSERT E (models s))
                        (likes s ++ [Like (next_id s) E (th_user t)])
                        (comments s) (downloads s) (model_views s)
                        (next_id s + 1)) E (th_user t')) as Hkeep.
        { unfold liked_by. simpl. intros Hn [Hl|Hl]%Exists_app; [done|].
          apply Exists_cons in Hl as [[_ Hl]|Hl]; [by simpl in Hl|].
          by apply Exists_nil in Hl. }
        unfold thread_ok in *. destruct (th_pc t') as [| |[k'|]|r']; auto.
    + by rewrite users_insert.
  - (* finished *)
    simpl. apply pool_inv_local; try done;
      unfold credit, thread_ok; simpl; rewrite ?Hpc; done.
Qed.

Lemma run_inv E likes0 rows0 sched ts s :
  pool_inv E likes0 rows0 ts s →
  pool_inv E likes0 rows0 (run E sched ts s).1 (run E sched ts s).2.
Proof.
  revert ts s. induction sched as [|i sched IH]; intros ts s Hinv; [done|].
  simpl. destruct (ts !! i) as [t|] eqn:Hi; [|by apply IH].
  pose proof (like_step_inv E likes0 rows0 ts s i t Hinv Hi) as Hstep.
  destruct (like_step E t s) as [pc s']. by apply IH.
Qed.

Lemma run_faults E sched ts s :
  th_faults <$> (run E sched ts s).1 = th_faults <$> ts.
Proof.
  revert ts s. induction sched as [|i sched IH]; intros ts s; [done|].
  simpl. destruct (ts !! i) as [t|] eqn:Hi; [|by apply IH].
  destruct (like_step E t s) as [pc s']. rewrite IH.
  rewrite list_fmap_insert. simpl. apply list_insert_id.
  by rewrite list_lookup_fmap, Hi.
Qed.

Lemma pool_inv_spawn E faults users s m :
  models s !! E = Some m → is_public m = true → NoDup users →
  (∀ u, u ∈ users → ¬ liked_by s E u) →
  pool_inv E (like_count m) (count_likes s E) (spawn faults users) s.
Proof.
  intros Hm Hpub Hnd Hnew. unfold pool_inv. rewrite credits_spawn.
  split_and?.
  - exists m. split_and?; [done|done|lia].
  - lia.
  - apply Forall_fmap, Forall_forall. intros u Hu. by apply Hnew.
  - assert (th_user <$> spawn faults users = users) as ->; [|done].
    clear. unfold spawn. induction users as [|u users IH]; [done|].
    simpl. f_equal. exact IH.
Qed.

(** X14: concurrent like requests of distinct users who do not yet like
    the public entity: whatever calls fail and whatever the schedule, at
    every point of the run the like counter and the like rows of the entity
    have grown by the number of "liked" answers given so far. *)
Lemma concurrent_likes_match_answers E faults users sched s m :
  models s !! E = Some m → is_public m = true → NoDup users →
  (∀ u, u ∈ users → ¬ liked_by s E u) →
  like_count <$> models (run E sched (spawn faults users) s).2 !! E
    = Some (like_count m + credits (run E sched (spawn faults users) s).1) ∧
  count_likes (run E sched (spawn faults users) s).2 E
    = count_likes s E + credits (run E sched (spawn faults users) s).1.
Proof.
  intros Hm Hpub Hnd Hnew.
  pose proof (pool_inv_spawn E faults users s m Hm Hpub Hnd Hnew) as Hinv.
  apply (run_inv E _ _ sched) in Hinv.
  destruct Hinv as ((m' & Hm' & _ & Hcount) & Hrows & _).
  split; [|done]. rewrite Hm'. simpl. by rewrite Hcount.
Qed.

(** Every pool can be run to its end. *)
Lemma run_app E sched1 sched2 ts s :
  run E (sched1 ++ sched2) ts s
  = run E sched2 (run E sched1 ts s).1 (run E sched1 ts s).2.
Proof.
  revert ts s. induction sched1 as [|i sched1 IH]; intros ts s; [done|].
  simpl. destruct (ts !! i) as [t|]; [|by apply IH].
  destruct (like_step E t s) as [pc s']. by apply IH.
Qed.

Lemma three_steps_finish E t s i ts :
  ts !! i = Some t →
  ∃ t' s', run E [i; i; i] ts s = (<[i := t']> ts, s') ∧ finished t'.
Proof.
  intros Hi. assert (i < length ts)%nat as Hlt by (by eapply lookup_lt_Some).
  simpl. rewrite Hi.
  destruct (like_step E t s) as [pc1 s1] eqn:E1.
  rewrite list_lookup_insert_eq by done.
  destruct (like_step E (set_pc pc1 t) s1) as [pc2 s2] eqn:E2.
  rewrite list_lookup_insert_eq by (by rewrite length_insert).
  destruct (like_step E (set_pc pc2 (set_pc pc1 t)) s2) as [pc3 s3] eqn:E3.
  rewrite !list_insert_insert_eq.
  eexists _, _. split; [done|].
  unfold finished, like_step in *. simpl in *.
  repeat case_match; simplify_eq/=; done.
Qed.

Lemma one_by_one_finishes E ts s :
  Forall finished (run E (one_by_one (length ts)) ts s).1.
Proof.
  assert (∀ k, (k ≤ length ts)%nat →
            length (run E (one_by_one k) ts s).1 = length ts ∧
            ∀ j t, (j < k)%nat →
                   (run E (one_by_one k) ts s).1 !! j = Some t → finished t)
    as Hk.
  { induction k as [|k IH]; intros Hle; [split; [done|lia]|].
    destruct IH as [Hlen Hdone]; [lia|].
    unfold one_by_one in *. rewrite seq_S, flat_map_app, run_app.
    change (flat_map (λ i : nat, [i; i; i]) [(0 + k)%nat]) with [k; k; k].
    set (ts1 := (run E (flat_map (λ i, [i; i; i]) (seq 0 k)) ts s).1) in *.
    set (s1 := (run E (flat_map (λ i, [i; i; i]) (seq 0 k)) ts s).2) in *.
    destruct (lookup_lt_is_Some_2 ts1 k) as [t Ht]; [lia|].
    destruct (three_steps_finish E t s1 k ts1 Ht) as (t' & s' & -> & Hfin).
    simpl. split; [by rewrite length_insert|].
    intros j tj Hj Htj. destruct (decide (k = j)) as [<-|Hne].
    - rewrite list_lookup_insert_eq in Htj by lia. by injection Htj as <-.
    - rewrite list_lookup_insert_ne in Htj by done.
      apply (Hdone j); [lia|done]. }
  destruct (Hk (length ts)) as [Hlen Hdone]; [done|].
  apply Forall_lookup_2. intros j t Hj. apply (Hdone j); [|done].
  rewrite <- Hlen. by eapply lookup_lt_Some.
Qed.
End interleaving.

(** C8: [N] like requests of [N] distinct users who do not yet like the
    public entity [E] run concurrently, each cut at its store calls, no call
    failing.  Under every schedule that lets all of them finish, every
    request answers "liked" and both the like counter of [E] and the number
    of its like rows have grown by exactly [N].  (A statement and the
    triggers it fires are one atomic step of the store.) *)
Theorem concurrent_likes_add_exactly_N E users sched s m :
  models s !! E = Some m → is_public m = true → NoDup users →
  (∀ u, u ∈ users → ¬ liked_by s E u) →
  Forall finished (run E sched (spawn (λ _, no_faults) users) s).1 →
  Forall (λ t, th_pc t = Finished liked_response)
    (run E sched (spawn (λ _, no_faults) users) s).1 ∧
  like_count <$> models (run E sched (spawn (λ _, no_faults) users) s).2 !! E
    = Some (like_count m + Z.of_nat (length users)) ∧
  count_likes (run E sched (spawn (λ _, no_faults) users) s).2 E
    = count_likes s E + Z.of_nat (length users).
Proof.
  intros Hm Hpub Hnd Hnew Hfin.
  pose proof (pool_inv_spawn E (λ _, no_faults) users s m Hm Hpub Hnd Hnew)
    as Hinv.
  apply (run_inv E _ _ sched) in Hinv.
  pose proof (run_faults E sched (spawn (λ _, no_faults) users) s) as Hfaults.
  set (ts' := (run E sched (spawn (λ _, no_faults) users) s).1) in *.
  set (s' := (run E sched (spawn (λ _, no_faults) users) s).2) in *.
  destruct Hinv as ((m' & Hm' & _ & Hcount) & Hrows & Hok & _).
  assert (Forall (λ t, th_pc t = Finished liked_response) ts') as Hliked.
  { apply Forall_lookup_2. intros j t Hj.
    pose proof (Forall_lookup_1 _ _ _ _ Hfin Hj) as Hf.
    pose proof (Forall_lookup_1 _ _ _ _ Hok Hj) as Ht.
    assert (th_faults t = no_faults) as Hnf.
    { assert ((th_faults <$> ts') !! j = Some (th_faults t)) as Hl
        by (by rewrite list_lookup_fmap, Hj).
      rewrite Hfaults in Hl. unfold spawn in Hl.
      rewrite <- list_fmap_compose, list_lookup_fmap in Hl.
      destruct (users !! j); by simplify_eq/=. }
    unfold finished, thread_ok in *. destruct (th_pc t); try done.
    f_equal. apply Ht. intros k. by rewrite Hnf. }
  assert (length ts' = length users) as Hlen.
  { rewrite <- (length_fmap th_faults ts'), Hfaults, length_fmap.
    unfold spawn. by rewrite length_fmap. }
  rewrite (credits_all_liked ts' Hliked), Hlen in *.
  split_and?; [done| |done]. rewrite Hm'. simpl. by rewrite Hcount.
Qed.

Lemma concurrent_likes_add_exactly_N_witness :
  let sched := [0; 1; 2; 1; 0; 2; 2; 0; 1]%nat in
  Forall (λ t, th_pc t = Finished liked_response)
    (run 1 sched (spawn (λ _, no_faults) [5; 6; 8]) fresh_db).1 ∧
  like_count
    <$> models (run 1 sched (spawn (λ _, no_faults) [5; 6; 8]) fresh_db).2 !! 1
    = Some (0 + Z.of_nat (length [5; 6; 8])) ∧
  count_likes (run 1 sched (spawn (λ _, no_faults) [5; 6; 8]) fresh_db).2 1
    = count_likes fresh_db 1 + Z.of_nat (length [5; 6; 8]).
Proof.
  apply (concurrent_likes_add_exactly_N 1 [5; 6; 8]
           [0; 1; 2; 1; 0; 2; 2; 0; 1]%nat fresh_db fresh_entity).
  - reflexivity.
  - reflexivity.
  - apply (bool_decide_unpack _). vm_compute. exact I.
  - intros u _ Hl. unfold liked_by in Hl. simpl in Hl.
    by apply Exists_nil in Hl.
  - vm_compute. repeat constructor.
Defined.

(** * Further properties of the routes *)

(** ** Comments *)

(** X1: a comment request with valid content on a public entity, no call
    failing, answers 201, appends exactly one comment row of the user to the
    entity and adds one to its [comment_count]; likes, downloads, views and
    every other entity are left as they were. *)
Theorem comment_route_adds_one_comment faults id content user s m :
  valid_content content = true →
  faults 0%nat = false → faults 1%nat = false →
  models s !! id = Some m → is_public m = true →
  (comment_route faults (Some id) content user s).1
  = Response 201 (B_comment "Comment added successfully"
                    (Comment (next_id s) id user)) ∧
  comments (comment_route faults (Some id) content user s).2
  = comments s ++ [Comment (next_id s) id user] ∧
  models (comment_route faults (Some id) content user s).2 !! id
  = Some (set_comment_count (λ c, c + 1) m) ∧
  (∀ id', id' ≠ id →
     models (comment_route faults (Some id) content user s).2 !! id'
     = models s !! id') ∧
  likes (comment_route faults (Some id) content user s).2 = likes s ∧
  downloads (comment_route faults (Some id) content user s).2 = downloads s ∧
  model_views (comment_route faults (Some id) content user s).2
  = model_views s.
Proof.
  intros Hv F0 F1 Hm Hpub. unfold comment_route. rewrite Hv. simpl.
  unfold_handler. rewrite F0, F1. unfold find_public_model. simpl.
  rewrite Hm, Hpub. unfold insert_comment. rewrite Hm. simpl.
  split_and?; try done.
  - by rewrite (fire_lookup_eq T_comments INSERT), Hm.
  - intros id' Hne. by rewrite fire_lookup_ne.
Qed.

Lemma comment_route_adds_one_comment_witness :
  comments (comment_route no_faults (Some 1) "nice mesh" 5 fresh_db).2
  = [Comment 1 1 5] ∧
  comment_count
    <$> models (comment_route no_faults (Some 1) "nice mesh" 5 fresh_db).2 !! 1
  = Some 1.
Proof.
  destruct (comment_route_adds_one_comment no_faults 1 "nice mesh" 5 fresh_db
              fresh_entity) as (_ & Hc & Hm & _); try reflexivity.
  split; [exact Hc|]. rewrite Hm. reflexivity.
Defined.

(** ** All or nothing *)

(** X2: the four Prisma routes change the store only when they answer with
    their success status: a [GET /:id], like or model deletion that does not
    answer 200, and a comment request that does not answer 201, leave the
    store exactly as it was. *)
Theorem backend_rejections_leave_store_unchanged faults s user :
  (∀ id, status (get_model_route faults id s).1 ≠ 200 →
         (get_model_route faults id s).2 = s) ∧
  (∀ modelId, status (like_route faults modelId user s).1 ≠ 200 →
              (like_route faults modelId user s).2 = s) ∧
  (∀ modelId content,
     status (comment_route faults modelId content user s).1 ≠ 201 →
     (comment_route faults modelId content user s).2 = s) ∧
  (∀ modelId, status (delete_model_route faults modelId user s).1 ≠ 200 →
              (delete_model_route faults modelId user s).2 = s).
Proof.
  split_and?.
  - intros id. unfold get_model_route. unfold_handler.
    repeat case_match; simplify_eq/=; done.
  - intros [id|]; unfold like_route; unfold_handler;
      repeat case_match; simplify_eq/=; done.
  - intros [id|] content; unfold comment_route; unfold_handler;
      repeat case_match; simplify_eq/=; done.
  - intros [id|]; unfold delete_model_route; unfold_handler;
      repeat case_match; simplify_eq/=; done.
Qed.

Lemma backend_rejections_leave_store_unchanged_witness :
  (like_route no_faults (Some 1) 5 private_paid_db).2 = private_paid_db ∧
  (delete_model_route no_faults (Some 1) 5 downloaded_db).2 = downloaded_db.
Proof.
  destruct (backend_rejections_leave_store_unchanged no_faults private_paid_db 5)
    as (_ & Hl & _).
  destruct (backend_rejections_leave_store_unchanged no_faults downloaded_db 5)
    as (_ & _ & _ & Hd).
  split; [apply Hl|apply Hd]; vm_compute; discriminate.
Defined.

(** ** Downloads through the backend *)

(** X3: when the entity is public and the user may download it (the entity
    is free or the user owns it) and the tracking insert goes through, the
    download row is recorded and [download_count] grows by one before the
    file is fetched: the answer is 200 when the storage delivers the file and
    500 when it does not, and the download is counted in both cases. *)
Theorem download_is_counted_before_the_file_is_fetched faults id user s m :
  models s !! id = Some m → is_public m = true →
  is_free m = true ∨ m_user_id m = user →
  faults 0%nat = false → faults 1%nat = false →
  downloads (download_route faults id user s).2
  = downloads s ++ [Download (next_id s) id (Some user)] ∧
  download_count <$> models (download_route faults id user s).2 !! id
  = Some (download_count m + 1) ∧
  (download_route faults id user s).1
  = if faults 2%nat
    then Response 500 (B_error "Failed to download file")
    else Response 200 (B_file m).
Proof.
  intros Hm Hpub Hperm F0 F1. unfold download_route. unfold_handler.
  rewrite F0, F1. unfold find_public_model. simpl. rewrite Hm, Hpub.
  assert (negb (is_free m) && negb (bool_decide (m_user_id m = user)) = false)
    as ->.
  { destruct Hperm as [-> | ->]; [done|].
    rewrite bool_decide_eq_true_2 by done. by rewrite andb_false_r. }
  unfold insert_download. simpl. rewrite Hm.
  destruct (faults 2%nat); simpl;
    by rewrite (fire_lookup_eq T_downloads INSERT), Hm.
Qed.

Lemma download_is_counted_before_the_file_is_fetched_witness :
  downloads (download_route third_call_fails 1 5 fresh_db).2
  = [Download 1 1 (Some 5)] ∧
  download_count
    <$> models (download_route third_call_fails 1 5 fresh_db).2 !! 1
  = Some 1 ∧
  (download_route third_call_fails 1 5 fresh_db).1
  = Response 500 (B_error "Failed to download file").
Proof.
  destruct (download_is_counted_before_the_file_is_fetched third_call_fails
              1 5 fresh_db fresh_entity) as (H1 & H2 & H3);
    try reflexivity.
  - left. reflexivity.
  - split_and?; [exact H1|exact H2|exact H3].
Defined.

(** ** Private entities *)

(** X4: an entity that is not public is closed to the like, comment and
    download routes for every user, its owner included: each answers 404 and
    leaves the store unchanged. *)
Theorem private_entity_is_closed_to_everyone faults id content user s m :
  models s !! id = Some m → is_public m = false →
  faults 0%nat = false → valid_content content = true →
  like_route faults (Some id) user s
  = (Response 404 (B_error "Model not found"), s) ∧
  comment_route faults (Some id) content user s
  = (Response 404 (B_error "Model not found"), s) ∧
  download_route faults id user s
  = (Response 404 (B_error "Model not found or not public"), s).
Proof.
  intros Hm Hpriv F0 Hv. split_and?.
  - unfold like_route. unfold_handler. rewrite F0.
    unfold find_public_model. simpl. by rewrite Hm, Hpriv.
  - unfold comment_route. rewrite Hv. simpl. unfold_handler. rewrite F0.
    unfold find_public_model. simpl. by rewrite Hm, Hpriv.
  - unfold download_route. unfold_handler. rewrite F0.
    unfold find_public_model. simpl. by rewrite Hm, Hpriv.
Qed.

Lemma private_entity_is_closed_to_everyone_witness :
  m_user_id private_paid_entity = 7 ∧
  like_route no_faults (Some 1) 7 private_paid_db
  = (Response 404 (B_error "Model not found"), private_paid_db) ∧
  comment_route no_faults (Some 1) "mine" 7 private_paid_db
  = (Response 404 (B_error "Model not found"), private_paid_db) ∧
  download_route no_faults 1 7 private_paid_db
  = (Response 404 (B_error "Model not found or not public"), private_paid_db).
Proof.
  split; [reflexivity|].
  apply (private_entity_is_closed_to_everyone no_faults 1 "mine" 7
           private_paid_db private_paid_entity); reflexivity.
Defined.

(** ** The model detail route *)

(** X5: [GET /:id] does not look at the visibility of the entity nor at the
    caller: for every existing entity, private ones included, with no
    failing call it answers 200.  The [view_count] of the answer is the value
    read before the increment, one less than what the store holds after the
    request; its [comment_count] is the live number of comment rows, not the
    cached counter, while [like_count] and [download_count] are the cached
    counters. *)
Theorem get_model_answers_with_the_count_before_the_view faults id s m :
  models s !! id = Some m →
  faults 0%nat = false → faults 1%nat = false →
  ∃ counts,
    (get_model_route faults id s).1
    = Response 200 (B_model m counts (view_count m) (download_count m)
                      (like_count m) (count_comments s id)) ∧
    view_count <$> models (get_model_route faults id s).2 !! id
    = Some (view_count m + 1) ∧
    is_public <$> models (get_model_route faults id s).2 !! id
    = Some (is_public m).
Proof.
  intros Hm F0 F1. unfold get_model_route. unfold_handler.
  unfold find_unique_model, prisma_view_increment. rewrite F0, F1, Hm. simpl.
  rewrite Hm. simpl. rewrite lookup_alter_eq, Hm. simpl.
  by eexists.
Qed.

Lemma get_model_answers_with_the_count_before_the_view_witness :
  is_public private_paid_entity = false ∧
  status (get_model_route no_faults 1 private_paid_db).1 = 200 ∧
  view_count <$> models (get_model_route no_faults 1 private_paid_db).2 !! 1
  = Some 1.
Proof.
  split; [reflexivity|].
  destruct (get_model_answers_with_the_count_before_the_view no_faults 1
              private_paid_db private_paid_entity)
    as (counts & Hr & Hv & _); try reflexivity.
  rewrite Hr, Hv. split; reflexivity.
Defined.

(** ** Model deletion *)

Lemma fire_each_lookup_ne {A} tbl op (key : A → Z) (rows : list A)
    (ms : gmap Z model_row) (id : Z) :
  Forall (λ r, key r ≠ id) rows →
  fire_each tbl op key rows ms !! id = ms !! id.
Proof.
  induction 1 as [|r rows Hr _ IH]; [done|].
  simpl. by rewrite fire_lookup_ne.
Qed.

(** X6: when the owner deletes an entity and no call fails, the route
    answers 200, the entity is gone, no like, comment, download or view row
    refers to it any more, and every other entity keeps its row (counters
    included) and its fact rows.  For a user who does not own the entity the
    route answers 404 and changes nothing. *)
Theorem delete_model_route_removes_the_entity_and_its_facts
    faults id user s m :
  models s !! id = Some m →
  faults 0%nat = false → faults 1%nat = false →
  (m_user_id m ≠ user →
   delete_model_route faults (Some id) user s
   = (Response 404 (B_error "Model not found"), s)) ∧
  (m_user_id m = user →
   let s' := (delete_model_route faults (Some id) user s).2 in
   (delete_model_route faults (Some id) user s).1
   = Response 200 (B_message "Model deleted successfully") ∧
   models s' !! id = None ∧
   count_likes s' id = 0 ∧ count_comments s' id = 0 ∧
   count_downloads s' id = 0 ∧ count_views s' id = 0 ∧
   ∀ id', id' ≠ id →
     models s' !! id' = models s !! id' ∧
     filter (λ k, like_model_id k = id') (likes s')
     = filter (λ k, like_model_id k = id') (likes s) ∧
     filter (λ k, comment_model_id k = id') (comments s')
     = filter (λ k, comment_model_id k = id') (comments s) ∧
     rows_extend s s' id' ∧ rows_extend s' s id').
Proof.
  intros Hm F0 F1. split.
  - intros Hown. unfold delete_model_route. unfold_handler. rewrite F0.
    unfold find_owned_model. simpl. rewrite Hm.
    by rewrite decide_False.
  - intros Hown s'. subst s'. unfold delete_model_route. unfold_handler.
    rewrite F0, F1. unfold find_owned_model, prisma_model_delete. simpl.
    rewrite Hm. rewrite decide_True by done. simpl. rewrite Hm. simpl.
    assert (∀ {A} (key : A → Z) (l : list A),
              filter (λ r, key r = id) (filter (λ r, key r ≠ id) l) = [])
      as Hgone.
    { intros A key l. apply filter_none.
      intros (r & Hr & Er)%Exists_exists.
      by apply list_elem_of_filter in Hr as [Hne _]. }
    split_and?; try done.
    + rewrite !fire_each_lookup by done. by rewrite lookup_delete_eq.
    + unfold count_likes. simpl. by rewrite Hgone.
    + unfold count_comments. simpl. by rewrite Hgone.
    + unfold count_downloads. simpl. by rewrite Hgone.
    + unfold count_views. simpl. by rewrite Hgone.
    + intros id' Hne. split_and?.
      * rewrite !fire_each_lookup_ne.
        -- by rewrite lookup_delete_ne.
        -- apply Forall_forall. intros r Hr.
           apply list_elem_of_filter in Hr as [-> _]. done.
        -- apply Forall_forall. intros r Hr.
           apply list_elem_of_filter in Hr as [-> _]. done.
      * simpl. by rewrite filter_other.
      * simpl. by rewrite filter_other.
      * split; simpl; by rewrite filter_other.
      * split; simpl; by rewrite filter_other.
Qed.

Lemma delete_model_route_removes_the_entity_and_its_facts_witness :
  delete_model_route no_faults (Some 1) 5 downloaded_db
  = (Response 404 (B_error "Model not found"), downloaded_db) ∧
  models (delete_model_route no_faults (Some 1) 7 downloaded_db).2 !! 1 = None ∧
  count_downloads (delete_model_route no_faults (Some 1) 7 downloaded_db).2 1
  = 0.
Proof.
  destruct (delete_model_route_removes_the_entity_and_its_facts no_faults 1 5
              downloaded_db (set_download_count (λ _, 1) fresh_entity))
    as [Hno _]; try reflexivity.
  destruct (delete_model_route_removes_the_entity_and_its_facts no_faults 1 7
              downloaded_db (set_download_count (λ _, 1) fresh_entity))
    as [_ Hyes]; try reflexivity.
  split; [apply Hno; simpl; lia|].
  destruct (Hyes eq_refl) as (_ & Hgone & _ & _ & Hd & _). by split.
Defined.

(** ** Keys *)

Section keys.
Context {A : Type} (key : A → Z).
Implicit Types (rows : list A) (n : Z).

Lemma table_keys_ok_bump rows n :
  table_keys_ok key n rows → table_keys_ok key (n + 1) rows.
Proof.
  intros [Hnd Hlt]. split; [done|].
  eapply Forall_impl; [exact Hlt|]. simpl. intros. lia.
Qed.

Lemma table_keys_ok_snoc rows n x :
  key x = n → table_keys_ok key n rows →
  table_keys_ok key (n + 1) (rows ++ [x]).
Proof.
  intros Hx [Hnd Hlt]. split.
  - rewrite fmap_app. apply NoDup_app. split_and?; [done| |apply NoDup_singleton].
    intros k Hk Hk'. apply list_elem_of_singleton in Hk'. subst k.
    apply list_elem_of_fmap in Hk as (y & Ey & Hy).
    rewrite Forall_forall in Hlt. specialize (Hlt y Hy). lia.
  - apply Forall_app. split.
    + eapply Forall_impl; [exact Hlt|]. simpl. intros. lia.
    + constructor; [lia|constructor].
Qed.

Lemma table_keys_ok_filter (P : A → Prop) `{!∀ x, Decision (P x)} rows n :
  table_keys_ok key n rows → table_keys_ok key n (filter P rows).
Proof.
  intros [Hnd Hlt]. split.
  - eapply sublist_NoDup; [exact Hnd|]. apply fmap_sublist, sublist_filter.
  - by apply Forall_filter_keep.
Qed.

(** With distinct keys, the rows that carry the key of a row are that row. *)
Lemma filter_key_singleton rows x :
  NoDup (key <$> rows) → x ∈ rows →
  filter (λ r, key r = key x) rows = [x].
Proof.
  induction rows as [|a rows IH]; intros Hnd Hx; [by apply not_elem_of_nil in Hx|].
  rewrite fmap_cons in Hnd. apply NoDup_cons in Hnd as [Ha Hnd].
  apply elem_of_cons in Hx as [->|Hx].
  - rewrite filter_cons_True by done. f_equal. apply filter_none.
    intros (y & Hy & Ey)%Exists_exists. apply Ha. rewrite <- Ey.
    by apply list_elem_of_fmap_2.
  - rewrite filter_cons_False; [by apply IH|].
    intros Ea. apply Ha. rewrite Ea. by apply list_elem_of_fmap_2.
Qed.
End keys.

Lemma keys_ok_execute st s : keys_ok s → keys_ok (execute st s).
Proof.
  intros (Hl & Hc & Hd & Hv). unfold keys_ok.
  destruct st as [mid u|x|mid u|x|mid u|mid u|d|v|v d]; simpl; try done.
  - unfold insert_like. destruct (models s !! mid); [|done].
    case_decide; [done|]. simpl.
    split_and?; try (by apply table_keys_ok_bump).
    by apply table_keys_ok_snoc.
  - split_and?; try done. by apply table_keys_ok_filter.
  - unfold insert_comment. destruct (models s !! mid); [|done]. simpl.
    split_and?; try (by apply table_keys_ok_bump).
    by apply table_keys_ok_snoc.
  - split_and?; try done. by apply table_keys_ok_filter.
  - unfold insert_download. destruct (models s !! mid); [|done]. simpl.
    split_and?; try (by apply table_keys_ok_bump).
    by apply table_keys_ok_snoc.
  - unfold insert_model_view. destruct (models s !! mid); [|done]. simpl.
    split_and?; try (by apply table_keys_ok_bump).
    by apply table_keys_ok_snoc.
  - split_and?; by apply table_keys_ok_filter.
Qed.

(** X7: the primary keys of the four fact tables stay pairwise distinct
    and below the key generator over every sequence of requests. *)
Theorem primary_keys_stay_unique rs s :
  keys_ok s → keys_ok (serve_all rs s).
Proof.
  revert s. induction rs as [|r rs IH]; intros s Hs; [done|].
  apply IH. destruct (serve_statements r s) as (sts & -> & _).
  clear IH. revert s Hs. induction sts as [|st sts IH]; intros s Hs; [done|].
  rewrite execute_all_cons. by apply IH, keys_ok_execute.
Qed.

Lemma primary_keys_stay_unique_witness :
  keys_ok (serve_all [Post_like no_faults (Some 1) 5;
                      Post_download no_faults 1 6;
                      Post_comment no_faults (Some 1) "nice mesh" 5;
                      Post_like no_faults (Some 1) 5] fresh_db).
Proof.
  apply (primary_keys_stay_unique
           [Post_like no_faults (Some 1) 5; Post_download no_faults 1 6;
            Post_comment no_faults (Some 1) "nice mesh" 5;
            Post_like no_faults (Some 1) 5] fresh_db).
  unfold keys_ok, table_keys_ok. simpl. repeat split; constructor.
Defined.

(** ** Foreign keys *)

Section references.
Implicit Types (s : db) (ms : gmap Z model_row).

Lemma alter_is_Some (f : model_row → model_row) i ms j :
  is_Some (alter f i ms !! j) ↔ is_Some (ms !! j).
Proof.
  destruct (decide (i = j)) as [->|Hne].
  - by rewrite lookup_alter_eq, fmap_is_Some.
  - by rewrite lookup_alter_ne.
Qed.

Lemma fire_is_Some tbl op mid ms id :
  is_Some (fire tbl op mid ms !! id) ↔ is_Some (ms !! id).
Proof.
  destruct (decide (mid = id)) as [->|Hne].
  - destruct (trigger_bound tbl op) eqn:E.
    + rewrite fire_lookup_eq by done. by rewrite fmap_is_Some.
    + by rewrite fire_unbound.
  - by rewrite fire_lookup_ne.
Qed.

Lemma fire_each_is_Some {A} tbl op (key : A → Z) (rows : list A) ms id :
  is_Some (fire_each tbl op key rows ms !! id) ↔ is_Some (ms !! id).
Proof.
  induction rows as [|r rows IH]; [done|]. simpl. by rewrite fire_is_Some.
Qed.

Lemma Forall_snoc_ref {A} (P : A → Prop) (l : list A) (x : A) :
  Forall P l → P x → Forall P (l ++ [x]).
Proof. intros. apply Forall_app. split; [done|by constructor]. Qed.

Lemma references_ok_execute st s : references_ok s → references_ok (execute st s).
Proof.
  intros (Hl & Hc & Hd & Hv). unfold references_ok.
  assert (∀ {A} (key : A → Z) (rows : list A) tbl op mid,
            Forall (λ k, is_Some (models s !! key k)) rows →
            Forall (λ k, is_Some (fire tbl op mid (models s) !! key k)) rows)
    as Hfire.
  { intros A key rows tbl op mid H. eapply Forall_impl; [exact H|].
    simpl. intros k Hk. by apply fire_is_Some. }
  assert (∀ {A B} (key : A → Z) (key' : B → Z) (rows : list A)
            (victims : list B) tbl op,
            Forall (λ k, is_Some (models s !! key k)) rows →
            Forall (λ k, is_Some
                           (fire_each tbl op key' victims (models s) !! key k))
                   rows) as Hfires.
  { intros A B key key' rows victims tbl op H. eapply Forall_impl; [exact H|].
    simpl. intros k Hk. by apply fire_each_is_Some. }
  destruct st as [mid u|x|mid u|x|mid u|mid u|d|v|v d]; simpl.
  - unfold insert_like. destruct (models s !! mid) eqn:Hm; [|done].
    case_decide; [done|]. simpl. split_and?; try by apply Hfire.
    apply Forall_snoc_ref; [by apply Hfire|]. simpl.
    apply fire_is_Some. by rewrite Hm.
  - split_and?; try by apply Hfires.
    apply Forall_filter_keep. by apply Hfires.
  - unfold insert_comment. destruct (models s !! mid) eqn:Hm; [|done]. simpl.
    split_and?; try by apply Hfire.
    apply Forall_snoc_ref; [by apply Hfire|]. simpl.
    apply fire_is_Some. by rewrite Hm.
  - split_and?; try by apply Hfires.
    apply Forall_filter_keep. by apply Hfires.
  - unfold insert_download. destruct (models s !! mid) eqn:Hm; [|done]. simpl.
    split_and?; try by apply Hfire.
    apply Forall_snoc_ref; [by apply Hfire|]. simpl.
    apply fire_is_Some. by rewrite Hm.
  - unfold insert_model_view. destruct (models s !! mid) eqn:Hm; [|done].
    simpl. split_and?; try by apply Hfire.
    apply Forall_snoc_ref; [by apply Hfire|]. simpl.
    apply fire_is_Some. by rewrite Hm.
  - assert (∀ {A} (key : A → Z) (rows : list A),
              Forall (λ k, is_Some (models s !! key k)) rows →
              Forall (λ k,
                is_Some
                  (fire_each T_comments DELETE comment_model_id
                     (filter (λ r, comment_model_id r = d) (comments s))
                     (fire_each T_likes DELETE like_model_id
                        (filter (λ r, like_model_id r = d) (likes s))
                        (delete d (models s))) !! key k))
                (filter (λ r, key r ≠ d) rows)) as Hdel.
    { intros A key rows H. apply Forall_forall. intros k Hk.
      apply list_elem_of_filter in Hk as [Hne Hk].
      rewrite Forall_forall in H. specialize (H k Hk).
      rewrite !fire_each_is_Some. by rewrite lookup_delete_ne. }
    split_and?; by apply Hdel.
  - unfold increment_view_count. simpl.
    split_and?; (eapply Forall_impl; [eassumption|]); simpl; intros k Hk;
      by apply alter_is_Some.
  - unfold write_downloads_count. simpl.
    split_and?; (eapply Forall_impl; [eassumption|]); simpl; intros k Hk;
      by apply alter_is_Some.
Qed.
End references.

(** X8: the foreign keys hold after every sequence of requests: no like,
    comment, download or view row is ever left pointing at an entity that
    does not exist. *)
Theorem foreign_keys_hold_after_requests rs s :
  references_ok s → references_ok (serve_all rs s).
Proof.
  revert s. induction rs as [|r rs IH]; intros s Hs; [done|].
  apply IH. destruct (serve_statements r s) as (sts & -> & _).
  clear IH. revert s Hs. induction sts as [|st sts IH]; intros s Hs; [done|].
  rewrite execute_all_cons. by apply IH, references_ok_execute.
Qed.

Lemma foreign_keys_hold_after_requests_witness :
  references_ok (serve_all [Post_like no_faults (Some 1) 5;
                            Post_download no_faults 1 6;
                            Delete_model no_faults (Some 1) 7] downloaded_db).
Proof.
  apply (foreign_keys_hold_after_requests
           [Post_like no_faults (Some 1) 5; Post_download no_faults 1 6;
            Delete_model no_faults (Some 1) 7] downloaded_db).
  unfold references_ok. simpl. split_and?; repeat constructor.
  by eexists.
Defined.

(** ** What the requests never do *)

(** X9: no request adds a row to [model_views]: over every sequence of
    requests the view rows are a sublist of the rows the store started
    with, so the number of view rows can only fall (by a model deletion)
    while [view_count] grows with every [GET /:id]. *)
Theorem no_request_records_a_view rs s :
  model_views (serve_all rs s) `sublist_of` model_views s.
Proof.
  assert (∀ st s, (∀ a b, st ≠ S_insert_model_view a b) →
            model_views (execute st s) `sublist_of` model_views s) as Hexec.
  { clear. intros st s Hne.
    destruct st as [mid u|x|mid u|x|mid u|mid u|d|v|v d]; simpl; try done.
    - unfold insert_like. destruct (models s !! mid); [|done].
      by case_decide.
    - unfold insert_comment. by destruct (models s !! mid).
    - unfold insert_download. by destruct (models s !! mid).
    - by destruct (Hne mid u).
    - apply sublist_filter. }
  revert s. induction rs as [|r rs IH]; intros s; [done|].
  change (serve_all (r :: rs) s) with (serve_all rs (serve r s)).
  etrans; [apply IH|].
  destruct (serve_statements r s) as (sts & -> & Hsts).
  assert (Forall (λ st, ∀ a b, st ≠ S_insert_model_view a b) sts) as Hno.
  { eapply Forall_impl; [exact Hsts|]. intros st Hst a b ->.
    destruct r; simpl in Hst; firstorder congruence. }
  clear Hsts IH. revert s. induction Hno as [|st sts Hst _ IH]; intros s; [done|].
  rewrite execute_all_cons. etrans; [apply IH|]. by apply Hexec.
Qed.

(** X10: none of the requests that record facts ([GET /:id], like, comment,
    download, model deletion, the download button) creates an entity or
    changes who owns it, whether it is public or whether it is free: an
    entity found after a sequence of such requests was there before, with
    the same owner and the same flags. *)
Theorem requests_never_create_or_retag_entities rs s id m' :
  models (serve_all rs s) !! id = Some m' →
  ∃ m, models s !! id = Some m ∧ m_user_id m' = m_user_id m ∧
       is_public m' = is_public m ∧ is_free m' = is_free m.
Proof.
  revert s. induction rs as [|r rs IH]; intros s Hm'; [by exists m'|].
  change (serve_all (r :: rs) s) with (serve_all rs (serve r s)) in Hm'.
  destruct (IH _ Hm') as (m1 & Hm1 & Hu1 & Hp1 & Hf1).
  destruct (serve_drift r s id m1 T_likes Hm1) as (m & Hm & _ & Hu & Hp & Hf);
    [done|].
  exists m. split_and?; congruence.
Qed.

Lemma requests_never_create_or_retag_entities_witness :
  ∃ m, models private_paid_db !! 1 = Some m ∧ m_user_id m = 7 ∧
       is_public m = false ∧ is_free m = false.
Proof.
  destruct (requests_never_create_or_retag_entities
              [Get_model no_faults 1; Post_like no_faults (Some 1) 7;
               Handle_download no_faults true stale_model 7]
              private_paid_db 1
              (set_downloads_count (Some 4)
                 (set_download_count (λ c, c + 1)
                    (set_view_count (λ c, c + 1) private_paid_entity))))
    as (m & Hm & Hu & Hp & Hf); [reflexivity|].
  exists m. split_and?; [exact Hm|exact (eq_sym Hu)|exact (eq_sym Hp)
                        |exact (eq_sym Hf)].
Defined.

(** ** Requests touch one entity *)

Section frame.
Implicit Types (s : db) (st : statement).

Lemma filter_subsumed_in {A} (P Q : A → Prop) `{!∀ x, Decision (P x)}
    `{!∀ x, Decision (Q x)} (l : list A) :
  (∀ x, x ∈ l → P x → Q x) → filter P (filter Q l) = filter P l.
Proof.
  induction l as [|x l IH]; intros HPQ; [done|].
  assert (filter P (filter Q l) = filter P l) as IH'.
  { apply IH. intros y Hy. apply HPQ. by right. }
  destruct (decide (Q x)).
  - rewrite (filter_cons_True Q) by done.
    destruct (decide (P x)).
    + rewrite !(filter_cons_True P) by done. by rewrite IH'.
    + by rewrite !(filter_cons_False P) by done.
  - rewrite (filter_cons_False Q) by done.
    rewrite (filter_cons_False P); [done|].
    intros HP. by apply n, (HPQ x); [left|].
Qed.

Lemma filter_snoc_other {A} (key : A → Z) (l : list A) (x : A) (id : Z) :
  key x ≠ id →
  filter (λ k, key k = id) (l ++ [x]) = filter (λ k, key k = id) l.
Proof.
  intros Hne. rewrite filter_app, (filter_cons_False _ x) by done.
  by rewrite app_nil_r.
Qed.

Lemma same_facts_refl s id : same_facts s s id.
Proof. by split_and?. Qed.

Lemma execute_frame st s id :
  id ∉ touched st s →
  models (execute st s) !! id = models s !! id ∧
  same_facts s (execute st s) id.
Proof.
  unfold same_facts.
  destruct st as [mid u|x|mid u|x|mid u|mid u|d|v|v d]; simpl; intros Hid.
  - apply not_elem_of_cons in Hid as [Hne _].
    unfold insert_like. destruct (models s !! mid); [|by split_and?].
    case_decide; [by split_and?|]. simpl.
    split; [by rewrite fire_lookup_ne|].
    split_and?; simpl; try done. by apply filter_snoc_other.
  - assert (∀ k, k ∈ likes s → like_model_id k = id → like_id k ≠ x) as Hk.
    { intros k Hk Em Ex. apply Hid. rewrite <- Em.
      apply list_elem_of_fmap_2. by apply list_elem_of_filter. }
    split.
    + apply fire_each_lookup_ne, Forall_forall. intros k Hin Em.
      apply list_elem_of_filter in Hin as [Ex Hin]. by apply (Hk k).
    + split_and?; simpl; try done. by apply filter_subsumed_in.
  - apply not_elem_of_cons in Hid as [Hne _].
    unfold insert_comment. destruct (models s !! mid); [|by split_and?].
    simpl. split; [by rewrite fire_lookup_ne|].
    split_and?; simpl; try done. by apply filter_snoc_other.
  - assert (∀ k, k ∈ comments s → comment_model_id k = id → comment_id k ≠ x)
      as Hk.
    { intros k Hk Em Ex. apply Hid. rewrite <- Em.
      apply list_elem_of_fmap_2. by apply list_elem_of_filter. }
    split.
    + apply fire_each_lookup_ne, Forall_forall. intros k Hin Em.
      apply list_elem_of_filter in Hin as [Ex Hin]. by apply (Hk k).
    + split_and?; simpl; try done. by apply filter_subsumed_in.
  - apply not_elem_of_cons in Hid as [Hne _].
    unfold insert_download. destruct (models s !! mid); [|by split_and?].
    simpl. split; [by rewrite fire_lookup_ne|].
    split_and?; simpl; try done. by apply filter_snoc_other.
  - apply not_elem_of_cons in Hid as [Hne _].
    unfold insert_model_view. destruct (models s !! mid); [|by split_and?].
    simpl. split; [by rewrite fire_lookup_ne|].
    split_and?; simpl; try done. by apply filter_snoc_other.
  - apply not_elem_of_cons in Hid as [Hne _]. split.
    + rewrite !fire_each_lookup_ne.
      * by rewrite lookup_delete_ne.
      * apply Forall_forall. intros k Hin.
        apply list_elem_of_filter in Hin as [-> _]. done.
      * apply Forall_forall. intros k Hin.
        apply list_elem_of_filter in Hin as [-> _]. done.
    + split_and?; simpl; by apply filter_other.
  - apply not_elem_of_cons in Hid as [Hne _].
    split; [|by split_and?]. simpl. by rewrite lookup_alter_ne.
  - apply not_elem_of_cons in Hid as [Hne _].
    split; [|by split_and?]. simpl. by rewrite lookup_alter_ne.
Qed.
End frame.

Section request_frame.
Implicit Types (s : db).

Lemma not_in_singleton (a b : Z) : a ≠ b → b ∉ [a].
Proof.
  intros Hne Hin. apply list_elem_of_singleton in Hin. congruence.
Qed.

Lemma untouched_refl s id : untouched s s id.
Proof. split; [done|apply same_facts_refl]. Qed.

Lemma untouched_trans s1 s2 s3 id :
  untouched s1 s2 id → untouched s2 s3 id → untouched s1 s3 id.
Proof.
  unfold untouched, same_facts.
  intros (? & ? & ? & ? & ?) (? & ? & ? & ? & ?). split_and?; congruence.
Qed.

Lemma insert_like_untouched mid u s s' id :
  insert_like mid u s = inr s' → mid ≠ id → untouched s s' id.
Proof.
  intros H Hne. pose proof (execute_frame (S_insert_like mid u) s id) as HF.
  simpl in HF. rewrite H in HF. by apply HF, not_in_singleton.
Qed.

Lemma insert_comment_untouched mid u s c s' id :
  insert_comment mid u s = inr (c, s') → mid ≠ id → untouched s s' id.
Proof.
  intros H Hne. pose proof (execute_frame (S_insert_comment mid u) s id) as HF.
  simpl in HF. rewrite H in HF. by apply HF, not_in_singleton.
Qed.

Lemma insert_download_untouched mid u s s' id :
  insert_download mid u s = inr s' → mid ≠ id → untouched s s' id.
Proof.
  intros H Hne. pose proof (execute_frame (S_insert_download mid u) s id) as HF.
  simpl in HF. rewrite H in HF. by apply HF, not_in_singleton.
Qed.

Lemma unlike_untouched mid u s k id :
  NoDup (like_id <$> likes s) → find_like mid u s = Some k → mid ≠ id →
  untouched s (delete_like (like_id k) s) id.
Proof.
  intros Hnd (Hk & Em & _)%find_like_Some Hne.
  apply (execute_frame (S_delete_like (like_id k)) s id). simpl.
  rewrite (filter_key_singleton like_id (likes s) k) by done. simpl.
  apply not_in_singleton. congruence.
Qed.

Lemma delete_model_untouched d s id :
  d ≠ id → untouched s (delete_model d s) id.
Proof.
  intros Hne. apply (execute_frame (S_delete_model d) s id).
  by apply not_in_singleton.
Qed.

Lemma increment_view_count_untouched v s id :
  v ≠ id → untouched s (increment_view_count v s) id.
Proof.
  intros Hne. apply (execute_frame (S_increment_view_count v) s id).
  by apply not_in_singleton.
Qed.

Lemma write_downloads_count_untouched v d s id :
  d ≠ id → untouched s (write_downloads_count v d s) id.
Proof.
  intros Hne. apply (execute_frame (S_write_downloads_count v d) s id).
  by apply not_in_singleton.
Qed.
End request_frame.

(** X11: a request changes the row and the fact rows of the entity it
    addresses and of no other: for every other entity the [models] row, with
    all its counters, and its like, comment, download and view rows are the
    same after the request.  (The unlike deletes by the key of the like it
    found; the keys of the like rows are distinct.) *)
Theorem request_touches_only_its_entity r s id :
  NoDup (like_id <$> likes s) → target r ≠ Some id →
  untouched s (serve r s) id.
Proof.
  intros Hnd Ht.
  destruct r as [f v|f [mid|] u|f [mid|] c u|f mid u|f [mid|] u|f a m u];
    simpl in *; try apply untouched_refl.
  - assert (v ≠ id) as Hne by congruence.
    unfold get_model_route. unfold_handler. unfold prisma_view_increment.
    repeat case_match; simplify_eq/=; try apply untouched_refl.
    by apply increment_view_count_untouched.
  - assert (mid ≠ id) as Hne by congruence.
    unfold like_route. unfold_handler. unfold prisma_like_delete.
    repeat case_match; simplify_eq/=; try apply untouched_refl.
    + by eapply unlike_untouched.
    + by eapply insert_like_untouched.
  - assert (mid ≠ id) as Hne by congruence.
    unfold comment_route. unfold_handler.
    repeat case_match; simplify_eq/=; try apply untouched_refl.
    by eapply insert_comment_untouched.
  - unfold comment_route. unfold_handler.
    repeat case_match; simplify_eq/=; apply untouched_refl.
  - assert (mid ≠ id) as Hne by congruence.
    unfold download_route. unfold_handler.
    repeat case_match; simplify_eq/=; try apply untouched_refl;
      by eapply insert_download_untouched.
  - assert (mid ≠ id) as Hne by congruence.
    unfold delete_model_route. unfold_handler. unfold prisma_model_delete.
    repeat case_match; simplify_eq/=; try apply untouched_refl.
    by apply delete_model_untouched.
  - assert (cm_id m ≠ id) as Hne by congruence.
    unfold handleDownload. unfold_handler.
    repeat case_match; simplify_eq/=; try apply untouched_refl;
      try (by eapply insert_download_untouched);
      try (by apply write_downloads_count_untouched).
    eapply untouched_trans; [by eapply insert_download_untouched|].
    by apply write_downloads_count_untouched.
Qed.

Lemma request_touches_only_its_entity_witness :
  untouched drifted_db (serve (Post_like no_faults (Some 1) 5) drifted_db) 2.
Proof.
  apply (request_touches_only_its_entity (Post_like no_faults (Some 1) 5)
           drifted_db 2).
  - simpl. apply NoDup_singleton.
  - simpl. intros E. discriminate E.
Defined.

(** ** Unlike *)

(** X12: when the like route answers "unliked", exactly one like row has
    left the table, the one of the caller on that entity: every other like
    row (other users, other entities) is still there, the entity has one
    like row less and its [like_count] is one lower.  (The keys of the like
    rows are distinct.) *)
Theorem unlike_removes_exactly_the_callers_like faults id user s :
  NoDup (like_id <$> likes s) →
  (like_route faults (Some id) user s).1 = unliked_response →
  ∃ k, k ∈ likes s ∧ like_model_id k = id ∧ like_user_id k = user ∧
       (∀ r, r ∈ likes (like_route faults (Some id) user s).2
             ↔ r ∈ likes s ∧ r ≠ k) ∧
       count_likes (like_route faults (Some id) user s).2 id
       = count_likes s id - 1 ∧
       like_count <$> models (like_route faults (Some id) user s).2 !! id
       = (λ m, like_count m - 1) <$> models s !! id.
Proof.
  intros Hnd (k & Hfind & ->)%like_route_unliked.
  pose proof (find_like_Some _ _ _ _ Hfind) as (Hk & Em & Eu).
  pose proof (filter_key_singleton like_id (likes s) k Hnd Hk) as Hone.
  exists k. split_and?; try done.
  - intros r. simpl. rewrite list_elem_of_filter. split.
    + intros [Hne Hr]. split; [done|]. by intros ->.
    + intros [Hr Hne]. split; [|done]. intros Eid. apply Hne.
      apply (NoDup_fmap_eq like_id (likes s)); done.
  - unfold count_likes. simpl.
    rewrite (count_split (λ r, like_model_id r = id)
               (λ r, like_id r = like_id k) (likes s)).
    rewrite Hone, filter_cons_True by done. simpl. lia.
  - simpl. rewrite Hone. simpl. rewrite Em.
    rewrite (fire_lookup_eq T_likes DELETE) by done.
    by destruct (models s !! id).
Qed.

Lemma unlike_removes_exactly_the_callers_like_witness :
  ∃ k, k ∈ likes drifted_db ∧ like_model_id k = 1 ∧ like_user_id k = 5 ∧
       count_likes (like_route no_faults (Some 1) 5 drifted_db).2 1
       = count_likes drifted_db 1 - 1.
Proof.
  destruct (unlike_removes_exactly_the_callers_like no_faults 1 5 drifted_db)
    as (k & Hk & Em & Eu & _ & Hc & _).
  - simpl. apply NoDup_singleton.
  - reflexivity.
  - exists k. split_and?; [exact Hk|exact Em|exact Eu|exact Hc].
Defined.

(** ** Consistent counters *)

Lemma backend_requests_keep_trigger_counters_consistent_witness :
  trigger_counters_consistent
    (serve_all [Post_like no_faults (Some 1) 5; Post_download no_faults 1 6;
                Get_model no_faults 1;
                Post_comment no_faults (Some 1) "nice mesh" 5;
                Post_like no_faults (Some 1) 5] fresh_db) 1.
Proof.
  apply (backend_requests_keep_trigger_counters_consistent
           [Post_like no_faults (Some 1) 5; Post_download no_faults 1 6;
            Get_model no_faults 1;
            Post_comment no_faults (Some 1) "nice mesh" 5;
            Post_like no_faults (Some 1) 5] fresh_db 1).
  - repeat constructor.
  - intros m Hm. injection Hm as <-. split_and?; reflexivity.
Defined.

(** ** Concurrent like requests, continued *)

Lemma concurrent_likes_match_answers_witness :
  let faults := λ u : Z, if decide (u = 6) then second_call_fails
                         else no_faults in
  let sched := [0; 1; 2; 1; 0; 2; 2; 0; 1]%nat in
  like_count <$> models (run 1 sched (spawn faults [5; 6; 8]) fresh_db).2 !! 1
  = Some 2 ∧
  count_likes (run 1 sched (spawn faults [5; 6; 8]) fresh_db).2 1 = 2.
Proof.
  intros faults sched.
  destruct (concurrent_likes_match_answers 1 faults [5; 6; 8] sched fresh_db
              fresh_entity) as [H1 H2].
  - reflexivity.
  - reflexivity.
  - apply (bool_decide_unpack _). vm_compute. exact I.
  - intros u _ Hl. unfold liked_by in Hl. simpl in Hl.
    by apply Exists_nil in Hl.
  - split; [exact H1|exact H2].
Defined.

Lemma like_step_statements E t s :
  ∃ sts, (like_step E t s).2 = execute_all sts s.
Proof.
  unfold like_step, prisma_like_delete.
  repeat case_match; simplify_eq/=; try by (exists []).
  - by exists [S_delete_like (like_id l)].
  - exists [S_insert_like E (th_user t)]. simpl.
    by match goal with H : insert_like _ _ _ = _ |- _ => rewrite H end.
Qed.

Lemma run_statements E sched ts s :
  ∃ sts, (run E sched ts s).2 = execute_all sts s.
Proof.
  revert ts s. induction sched as [|i sched IH]; intros ts s; [by exists []|].
  simpl. destruct (ts !! i) as [t|]; [|apply IH].
  destruct (like_step_statements E t s) as (sts1 & E1).
  destruct (like_step E t s) as [pc s1]. simpl in E1. subst s1.
  destruct (IH (<[i:=set_pc pc t]> ts) (execute_all sts1 s)) as (sts2 & E2).
  exists (sts1 ++ sts2). rewrite E2. unfold execute_all. by rewrite foldl_app.
Qed.

(** X15: like requests on one entity run concurrently in any number, by
    any users (the same user several times included), with any failing calls
    and under any schedule: at every point of the run a user has at most one
    like row per entity, and the like, comment and download counters of
    every entity equal the live numbers of its rows when they did at the
    start.  Two simultaneous likes of one user never leave two rows or a
    counter that is off. *)
Theorem concurrent_likes_keep_the_store_consistent E sched ts s id :
  likes_unique s → trigger_counters_consistent s id →
  likes_unique (run E sched ts s).2 ∧
  trigger_counters_consistent (run E sched ts s).2 id.
Proof.
  intros Hu Hc. destruct (run_statements E sched ts s) as (sts & ->).
  clear sched ts. revert s Hu Hc.
  induction sts as [|st sts IH]; intros s Hu Hc; [done|].
  rewrite execute_all_cons. apply IH.
  - by apply likes_unique_execute.
  - intros m' Hm'.
    destruct (execute_drift st s id m' T_likes Hm') as (m & Hm & Hl & _); [done|].
    destruct (execute_drift st s id m' T_comments Hm') as (? & ? & Hcm & _);
      [done|].
    destruct (execute_drift st s id m' T_downloads Hm') as (? & ? & Hd & _);
      [done|].
    simplify_eq. destruct (Hc m Hm) as (El & Ec & Ed).
    unfold drift in *. simpl in *. split_and?; lia.
Qed.

Lemma concurrent_likes_keep_the_store_consistent_witness :
  let sched := [0; 1; 0; 1; 0; 1]%nat in
  let ts := spawn (λ _, no_faults) [5; 5] in
  likes_unique (run 1 sched ts fresh_db).2 ∧
  trigger_counters_consistent (run 1 sched ts fresh_db).2 1.
Proof.
  intros sched ts.
  apply (concurrent_likes_keep_the_store_consistent 1 sched ts fresh_db 1).
  - unfold likes_unique. simpl. apply NoDup_nil_2.
  - intros m Hm. vm_compute in Hm. injection Hm as <-. vm_compute. auto.
Defined.

(** The same user twice, both lookups before both insertions: one request
    answers "liked", the other 500, and one like row exists. *)
Example double_click :
  let sched := [0; 1; 0; 1; 0; 1]%nat in
  let ts := spawn (λ _, no_faults) [5; 5] in
  th_pc <$> (run 1 sched ts fresh_db).1
  = [Finished liked_response; Finished internal_server_error] ∧
  count_likes (run 1 sched ts fresh_db).2 1 = 1 ∧
  like_count <$> models (run 1 sched ts fresh_db).2 !! 1 = Some 1.
Proof. vm_compute. auto. Qed.

(** ** Pagination *)

Section doubles.
Implicit Types (a b z t : Z).

(** Integers below [2^53] are doubles. *)
Lemma round_double_exact z : Z.abs z < 2 ^ 53 → round_double z = Int z.
Proof.
  intros Hz. unfold round_double. rewrite decide_True; [done|].
  destruct (decide (Z.abs z = 0)) as [->|Hne]; [simpl; lia|].
  assert (Z.log2 (Z.abs z) < 53); [|lia].
  apply Z.log2_lt_pow2; lia.
Qed.

(** Rounding does not fall below a double it started above. *)
Lemma round_double_ge t z :
  0 ≤ t ≤ 2 ^ 53 → t ≤ z →
  match round_double z with
  | Int o => t ≤ o
  | Infinity negative => negative = false
  | NaN => False
  end.
Proof.
  intros [Ht0 Ht] Hz. unfold round_double.
  case_decide as He; [done|].
  assert (0 < z) as Hpos.
  { destruct (decide (z = 0)) as [->|]; [simpl in He; lia|lia]. }
  rewrite (Z.abs_eq z) in * by lia.
  set (e := Z.log2 z - 52) in *.
  case_decide; [apply bool_decide_eq_false; lia|].
  rewrite Z.sgn_pos by done.
  assert (0 < 2 ^ e) as Hpe by (apply Z.pow_pos_nonneg; lia).
  assert (2 ^ 52 ≤ z / 2 ^ e) as Hq.
  { apply Z.div_le_lower_bound; [done|].
    rewrite <- Z.pow_add_r by lia. replace (e + 52) with (Z.log2 z) by lia.
    apply Z.log2_spec. done. }
  assert (2 ^ 1 ≤ 2 ^ e) as He2 by (apply Z.pow_le_mono_r; lia).
  assert (z / 2 ^ e ≤ round_half_even (z / 2 ^ e) (z mod 2 ^ e) (2 ^ e)) as Hr.
  { unfold round_half_even. repeat case_decide; try lia.
    destruct (Z.even _); lia. }
  change (2 ^ 1) with 2 in He2. change (2 ^ 53) with (2 * 2 ^ 52) in Ht.
  nia.
Qed.

Lemma ceil_div_unique x S n :
  0 < S → (n - 1) * S < x → x ≤ n * S → - ((- x) / S) = n.
Proof.
  intros HS Hlo Hhi.
  assert ((- x) / S = - n); [|lia].
  symmetry. apply (Z.div_unique_pos (- x) S (- n) (n * S - x)); lia.
Qed.

(** Below [2^53] the rounding of the quotient never reaches the next
    integer: [Math.ceil(a / b)] is the ceiling of the exact quotient. *)
Lemma ceil_quotient_exact a b :
  0 ≤ a < 2 ^ 53 → 1 ≤ b < 2 ^ 53 → ceil_quotient a b = - ((- a) / b).
Proof.
  intros [Ha0 Ha] [Hb1 Hb]. unfold ceil_quotient.
  case_decide as Ea; [subst; by rewrite Z.div_0_l by lia|].
  rewrite (Z.abs_eq b) by lia.
  destruct (quotient_double a b) as [q0 e0] eqn:Equot.
  rewrite decide_True by lia.
  assert (Z.log2 a ≤ 52) as Hla.
  { assert (Z.log2 a < 53); [apply Z.log2_lt_pow2; lia|lia]. }
  pose proof (Z.log2_nonneg a) as Hla0.
  pose proof (Z.log2_nonneg b) as Hlb0.
  assert (Z.log2 b ≤ 52) as Hlb.
  { assert (Z.log2 b < 53); [apply Z.log2_lt_pow2; lia|lia]. }
  assert (b < 2 ^ (Z.log2 b + 1)) as Hbl.
  { replace (Z.log2 b + 1) with (Z.succ (Z.log2 b)) by lia.
    apply Z.log2_spec. lia. }
  set (n := - ((- a) / b)).
  assert ((n - 1) * b < a ∧ a ≤ n * b) as [Hnlo Hnhi].
  { unfold n. pose proof (Z.div_mod (- a) b ltac:(lia)).
    pose proof (Z.mod_pos_bound (- a) b ltac:(lia)). nia. }
  (* whatever the exponent chosen, it is at most [- log2 b] *)
  assert (∀ e, e ≤ - Z.log2 b →
     ceil_scaled
       (round_half_even
          ((if decide (0 < e) then a else a * 2 ^ (- e))
           / (if decide (0 < e) then b * 2 ^ e else b))
          ((if decide (0 < e) then a else a * 2 ^ (- e))
           mod (if decide (0 < e) then b * 2 ^ e else b))
          (if decide (0 < e) then b * 2 ^ e else b)) e = n) as Hmain.
  { intros e He. rewrite !decide_False by lia. unfold ceil_scaled.
    rewrite decide_False by lia.
    set (S := 2 ^ (- e)).
    assert (0 < S) as HS by (apply Z.pow_pos_nonneg; lia).
    assert (b < 2 * S) as HbS.
    { assert (2 ^ (Z.log2 b + 1) ≤ 2 ^ (- e + 1))
        by (apply Z.pow_le_mono_r; lia).
      rewrite (Z.pow_add_r 2 (- e) 1) in * by lia. fold S in H.
      change (2 ^ 1) with 2 in H. lia. }
    pose proof (Z.div_mod (a * S) b ltac:(lia)) as Hdm.
    pose proof (Z.mod_pos_bound (a * S) b ltac:(lia)) as Hr.
    set (q := a * S / b) in *. set (r := (a * S) mod b) in *.
    apply ceil_div_unique; [done|..].
    - (* the rounded quotient stays above [n - 1] *)
      unfold round_half_even.
      destruct (decide ((n - 1) * S < q)) as [Hq|Hq].
      + repeat case_decide; try lia. destruct (Z.even q); lia.
      + assert (q = (n - 1) * S) as Eq by nia.
        assert (S ≤ r) by nia.
        rewrite decide_True by lia. lia.
    - (* and does not pass [n] *)
      unfold round_half_even.
      assert (q ≤ n * S) by nia.
      destruct (decide (r = 0)) as [Er|Er].
      + rewrite decide_False by lia. rewrite decide_False by lia. done.
      + assert (q < n * S) by nia.
        repeat case_decide; try lia. destruct (Z.even q); lia. }
  unfold quotient_double in Equot.
  case_decide; injection Equot as <- <-; apply Hmain; lia.
Qed.
End doubles.

Section pagination.
Context {A : Type}.
Implicit Types (rows : list A).

Lemma windows_are_a_prefix rows (L n : nat) :
  flat_map (λ k : nat, take L (drop ((k - 1) * L) rows)) (seq 1 n)
  = take (n * L) rows.
Proof.
  induction n as [|n IH]; [done|].
  rewrite seq_S, flat_map_app, IH. simpl. rewrite app_nil_r.
  replace (n - 0)%nat with n by lia.
  rewrite take_take_drop. f_equal. lia.
Qed.
End pagination.

(** X16: [GET /] with a limit that parses to a number of at least 1, over
    a result of fewer than [2^53] rows: the limit in force is the smaller of
    that number and 100, the answer's [pages] is a number [n] with
    [(n - 1) * limit < total <= n * limit]; for each of the pages 1 to [n]
    the route's offset is exactly [(page - 1) * limit] and the page is not
    empty, and these pages follow one another without gap or overlap and
    together make up the whole result.  For every page number beyond [n],
    however large, the offset the route computes in doubles is infinite or
    a number not below [total], at which the result has no row. *)
Theorem pages_cover_the_result {A : Type} (rows : list A) (q : Z) :
  1 ≤ q → Z.of_nat (length rows) < 2 ^ 53 →
  let limit := Present (Int q) in
  let total := Z.of_nat (length rows) in
  ∃ (l : Z) (n : nat),
    limitNum limit = Int l ∧ l = Z.min q 100 ∧
    pages total limit = Some (Z.of_nat n) ∧
    (Z.of_nat n - 1) * l < total ∧
    total ≤ Z.of_nat n * l ∧
    (∀ k : nat, (1 ≤ k ≤ n)%nat →
       skip (Present (Int (Z.of_nat k))) limit
       = Int ((Z.of_nat k - 1) * l) ∧
       offset_limit ((Z.of_nat k - 1) * l) l rows ≠ []) ∧
    flat_map (λ k : nat, offset_limit ((Z.of_nat k - 1) * l) l rows) (seq 1 n)
    = rows ∧
    (∀ k : Z, Z.of_nat n < k →
       match skip (Present (Int k)) limit with
       | Int o => total ≤ o ∧ offset_limit o l rows = []
       | Infinity negative => negative = false
       | NaN => False
       end).
Proof.
  intros Hq Hrows limit total. set (l := Z.min q 100).
  assert (1 ≤ l ≤ 100) as Hl by (unfold l; lia).
  assert (0 ≤ total < 2 ^ 53) as Htot by (unfold total; lia).
  set (c := - ((- total) / l)).
  assert (total ≤ c * l ∧ (c - 1) * l < total) as [Hup Hlow].
  { unfold c. pose proof (Z.div_mod (- total) l ltac:(lia)) as Hdm.
    pose proof (Z.mod_pos_bound (- total) l ltac:(lia)) as Hr. nia. }
  assert (0 ≤ c) as Hc by nia.
  assert (c ≤ total) as Hct by nia.
  exists l, (Z.to_nat c). rewrite Z2Nat.id by done.
  assert (∀ k : nat, offset_limit ((Z.of_nat k - 1) * l) l rows
                     = take (Z.to_nat l) (drop ((k - 1) * Z.to_nat l) rows))
    as Hwin.
  { intros k. unfold offset_limit. f_equal. f_equal.
    destruct k as [|k]; [simpl; lia|].
    rewrite Z2Nat.inj_mul by lia. f_equal. lia. }
  split_and?.
  - done.
  - done.
  - unfold pages. simpl. fold l. rewrite decide_False by lia.
    f_equal. apply ceil_quotient_exact; lia.
  - done.
  - done.
  - intros k [Hk1 Hk2]. split.
    + unfold skip. simpl. fold l.
      rewrite round_double_exact by lia. simpl.
      apply round_double_exact. nia.
    + rewrite Hwin. intros E.
      apply (f_equal length) in E. rewrite length_take, length_drop in E.
      simpl in E. unfold total in *. nia.
  - rewrite (flat_map_ext _ (λ k : nat,
               take (Z.to_nat l) (drop ((k - 1) * Z.to_nat l) rows)))
      by (intros; apply Hwin).
    rewrite windows_are_a_prefix. apply take_ge.
    unfold total in *. nia.
  - intros k Hk. unfold skip. simpl. fold l.
    pose proof (round_double_ge c (k - 1) ltac:(lia) ltac:(lia)) as H1.
    destruct (round_double (k - 1)) as [|neg|z]; [done|..]; simpl.
    + subst neg. rewrite decide_False by lia. simpl.
      apply bool_decide_eq_false. lia.
    + pose proof (round_double_ge total (z * l) ltac:(lia) ltac:(nia)) as H2.
      destruct (round_double (z * l)) as [|neg|o]; [done|done|].
      split; [done|]. unfold offset_limit.
      rewrite skipn_all2; [by destruct (Z.to_nat l)|]. unfold total in *. lia.
Qed.

Lemma pages_cover_the_result_witness :
  ∃ (l : Z) (n : nat),
    limitNum (Present (Int 250)) = Int l ∧ l = 100 ∧
    pages 3 (Present (Int 250)) = Some (Z.of_nat n) ∧
    flat_map (λ k : nat, offset_limit ((Z.of_nat k - 1) * l) l [7; 8; 9])
      (seq 1 n) = [7; 8; 9].
Proof.
  destruct (pages_cover_the_result [7; 8; 9] 250 ltac:(lia)
              ltac:(simpl; lia))
    as (l & n & H1 & H2 & H3 & _ & _ & _ & H4 & _).
  exists l, n. split_and?; [exact H1|exact H2|exact H3|exact H4].
Defined.

(** Far beyond the last page the offset is a rounded number: for the page
    [2^53 + 2] and the limit 1 the route computes [2^53], not
    [2^53 + 1]. *)
Example skip_is_rounded :
  skip (Present (Int 9007199254740994)) (Present (Int 1))
  = Int 9007199254740992.
Proof. vm_compute. reflexivity. Qed.

(** ** Follows *)

Section follows.
Implicit Types (s : social_db).

Lemma find_follow_None s a b : find_follow a b s = None ↔ ¬ following s a b.
Proof.
  unfold find_follow, following. split.
  - intros E. apply (filter_empty_not_Exists _).
    by destruct (filter _ (follows s)).
  - intros Hn. by rewrite filter_none.
Qed.

Lemma serve_follow_cases r s :
  serve_follow r s = s ∨
  (∃ a b, a ≠ b ∧ insert_follow a b s = inr (serve_follow r s)) ∨
  (∃ a b, delete_follow a b s = inr (serve_follow r s)).
Proof.
  destruct r as [f u me|f u me]; simpl.
  - unfold follow_route. repeat case_match; simplify_eq/=; eauto 8.
  - unfold unfollow_route. repeat case_match; simplify_eq/=; eauto 8.
Qed.

Lemma follows_ok_serve r s : follows_ok s → follows_ok (serve_follow r s).
Proof.
  intros [Hirr Hnd].
  destruct (serve_follow_cases r s) as [-> | [(a & b & Hne & Hins) | (a & b & Hdel)]];
    [done| |].
  - unfold insert_follow in Hins. repeat case_decide; simplify_eq.
    rewrite <- Hins. split; simpl.
    + apply Forall_app. split; [done|]. by repeat constructor.
    + rewrite fmap_app. apply NoDup_app. split_and?; [done| |apply NoDup_singleton].
      intros p Hp Hp'. apply list_elem_of_singleton in Hp'. subst p.
      apply list_elem_of_fmap in Hp as (r' & [= E1 E2] & Hr').
      match goal with H : ¬ Exists _ _ |- _ => apply H end.
      apply Exists_exists. by exists r'.
  - unfold delete_follow in Hdel. destruct (find_follow a b s); simplify_eq.
    rewrite <- Hdel. split; simpl.
    + by apply Forall_filter_keep.
    + eapply sublist_NoDup; [exact Hnd|]. apply fmap_sublist, sublist_filter.
Qed.
End follows.

(** X17: over every sequence of follow and unfollow requests, no user ever
    follows themselves and a pair of follower and followed user has at most
    one follow row. *)
Theorem follows_stay_irreflexive_and_unique rs s :
  follows_ok s → follows_ok (serve_follows rs s).
Proof.
  revert s. induction rs as [|r rs IH]; intros s Hs; [done|].
  by apply IH, follows_ok_serve.
Qed.

Lemma follows_stay_irreflexive_and_unique_witness :
  follows_ok (serve_follows [Post_follow no_faults 1 1;
                             Post_follow no_faults 3 1;
                             Post_follow no_faults 3 1;
                             Delete_follow no_faults 2 1] small_circle).
Proof.
  apply (follows_stay_irreflexive_and_unique
           [Post_follow no_faults 1 1; Post_follow no_faults 3 1;
            Post_follow no_faults 3 1; Delete_follow no_faults 2 1]
           small_circle).
  split; simpl.
  - repeat constructor. simpl. lia.
  - apply NoDup_singleton.
Defined.

(** X18: a follow that answers 200 followed by the unfollow of the same
    user, no call failing, answers 200 again and leaves the follow rows
    exactly as they were before the follow. *)
Theorem follow_then_unfollow_round_trip faults faults' userId me s :
  f_status (follow_route faults userId me s).1 = 200 →
  faults' 0%nat = false →
  let s1 := (follow_route faults userId me s).2 in
  following s1 me userId ∧
  f_status (unfollow_route faults' userId me s1).1 = 200 ∧
  follows (unfollow_route faults' userId me s1).2 = follows s.
Proof.
  intros H200 F0 s1.
  assert (¬ following s me userId ∧
          s1 = Social (profiles s)
                 (follows s ++ [Follow (next_follow_id s) me userId])
                 (next_follow_id s + 1)) as [Hnot Hs1].
  { subst s1. revert H200. unfold follow_route, insert_follow.
    repeat case_match; simplify_eq/=; done. }
  assert (following s1 me userId) as Hfol.
  { rewrite Hs1. unfold following. simpl. apply Exists_app. right.
    by constructor. }
  split; [done|].
  unfold unfollow_route, delete_follow. rewrite F0.
  destruct (find_follow me userId s1) as [k|] eqn:Hk.
  2:{ apply find_follow_None in Hk. contradiction. }
  simpl. split; [done|]. rewrite Hs1. simpl.
  rewrite filter_app, filter_cons_False, filter_nil, app_nil_r by tauto.
  clear -Hnot. unfold following in Hnot.
  induction (follows s) as [|r l IH]; [done|].
  rewrite filter_cons_True.
  - f_equal. apply IH. intros Hex. apply Hnot. by right.
  - intros Hr. apply Hnot. by left.
Qed.

Lemma follow_then_unfollow_round_trip_witness :
  let s1 := (follow_route no_faults 3 1 small_circle).2 in
  following s1 1 3 ∧
  f_status (unfollow_route no_faults 3 1 s1).1 = 200 ∧
  follows (unfollow_route no_faults 3 1 s1).2 = follows small_circle.
Proof.
  apply (follow_then_unfollow_round_trip no_faults no_faults 3 1 small_circle);
    reflexivity.
Defined.

(** X19: the two routes treat a repeated request differently.  Following a
    user one already follows answers 409 and changes nothing.  Unfollowing a
    user one does not follow makes [follow.delete] raise, and the route
    answers 500 "Failed to unfollow user", not 404, and changes nothing;
    the route does not look up the user either, so a user that does not
    exist gives the same 500. *)
Theorem repeated_follow_and_stray_unfollow faults userId me s :
  faults 0%nat = false → faults 1%nat = false →
  (following s me userId → userId ∈ profiles s → me ≠ userId →
   follow_route faults userId me s
   = (FollowResponse 409 (Some "Already Following"%string)
        "You are already following this user", s)) ∧
  (¬ following s me userId →
   unfollow_route faults userId me s
   = (FollowResponse 500 (Some "Internal Server Error"%string)
        "Failed to unfollow user", s)).
Proof.
  intros F0 F1. split.
  - intros Hfol Huser Hne. unfold follow_route.
    rewrite decide_False, F0, decide_True, F1 by done.
    destruct (find_follow me userId s) eqn:Hk; [done|].
    apply find_follow_None in Hk. contradiction.
  - intros Hnot. unfold unfollow_route, delete_follow. rewrite F0.
    apply find_follow_None in Hnot. by rewrite Hnot.
Qed.

Lemma repeated_follow_and_stray_unfollow_witness :
  f_status (follow_route no_faults 2 1 small_circle).1 = 409 ∧
  f_status (unfollow_route no_faults 3 1 small_circle).1 = 500 ∧
  f_status (unfollow_route no_faults 99 1 small_circle).1 = 500.
Proof.
  destruct (repeated_follow_and_stray_unfollow no_faults 2 1 small_circle
              eq_refl eq_refl) as [H409 _].
  destruct (repeated_follow_and_stray_unfollow no_faults 3 1 small_circle
              eq_refl eq_refl) as [_ H500].
  destruct (repeated_follow_and_stray_unfollow no_faults 99 1 small_circle
              eq_refl eq_refl) as [_ H500'].
  split_and?.
  - rewrite H409; [reflexivity| | |].
    + unfold following. simpl. apply Exists_cons_hd. split; reflexivity.
    + vm_compute. reflexivity.
    + lia.
  - rewrite H500; [reflexivity|]. unfold following. simpl.
    intros Hex. apply Exists_cons in Hex as [[_ Hex]|Hex]; [simpl in Hex; lia|].
    by apply Exists_nil in Hex.
  - rewrite H500'; [reflexivity|]. unfold following. simpl.
    intros Hex. apply Exists_cons in Hex as [[_ Hex]|Hex]; [simpl in Hex; lia|].
    by apply Exists_nil in Hex.
Defined.

(** ** The download button, continued *)

(** X20: [handleDownload] changes the store only when it reports success:
    whenever its toast is an error (not logged in, no file path, signed URL
    refused) the store is as it was.  The converse fails: when the signed
    URL is granted and both the tracking insert and the counter update fail,
    the toast is still "Download started!" and nothing has been recorded. *)
Theorem handleDownload_reports_success_without_recording
    faults isAuthenticated model user s :
  (∀ message,
     (handleDownload faults isAuthenticated model user s).1
     = toast_error message →
     (handleDownload faults isAuthenticated model user s).2 = s) ∧
  (isAuthenticated = true → falsy_path (cm_file_path model) = false →
   faults 0%nat = false → faults 1%nat = true → faults 2%nat = true →
   handleDownload faults isAuthenticated model user s
   = (toast_success "Download started!", s)).
Proof.
  split.
  - intros message. unfold handleDownload. unfold_handler.
    repeat case_match; simplify_eq/=; done.
  - intros -> Hp F0 F1 F2. unfold handleDownload. simpl. rewrite Hp.
    unfold_handler. by rewrite F0, F1, F2.
Qed.

Lemma handleDownload_reports_success_without_recording_witness :
  (handleDownload no_faults true (ClientModel 1 (Some "") (Some 0)) 7
     fresh_db).2 = fresh_db ∧
  handleDownload (λ k, bool_decide (k ≠ 0%nat)) true stale_model 7 fresh_db
  = (toast_success "Download started!", fresh_db).
Proof.
  destruct (handleDownload_reports_success_without_recording no_faults true
              (ClientModel 1 (Some "") (Some 0)) 7 fresh_db) as [Herr _].
  destruct (handleDownload_reports_success_without_recording
              (λ k, bool_decide (k ≠ 0%nat)) true stale_model 7 fresh_db)
    as [_ Hok].
  split.
  - apply (Herr "No file available for download"%string). reflexivity.
  - apply Hok; reflexivity.
Defined.

(** ** The trigger after [downloads-setup.sql] *)

(** X21: the function [downloads-setup.sql] puts in place of
    [update_model_counts] agrees with the one of [schema.sql] on inserted
    downloads and does nothing on every other event the triggers are bound
    to, where the function of [schema.sql] moves the counter of the entity by
    one: once the script has run, likes, comments and views are no longer
    counted, in either direction. *)
Theorem setup_script_stops_like_comment_and_view_counting tbl op id ms m :
  trigger_bound tbl op = true → ms !! id = Some m →
  (tbl = T_downloads →
   update_model_counts_setup op tbl id ms = update_model_counts op tbl id ms) ∧
  (tbl ≠ T_downloads →
   update_model_counts_setup op tbl id ms = ms ∧
   counter tbl <$> update_model_counts op tbl id ms !! id
   = Some (counter tbl m + delta tbl op) ∧
   delta tbl op ≠ 0).
Proof.
  intros Hb Hm. split.
  - intros ->. by destruct op.
  - intros Hne. destruct tbl, op; simpl in *; try done;
      rewrite lookup_alter_eq, Hm; simpl; split_and?; done.
Qed.

Lemma setup_script_stops_like_comment_and_view_counting_witness :
  update_model_counts_setup INSERT T_likes 1 (models fresh_db)
  = models fresh_db ∧
  counter T_likes <$> update_model_counts INSERT T_likes 1 (models fresh_db) !! 1
  = Some (0 + 1).
Proof.
  destruct (setup_script_stops_like_comment_and_view_counting T_likes INSERT 1
              (models fresh_db) fresh_entity eq_refl eq_refl) as [_ H].
  destruct H as (H1 & H2 & _); [discriminate|]. split; [exact H1|exact H2].
Defined.

(** ** The trigger under row level security *)

(** X22: a download row inserted by a client of the store (the policies of
    [schema.sql] in force) is always accepted, but the trigger counts it only
    when the client is the owner of the entity: for every other client, and
    without a session, the row is added and [models] is left as it was, so
    [download_count] falls behind the download rows; for the owner the
    statement does what [insert_download] does. *)
Theorem client_downloads_are_counted_for_the_owner_only
    uid model_id user_id s m :
  models s !! model_id = Some m →
  (uid = Some (m_user_id m) →
   client_insert_download uid model_id user_id s
   = insert_download model_id user_id s) ∧
  (uid ≠ Some (m_user_id m) →
   ∃ s', client_insert_download uid model_id user_id s = inr s' ∧
         models s' = models s ∧
         count_downloads s' model_id = count_downloads s model_id + 1 ∧
         (download_count m = count_downloads s model_id →
          ¬ trigger_counters_consistent s' model_id)).
Proof.
  intros Hm. unfold client_insert_download, insert_download. rewrite Hm.
  unfold update_model_counts_as, models_select_policy, models_update_policy.
  rewrite Hm. split.
  - intros ->. rewrite bool_decide_eq_true_2 by done.
    by rewrite orb_true_r.
  - intros Hne. rewrite (bool_decide_eq_false_2 (uid = _)) by done.
    rewrite andb_false_r. eexists. split; [done|]. simpl.
    split_and?; [done| |].
    + unfold count_downloads. simpl. rewrite count_snoc.
      by rewrite decide_True.
    + intros Hc Hs. destruct (Hs m Hm) as (_ & _ & Hd).
      unfold count_downloads in *. simpl in *. rewrite count_snoc in Hd.
      rewrite decide_True in Hd by done. lia.
Qed.

Lemma client_downloads_are_counted_for_the_owner_only_witness :
  client_insert_download (Some 7) 1 (Some 7) fresh_db
  = insert_download 1 (Some 7) fresh_db ∧
  ∃ s', client_insert_download (Some 5) 1 (Some 5) fresh_db = inr s' ∧
        models s' = models fresh_db ∧
        count_downloads s' 1 = count_downloads fresh_db 1 + 1.
Proof.
  destruct (client_downloads_are_counted_for_the_owner_only (Some 7) 1 (Some 7)
              fresh_db fresh_entity eq_refl) as [Hown _].
  destruct (client_downloads_are_counted_for_the_owner_only (Some 5) 1 (Some 5)
              fresh_db fresh_entity eq_refl) as [_ Hother].
  split; [apply Hown; reflexivity|].
  destruct Hother as (s' & H1 & H2 & H3 & _); [intros E; discriminate E|].
  exists s'. split_and?; [exact H1|exact H2|exact H3].
Defined.

(** ** Publishing and unpublishing *)

Section status.
Implicit Types (s : db) (m : model_row).

Lemma status_route_owner faults id b user s m :
  faults 0%nat = false → faults 1%nat = false →
  models s !! id = Some m → m_user_id m = user →
  status_route faults id (V_bool b) user s
  = (StatusAnswer 200 None
       (if b then "Model published successfully"
        else "Model made private successfully") (Some b),
     with_models (alter (set_is_public b) id (models s)) s).
Proof.
  intros F0 F1 Hm Hu. unfold status_route. unfold_handler.
  rewrite F0, F1. unfold find_owned_model, prisma_status_update. simpl.
  rewrite Hm. rewrite decide_True by done. simpl. by rewrite Hm.
Qed.
End status.

(** X23: only the owner changes the visibility of an entity, and the
    change touches nothing else: for a user who does not own the entity the
    route answers 404 and leaves the store as it was; for the owner it sets
    [is_public] to the boolean sent and keeps the counters, the owner, the
    price flag and every fact row.  Unpublishing and publishing again gives
    back the very store the owner started from. *)
Theorem status_route_changes_visibility_only faults id b user s m :
  faults 0%nat = false → faults 1%nat = false →
  models s !! id = Some m →
  (m_user_id m ≠ user →
   status_route faults id (V_bool b) user s
   = (StatusAnswer 404 (Some "Not Found"%string) "Model not found" None, s)) ∧
  (m_user_id m = user →
   let s' := (status_route faults id (V_bool b) user s).2 in
   models s' !! id = Some (set_is_public b m) ∧
   (∀ id', id' ≠ id → models s' !! id' = models s !! id') ∧
   likes s' = likes s ∧ comments s' = comments s ∧
   downloads s' = downloads s ∧ model_views s' = model_views s ∧
   (is_public m = true →
    (status_route faults id (V_bool true) user
       (status_route faults id (V_bool false) user s).2).2 = s)).
Proof.
  intros F0 F1 Hm. split.
  - intros Hne. unfold status_route. unfold_handler. rewrite F0.
    unfold find_owned_model. simpl. rewrite Hm. by rewrite decide_False.
  - intros Hu s'. subst s'.
    rewrite !(status_route_owner faults id _ user s m) by done. simpl.
    split_and?; try done.
    + by rewrite lookup_alter_eq, Hm.
    + intros id' Hne. by rewrite lookup_alter_ne.
    + intros Hpub.
      rewrite (status_route_owner faults id true user _ (set_is_public false m));
        [|done|done|by simpl; rewrite lookup_alter_eq, Hm|done].
      simpl. destruct s as [ms ls cs ds vs n]. unfold with_models. simpl in *.
      f_equal. rewrite alter_alter_eq. apply alter_id.
      intros m' Hm'. rewrite Hm in Hm'. injection Hm' as <-.
      destruct m. simpl in *. unfold set_is_public. simpl. by rewrite Hpub.
Qed.

Lemma status_route_changes_visibility_only_witness :
  status_route no_faults 1 (V_bool false) 5 fresh_db
  = (StatusAnswer 404 (Some "Not Found"%string) "Model not found" None,
     fresh_db) ∧
  is_public <$> models (status_route no_faults 1 (V_bool false) 7 fresh_db).2 !! 1
  = Some false ∧
  (status_route no_faults 1 (V_bool true) 7
     (status_route no_faults 1 (V_bool false) 7 fresh_db).2).2 = fresh_db.
Proof.
  destruct (status_route_changes_visibility_only no_faults 1 false 5 fresh_db
              fresh_entity eq_refl eq_refl eq_refl) as [Hno _].
  destruct (status_route_changes_visibility_only no_faults 1 false 7 fresh_db
              fresh_entity eq_refl eq_refl eq_refl) as [_ Hyes].
  destruct (Hyes eq_refl) as (Hm & _ & _ & _ & _ & _ & Hback).
  split_and?.
  - apply Hno. simpl. lia.
  - rewrite Hm. reflexivity.
  - apply Hback. reflexivity.
Defined.

(** X24: once its owner has made an entity private, the like, comment and
    download routes answer 404 to everyone while [GET /:id] goes on
    answering 200 for it; the likes, comments and downloads it had and
    their counters stay in the store. *)
Theorem unpublished_entity_keeps_its_facts faults id content user owner s m :
  faults 0%nat = false → faults 1%nat = false →
  models s !! id = Some m → m_user_id m = owner →
  valid_content content = true →
  let s' := (status_route faults id (V_bool false) owner s).2 in
  (like_route faults (Some id) user s').1
  = Response 404 (B_error "Model not found") ∧
  (comment_route faults (Some id) content user s').1
  = Response 404 (B_error "Model not found") ∧
  (download_route faults id user s').1
  = Response 404 (B_error "Model not found or not public") ∧
  status (get_model_route faults id s').1 = 200 ∧
  (∀ tbl, counter tbl <$> models s' !! id = Some (counter tbl m)) ∧
  (∀ tbl, count_rows tbl s' id = count_rows tbl s id).
Proof.
  intros F0 F1 Hm Hu Hv s'. subst s'.
  rewrite (status_route_owner faults id false owner s m) by done.
  cbn [snd].
  remember (with_models (alter (set_is_public false) id (models s)) s)
    as s' eqn:Hs'.
  assert (models s' !! id = Some (set_is_public false m)) as Hm'.
  { subst s'. simpl. by rewrite lookup_alter_eq, Hm. }
  split_and?.
  - unfold like_route. unfold_handler. rewrite F0.
    unfold find_public_model. simpl. by rewrite Hm'.
  - unfold comment_route. rewrite Hv. simpl. unfold_handler. rewrite F0.
    unfold find_public_model. simpl. by rewrite Hm'.
  - unfold download_route. unfold_handler. rewrite F0.
    unfold find_public_model. simpl. by rewrite Hm'.
  - unfold get_model_route. unfold_handler.
    unfold find_unique_model, prisma_view_increment. rewrite F0, F1, Hm'.
    simpl. by rewrite Hm'.
  - intros tbl. rewrite Hm'. by destruct tbl.
  - intros tbl. subst s'. by destruct tbl.
Qed.

Lemma unpublished_entity_keeps_its_facts_witness :
  let s' := (status_route no_faults 1 (V_bool false) 7 downloaded_db).2 in
  (download_route no_faults 1 9 s').1
  = Response 404 (B_error "Model not found or not public") ∧
  status (get_model_route no_faults 1 s').1 = 200 ∧
  downloads s' = downloads downloaded_db.
Proof.
  destruct (unpublished_entity_keeps_its_facts no_faults 1 "nice" 9 7
              downloaded_db (set_download_count (λ _, 1) fresh_entity))
    as (_ & _ & Hd & Hg & _ & _); try reflexivity.
  intros s'. subst s'.
  split; [exact Hd|]. split; [exact Hg|reflexivity].
Defined.

(** X25: the status route does not check that [isPublic] was sent.  For a
    request of the owner without it, the update changes nothing and the
    answer is 200 with the message of the unpublishing case, whatever the
    visibility of the entity: for a public entity the message says it was
    made private while the answer's model and the store say it is public. *)
Theorem status_route_without_isPublic faults id user s m :
  faults 0%nat = false → faults 1%nat = false →
  models s !! id = Some m → m_user_id m = user →
  status_route faults id V_undefined user s
  = (StatusAnswer 200 None "Model made private successfully"
       (Some (is_public m)), s).
Proof.
  intros F0 F1 Hm Hu. unfold status_route. unfold_handler.
  rewrite F0, F1. unfold find_owned_model, prisma_status_update. simpl.
  rewrite Hm. rewrite decide_True by done. simpl. by rewrite Hm.
Qed.

Lemma status_route_without_isPublic_witness :
  status_route no_faults 1 V_undefined 7 fresh_db
  = (StatusAnswer 200 None "Model made private successfully" (Some true),
     fresh_db).
Proof.
  apply (status_route_without_isPublic no_faults 1 7 fresh_db fresh_entity);
    reflexivity.
Defined.

(** ** The download button under row level security *)

(** X26: run by the owner of the entity, the download button under the
    policies does exactly what [handleDownload] does.  Run by any other
    user it never changes [models]: with the signed URL granted and the
    insert going through, the download row is added and the toast is
    "Download started!", while neither the trigger nor the page's own
    update counts the download. *)
Theorem download_button_counts_for_the_owner_only
    faults isAuthenticated model user s m :
  models s !! cm_id model = Some m →
  (m_user_id m = user →
   handleDownload_as_client faults isAuthenticated model user s
   = handleDownload faults isAuthenticated model user s) ∧
  (m_user_id m ≠ user →
   models (handleDownload_as_client faults isAuthenticated model user s).2
   = models s ∧
   (isAuthenticated = true → falsy_path (cm_file_path model) = false →
    faults 0%nat = false → faults 1%nat = false →
    handleDownload_as_client faults isAuthenticated model user s
    = (toast_success "Download started!",
       Db (models s) (likes s) (comments s)
          (downloads s ++ [Download (next_id s) (cm_id model) (Some user)])
          (model_views s) (next_id s + 1)))).
Proof.
  intros Hm. unfold handleDownload_as_client, handleDownload.
  destruct isAuthenticated; simpl; [|by split].
  destruct (falsy_path (cm_file_path model)); [by split|].
  unfold_handler.
  unfold client_insert_download, insert_download,
    client_write_downloads_count, update_model_counts_as,
    models_select_policy, models_update_policy.
  split.
  - intros <-.
    destruct (faults 0%nat), (faults 1%nat), (faults 2%nat); simpl; try done;
      rewrite ?Hm; simpl;
      rewrite ?bool_decide_eq_true_2, ?orb_true_r by done; simpl; try done.
    rewrite lookup_alter_eq, Hm. simpl.
    by rewrite bool_decide_eq_true_2, orb_true_r by done.
  - intros Hne.
    assert (bool_decide (Some user = Some (m_user_id m)) = false) as Hb
      by (apply bool_decide_eq_false; congruence).
    split.
    + destruct (faults 0%nat), (faults 1%nat), (faults 2%nat); simpl;
        try done; rewrite ?Hm; simpl; rewrite ?Hb, ?andb_false_r; simpl;
        try done; by rewrite Hm, Hb, andb_false_r.
    + intros _ _ -> ->. simpl. rewrite Hm. simpl. rewrite Hb, andb_false_r.
      destruct (faults 2%nat); simpl; [done|].
      by rewrite Hm, Hb, andb_false_r.
Qed.

Lemma download_button_counts_for_the_owner_only_witness :
  handleDownload_as_client no_faults true stale_model 7 busy_db
  = handleDownload no_faults true stale_model 7 busy_db ∧
  models (handleDownload_as_client no_faults true stale_model 5 busy_db).2
  = models busy_db ∧
  (handleDownload_as_client no_faults true stale_model 5 busy_db).1
  = toast_success "Download started!".
Proof.
  destruct (download_button_counts_for_the_owner_only no_faults true
              stale_model 7 busy_db (set_downloads_count (Some 5) fresh_entity)
              eq_refl) as [Hown _].
  destruct (download_button_counts_for_the_owner_only no_faults true
              stale_model 5 busy_db (set_downloads_count (Some 5) fresh_entity)
              eq_refl) as [_ Hother].
  destruct Hother as [Hmodels Hrun]; [simpl; lia|].
  split; [apply Hown; reflexivity|]. split; [exact Hmodels|].
  rewrite Hrun; reflexivity.
Defined.
